(** * Drishti mobile client: panic alert, login and Google sign-in flows

    A shallow embedding of the client-side logic of the Drishti personal-safety
    web application:

    - [src/contexts/PanicContext] (the [PanicProvider]): loading of SOS alerts,
      the realtime INSERT/UPDATE handlers, [activatePanic],
      [sendPanicAlertToBackend], [deactivatePanic], [resetButtonState];
    - [src/lib/supabaseClient.js]: [ensureSupabaseUser], [recordStreamToBlob],
      [uploadStreamToSupabase];
    - [src/contexts/AuthContext]: [login];
    - [src/components/GoogleSignIn.jsx] and [src/pages/AuthCallback]: the PKCE
      helpers, [startAuth] and the callback effect.

    Asynchronous functions are written in a small free monad [Proc] whose
    nodes are: reading and writing the client state, emitting an observable
    effect (toast, console line, navigation), asking the environment a
    synchronous question (clock, random values) and calling an external
    collaborator (Firebase, Supabase, fetch, media recorder).  External calls
    are answered by an arbitrary handler, so that every statement quantified
    over handlers covers every behaviour of the managed services. *)

From Stdlib Require Import ZArith QArith Lia Ascii String.
From Stdlib.Strings Require Import Byte.
From stdpp Require Import base option list strings gmap pretty.

Local Open Scope string_scope.
Local Open Scope Z_scope.

(* ================================================================== *)
(** * JavaScript values and string helpers *)
(* ================================================================== *)

(** JavaScript truthiness of a possibly absent string: [null], [undefined]
    and the empty string are falsy. *)
Definition truthy (s : option string) : bool :=
  match s with
  | Some s => negb (String.eqb s "")
  | None => false
  end.

(** [a || b] on possibly absent strings. *)
Definition or_else (s : option string) (d : string) : string :=
  if truthy s then default d s else d.

(** [a || null] on possibly absent strings. *)
Definition or_null (s : option string) : option string :=
  if truthy s then s else None.

(** [s.startsWith(p)]. *)
Definition startsWith (s p : string) : bool := String.prefix p s.

(** [s.includes(sub)]. *)
Fixpoint includes (s sub : string) : bool :=
  String.prefix sub s ||
  match s with
  | EmptyString => false
  | String _ s' => includes s' sub
  end.

(** White space as matched by [\s] and removed by [trim], on ASCII text:
    tab, line feed, vertical tab, form feed, carriage return and space. *)
Definition is_space (c : ascii) : bool :=
  let n := Ascii.nat_of_ascii c in
  ((9 <=? n)%nat && (n <=? 13)%nat) || (n =? 32)%nat.

Fixpoint trimStart (s : string) : string :=
  match s with
  | String c s' => if is_space c then trimStart s' else s
  | EmptyString => EmptyString
  end.

(** Removes trailing white space: a character is kept when something that
    is kept follows it or when it is not white space. *)
Fixpoint trimEnd (s : string) : string :=
  match s with
  | EmptyString => EmptyString
  | String c s' =>
      match trimEnd s' with
      | EmptyString => if is_space c then EmptyString else String c EmptyString
      | t => String c t
      end
  end.

Definition trim (s : string) : string := trimEnd (trimStart s).

Definition lower_ascii (c : ascii) : ascii :=
  let n := Ascii.nat_of_ascii c in
  if ((65 <=? n)%nat && (n <=? 90)%nat) then Ascii.ascii_of_nat (n + 32) else c.

(** [s.toLowerCase()] on ASCII text. *)
Fixpoint toLowerCase (s : string) : string :=
  match s with
  | EmptyString => EmptyString
  | String c s' => String (lower_ascii c) (toLowerCase s')
  end.

(** Template-literal rendering of a possibly [undefined] string. *)
Definition show_undefined (s : option string) : string := default "undefined" s.

(** JavaScript error values: the [name] of the constructor and the
    [message]. *)
Record Error := mkError { err_name : string; err_message : string }.

Definition new_Error (msg : string) : Error := mkError "Error" msg.
Definition TypeError (msg : string) : Error := mkError "TypeError" msg.
Definition ReferenceError (msg : string) : Error := mkError "ReferenceError" msg.

(** Settlement of an awaited promise. *)
Inductive Outcome (R : Type) : Type :=
| Resolved (r : R)
| Rejected (e : Error).
Arguments Resolved {R} r.
Arguments Rejected {R} e.

Definition is_resolved {R} (o : Outcome R) : bool :=
  match o with Resolved _ => true | Rejected _ => false end.

(** [Number.prototype.toFixed(4)] on the exact value of the number: the
    integer [n] closest to [x * 10^4] (the larger one on a tie, taken on the
    absolute value), printed with four decimals and the sign of [x]. *)
Definition pad4 (n : Z) : string :=
  let d := pretty n in
  match String.length d with
  | 1%nat => "000" ++ d
  | 2%nat => "00" ++ d
  | 3%nat => "0" ++ d
  | _ => d
  end.

Definition toFixed4 (x : Q) : string :=
  let num := Z.abs (Qnum x) in
  let den := Zpos (Qden x) in
  let n := (2 * num * 10000 + den) / (2 * den) in
  (if Qnum x <? 0 then "-" else "") ++ pretty (n / 10000) ++ "." ++ pad4 (n mod 10000).

(* ================================================================== *)
(** * Data model *)
(* ================================================================== *)

(** ** Media objects *)

(** A media track; [readyState] is ['live'] or ['ended']. *)
Record Track := { readyState : string }.

(** A [MediaStream], by what [getAudioTracks()] and [getVideoTracks()]
    return. *)
Record Stream := { audioTracks : list Track; videoTracks : list Track }.

(** A [Blob]: its bytes and its MIME type; [size] is the number of bytes. *)
Record Blob := { blob_bytes : list byte; blob_type : string }.

Definition blob_size (b : Blob) : Z := Z.of_nat (length (blob_bytes b)).

(** [new Blob(chunks, { type })]: the concatenation of the chunks. *)
Definition new_Blob (chunks : list Blob) (type : string) : Blob :=
  {| blob_bytes := concat (map blob_bytes chunks); blob_type := type |}.

(** ** Users *)

(** The user object held by the auth context: a Firebase [User], or the
    mock [{ uid, isAnonymous: true }] used in local mode, which has no
    [getIdToken] method. *)
Record FirebaseUser := {
  uid : string;
  isAnonymous : bool;
  hasGetIdToken : bool
}.

(** The user record built by [login] ([finalUserData]); [isLocalUser] is
    [false] when the property is absent; instants are milliseconds. *)
Record UserProfile := {
  user_id : string;
  user_name : string;
  user_email : string;
  user_phone : string;
  user_createdAt : Z;
  user_lastLogin : Z;
  user_safetyStatus : string;
  user_locationPermission : string;
  user_firebaseUid : option string;
  user_isLocalUser : bool;
  user_role : option string
}.

(** ** Locations and alerts *)

Record Location := { latitude : Q; longitude : Q }.

Record AlertLocation := {
  loc_latitude : option Q;
  loc_longitude : option Q;
  loc_address : option string
}.

(** An alert as kept in [panicHistory] and [realtimeAlerts]: a normalized
    [sos_alerts] row, or a record saved in local mode (which has a [userId]
    and no [status]). *)
Record Alert := {
  alert_id : string;
  alert_timestamp : Z;
  alert_status : option string;
  alert_userId : option string;
  alert_message : option string;
  alert_videoUrl : option string;
  alert_location : AlertLocation
}.

(** A row of the Supabase [sos_alerts] table as delivered to the client. *)
Record AlertRow := {
  row_id : string;
  row_created_at : option Z;
  row_status : option string;
  row_message : option string;
  row_video_url : option string;
  row_location_latitude : option Q;
  row_location_longitude : option Q;
  row_location_address : option string
}.

(** [sosAlertData] of [activatePanic]. *)
Record SosLocation := {
  sos_latitude : Q;
  sos_longitude : Q;
  sos_address : string
}.

Record SosAlertData := {
  sos_userId : string;
  sos_message : string;
  sos_videoUrl : option string;
  sos_location : SosLocation
}.

(** [videoData] of [activatePanic]. *)
Record VideoData := {
  videoUrl : option string;
  videoDuration : Z;
  uploadedTo : option string
}.

(** Column values of a row sent to Supabase. *)
Inductive JVal :=
| JNull
| JString (s : string)
| JNumber (q : Q).

(** An object literal sent as a row: its properties in source order. *)
Definition Row := list (string * JVal).

Fixpoint column (r : Row) (k : string) : option JVal :=
  match r with
  | [] => None
  | (k', v) :: r' => if String.eqb k' k then Some v else column r' k
  end.

(** [{ data, error }] as returned by the Supabase client. *)
Record SupaResp (D : Type) := { data : option D; error : option Error }.
Arguments data {D} _.
Arguments error {D} _.

Record PublicUrlData := { publicUrl : option string; public_url : option string }.

(** [{ videoUrl, raw }] returned by [uploadStreamToSupabase]. *)
Record SupaUpload := { supa_videoUrl : option string; supa_raw : option string }.

(** Options of [uploadStreamToSupabase]. *)
Record UploadOptions := { opt_bucket : option string; opt_durationMs : option Z }.

(** Result of [uploadVideoAndGetURL] (Firebase), by the property read. *)
Record FirebaseUpload := { fb_videoUrl : option string }.

Inductive Metadata :=
| MetaCreated (location : option Location) (hasVideo : bool)
| MetaFailed (error : string)
| MetaNone.

(** Argument of [createNotificationLog]. *)
Record NotificationLog := {
  nl_reportId : string;
  nl_userId : string;
  nl_type : string;
  nl_message : string;
  nl_metadata : Metadata
}.

(** [{ ...sosAlertData, alertId }] posted to the backend. *)
Record BackendPayload := { bp_data : SosAlertData; bp_alertId : option string }.

Record Response := { ok : bool; status : Z }.
Record JsonBody := { json_message : option string }.

(** ** Supabase users table *)

(** Argument of [ensureSupabaseUser]; absent properties are [None]. *)
Record SupabaseUser := {
  su_user_id : option string;
  su_name : option string;
  su_email : option string;
  su_phone : option string;
  su_role : option string
}.

(** The row inserted into [users]. *)
Record UserRow := {
  ur_user_id : string;
  ur_name : string;
  ur_email : string;
  ur_phone : string;
  ur_role : string;
  ur_joined_at : Z
}.

(** [{ status, user_id }] returned by [ensureSupabaseUser]. *)
Record EnsureResult := { ens_status : string; ens_user_id : string }.

(** ** Google sign-in *)

Record TokenJson := {
  tok_id_token : option string;
  tok_access_token : option string;
  tok_error : option string;
  tok_error_description : option string
}.

(** Claims read from the decoded [id_token]. *)
Record JwtProfile := {
  jwt_name : option string;
  jwt_email : option string;
  jwt_picture : option string
}.

(** The object stored under ['google_user']. *)
Record GoogleUser := {
  g_name : string;
  g_email : string;
  g_picture : string;
  g_idToken : option string;
  g_accessToken : option string
}.

(* ================================================================== *)
(** * Client state *)
(* ================================================================== *)

(** What a [localStorage] entry holds.  Entries written by this code are
    JSON texts; they are kept in parsed form, [JSON.parse] after
    [JSON.stringify] being the identity on these records (a [Date] is kept
    as its instant).  [StoredText] is for the other texts: the empty text,
    and texts in which [JSON.parse] does not find an array.  An array that
    is not a list of alerts has no representation here. *)
Inductive Stored :=
| StoredAlerts (l : list Alert)
| StoredUser (u : UserProfile)
| StoredGoogleUser (g : GoogleUser)
| StoredText (s : string).

(** State of the [PanicProvider] component. *)
Record PanicState := {
  isActivated : bool;
  hasActiveAlerts : bool;
  isProcessing : bool;
  panicHistory : list Alert;
  realtimeAlerts : list Alert
}.

(** State of the [AuthProvider] component. *)
Record AuthState := {
  user : option FirebaseUser;
  userProfile : option UserProfile;
  loading : bool;
  isAuthenticated : bool
}.

(** What a pending timer does when it fires: the button reset of
    [activatePanic] ([setIsActivated(false)]), or the [resolve] of the
    delay promise of [sendPanicAlertToBackend]. *)
Inductive TimerCallback := CbResetButton | CbResolveDelay.

Record Timer := { timer_id : positive; timer_callback : TimerCallback; timer_delay : Z }.

(** The browser: [window.panicButtonTimeout], the timers that are pending,
    the next timer id, the two storages and [window.location]. *)
Record Window := {
  panicButtonTimeout : option positive;
  timers : list Timer;
  nextTimerId : positive;
  localStorage : gmap string Stored;
  sessionStorage : gmap string string;
  hostname : string;
  origin : string;
  search : list (string * string)
}.

Record World := { panic : PanicState; auth : AuthState; window : Window }.

(** Field updates. *)
Definition with_panic (f : PanicState -> PanicState) (w : World) : World :=
  {| panic := f (panic w); auth := auth w; window := window w |}.
Definition with_auth (f : AuthState -> AuthState) (w : World) : World :=
  {| panic := panic w; auth := f (auth w); window := window w |}.
Definition with_window (f : Window -> Window) (w : World) : World :=
  {| panic := panic w; auth := auth w; window := f (window w) |}.

Definition put_isActivated (b : bool) (s : PanicState) : PanicState :=
  {| isActivated := b; hasActiveAlerts := hasActiveAlerts s;
     isProcessing := isProcessing s; panicHistory := panicHistory s;
     realtimeAlerts := realtimeAlerts s |}.
Definition put_hasActiveAlerts (b : bool) (s : PanicState) : PanicState :=
  {| isActivated := isActivated s; hasActiveAlerts := b;
     isProcessing := isProcessing s; panicHistory := panicHistory s;
     realtimeAlerts := realtimeAlerts s |}.
Definition put_isProcessing (b : bool) (s : PanicState) : PanicState :=
  {| isActivated := isActivated s; hasActiveAlerts := hasActiveAlerts s;
     isProcessing := b; panicHistory := panicHistory s;
     realtimeAlerts := realtimeAlerts s |}.
Definition map_panicHistory (f : list Alert -> list Alert) (s : PanicState) : PanicState :=
  {| isActivated := isActivated s; hasActiveAlerts := hasActiveAlerts s;
     isProcessing := isProcessing s; panicHistory := f (panicHistory s);
     realtimeAlerts := realtimeAlerts s |}.
Definition map_realtimeAlerts (f : list Alert -> list Alert) (s : PanicState) : PanicState :=
  {| isActivated := isActivated s; hasActiveAlerts := hasActiveAlerts s;
     isProcessing := isProcessing s; panicHistory := panicHistory s;
     realtimeAlerts := f (realtimeAlerts s) |}.

Definition put_user (u : option FirebaseUser) (s : AuthState) : AuthState :=
  {| user := u; userProfile := userProfile s; loading := loading s;
     isAuthenticated := isAuthenticated s |}.
Definition put_userProfile (p : option UserProfile) (s : AuthState) : AuthState :=
  {| user := user s; userProfile := p; loading := loading s;
     isAuthenticated := isAuthenticated s |}.
Definition put_loading (b : bool) (s : AuthState) : AuthState :=
  {| user := user s; userProfile := userProfile s; loading := b;
     isAuthenticated := isAuthenticated s |}.
Definition put_isAuthenticated (b : bool) (s : AuthState) : AuthState :=
  {| user := user s; userProfile := userProfile s; loading := loading s;
     isAuthenticated := b |}.

Definition put_panicButtonTimeout (h : option positive) (b : Window) : Window :=
  {| panicButtonTimeout := h; timers := timers b; nextTimerId := nextTimerId b;
     localStorage := localStorage b; sessionStorage := sessionStorage b;
     hostname := hostname b; origin := origin b; search := search b |}.
Definition map_localStorage (f : gmap string Stored -> gmap string Stored) (b : Window) : Window :=
  {| panicButtonTimeout := panicButtonTimeout b; timers := timers b;
     nextTimerId := nextTimerId b; localStorage := f (localStorage b);
     sessionStorage := sessionStorage b;
     hostname := hostname b; origin := origin b; search := search b |}.
Definition map_sessionStorage (f : gmap string string -> gmap string string) (b : Window) : Window :=
  {| panicButtonTimeout := panicButtonTimeout b; timers := timers b;
     nextTimerId := nextTimerId b; localStorage := localStorage b;
     sessionStorage := f (sessionStorage b);
     hostname := hostname b; origin := origin b; search := search b |}.

(** [setTimeout(cb, ms)] on the browser state: the timer becomes pending
    under a fresh id. *)
Definition add_timer (cb : TimerCallback) (ms : Z) (b : Window) : Window :=
  {| panicButtonTimeout := panicButtonTimeout b;
     timers := {| timer_id := nextTimerId b; timer_callback := cb; timer_delay := ms |}
               :: timers b;
     nextTimerId := Pos.succ (nextTimerId b);
     localStorage := localStorage b; sessionStorage := sessionStorage b;
     hostname := hostname b; origin := origin b; search := search b |}.

(** [clearTimeout(h)], and the removal of a timer that fired: the timer
    with that id is no longer pending; other ids are unaffected. *)
Definition remove_timer (h : positive) (b : Window) : Window :=
  {| panicButtonTimeout := panicButtonTimeout b;
     timers := filter (fun t => timer_id t <> h) (timers b);
     nextTimerId := nextTimerId b;
     localStorage := localStorage b; sessionStorage := sessionStorage b;
     hostname := hostname b; origin := origin b; search := search b |}.

(* ================================================================== *)
(** * External collaborators and observable effects *)
(* ================================================================== *)

(** Calls to code outside this repository's logic; the index is the type of
    the value a call produces when it does not fail. *)
Inductive Call : Type -> Type :=
(* location context *)
| GetCurrentLocation : Call (option Location)
(* media recorder: the promise made by [recordStreamToBlob] *)
| RecordStreamToBlob (s : Stream) (durationMs : Z) : Call Blob
(* Supabase storage *)
| StorageUpload (bucket fileName : string) (b : Blob) : Call (SupaResp string)
| StorageGetPublicUrl (bucket fileName : string) : Call (SupaResp PublicUrlData)
(* Supabase tables *)
| SupabaseSelectAlerts : Call (SupaResp (list AlertRow))
| SupabaseInsertAlert (payload : Row) : Call (SupaResp (list (option string)))
| SupabaseSelectUser (user_id : string) : Call (SupaResp string)
| SupabaseInsertUser (payload : UserRow) : Call (SupaResp (list string))
(* Firebase *)
| UploadVideoAndGetURL (s : Stream) (userId : string) : Call FirebaseUpload
| CreateSOSAlert (d : SosAlertData) : Call (option string)
| CreateNotificationLog (entry : NotificationLog) : Call unit
| SignInAnonymously : Call string
| CreateOrUpdateUser (userId : string) (d : UserProfile) : Call unit
| GetIdToken (userId : string) : Call string
(* network *)
| Fetch (url : string) (token : string) (body : BackendPayload) : Call Response
| ResponseJson (r : Response) : Call JsonBody
| PostForm (url : string) (body : list (string * string)) : Call bool
| TokenResponseJson : Call TokenJson
(* browser *)
| TimerElapsed (h : positive) : Call unit
| SubtleDigest (algorithm : string) (bytes : list byte) : Call (list byte).

(** Every call is awaited (the function suspends there) except
    [getPublicUrl], which returns at once. *)
Definition suspends {R} (c : Call R) : bool :=
  match c with
  | StorageGetPublicUrl _ _ => false
  | _ => true
  end.

(** Synchronous questions to the environment, which cannot fail: the clock
    ([Date.now()], [new Date()]), [crypto.getRandomValues] on a
    [Uint32Array] of the given length, and the claims that [decodeJwt]
    reads in a token ([null] when the token cannot be decoded). *)
Inductive Query : Type -> Type :=
| DateNow : Query Z
| GetRandomValues (n : nat) : Query (list Z)
| DecodeJwtClaims (token : option string) : Query (option JwtProfile).

Record ToastOpts := {
  toast_title : string;
  toast_description : string;
  toast_destructive : bool;
  toast_duration : option Z
}.

Inductive LogLevel := LogError | LogWarn.

(** Effects the user or a developer can observe.  Of the console only
    [console.error] and [console.warn] are kept, the informative
    [console.log] lines are left out; pictographs in literals are left out
    too. *)
Inductive Effect :=
| Toast (t : ToastOpts)
| Console (level : LogLevel) (text : string) (detail : string)
| Navigate (path : string)
| LocationAssign (url : string) (params : list (string * string))
| WindowAlert (msg : string).

(** What a run leaves behind, in order. *)
Inductive Event :=
| Did (x : Effect)
| Called {R} (c : Call R) (o : Outcome R)
| Asked {R} (q : Query R) (r : R).

(* ================================================================== *)
(** * Procedures *)
(* ================================================================== *)

Inductive Proc (A : Type) : Type :=
| Ret (a : A)
| Raise (e : Error)
| Get (k : World -> Proc A)
| Put (w : World) (k : Proc A)
| Emit (x : Effect) (k : Proc A)
| Ask {R} (q : Query R) (k : R -> Proc A)
| Do {R} (c : Call R) (k : Outcome R -> Proc A).
Arguments Ret {A} a.
Arguments Raise {A} e.
Arguments Get {A} k.
Arguments Put {A} w k.
Arguments Emit {A} x k.
Arguments Ask {A R} q k.
Arguments Do {A R} c k.

Fixpoint bind {A B} (p : Proc A) (f : A -> Proc B) : Proc B :=
  match p with
  | Ret a => f a
  | Raise e => Raise e
  | Get k => Get (fun w => bind (k w) f)
  | Put w k => Put w (bind k f)
  | Emit x k => Emit x (bind k f)
  | Ask q k => Ask q (fun r => bind (k r) f)
  | Do c k => Do c (fun o => bind (k o) f)
  end.

#[global] Instance Proc_ret : MRet Proc := @Ret.
#[global] Instance Proc_bind : MBind Proc := fun A B f p => bind p f.

(** [try { p } catch (e) { h e }]. *)
Fixpoint try_catch {A} (p : Proc A) (h : Error -> Proc A) : Proc A :=
  match p with
  | Ret a => Ret a
  | Raise e => h e
  | Get k => Get (fun w => try_catch (k w) h)
  | Put w k => Put w (try_catch k h)
  | Emit x k => Emit x (try_catch k h)
  | Ask q k => Ask q (fun r => try_catch (k r) h)
  | Do c k => Do c (fun o => try_catch (k o) h)
  end.

(** [try { p } finally { f }]: [f] runs on both exits and the exit of [p]
    is kept, unless [f] itself throws. *)
Fixpoint try_finally {A} (p : Proc A) (f : Proc unit) : Proc A :=
  match p with
  | Ret a => bind f (fun _ => Ret a)
  | Raise e => bind f (fun _ => Raise e)
  | Get k => Get (fun w => try_finally (k w) f)
  | Put w k => Put w (try_finally k f)
  | Emit x k => Emit x (try_finally k f)
  | Ask q k => Ask q (fun r => try_finally (k r) f)
  | Do c k => Do c (fun o => try_finally (k o) f)
  end.

(** [await c]: the value, or the rejection thrown at the call site. *)
Definition call {R} (c : Call R) : Proc R :=
  Do c (fun o => match o with Resolved r => Ret r | Rejected e => Raise e end).

(** [await c.catch(h)]-style use: the settlement itself. *)
Definition settle {R} (c : Call R) : Proc (Outcome R) := Do c Ret.

Definition ask {R} (q : Query R) : Proc R := Ask q Ret.
Definition get : Proc World := Get Ret.
Definition modify (f : World -> World) : Proc unit := Get (fun w => Put (f w) (Ret tt)).
Definition emit (x : Effect) : Proc unit := Emit x (Ret tt).

Definition toast (title description : string) (destructive : bool) (duration : option Z)
  : Proc unit :=
  emit (Toast {| toast_title := title; toast_description := description;
                 toast_destructive := destructive; toast_duration := duration |}).

Definition console_error (text detail : string) : Proc unit :=
  emit (Console LogError text detail).
Definition console_warn (text detail : string) : Proc unit :=
  emit (Console LogWarn text detail).

(** [e.message || e]: the message, or the printed error when it is empty. *)
Definition message_or_self (e : Error) : string :=
  if String.eqb (err_message e) "" then err_name e else err_message e.

(** ** Running a procedure against an environment *)

(** The environment has a state of its own ([E]) and answers calls and
    questions from it; it does not touch the client state. *)
Record Handler (E : Type) := {
  on_call : forall R, Call R -> E -> Outcome R * E;
  on_ask : forall R, Query R -> E -> R * E
}.
Arguments on_call {E} _ {R} _ _.
Arguments on_ask {E} _ {R} _ _.

(** The end of a run: how the procedure left, the client state, the
    environment and the events in the order they happened. *)
Record Final (E A : Type) := {
  result : Outcome A;
  world : World;
  env : E;
  events : list Event
}.
Arguments result {E A} _.
Arguments world {E A} _.
Arguments env {E A} _.
Arguments events {E A} _.

Definition then_event {E A} (ev : Event) (f : Final E A) : Final E A :=
  {| result := result f; world := world f; env := env f; events := ev :: events f |}.

(** A run to completion, nothing else being scheduled in between. *)
Fixpoint run {E A} (H : Handler E) (p : Proc A) (w : World) (e : E) : Final E A :=
  match p with
  | Ret a => {| result := Resolved a; world := w; env := e; events := [] |}
  | Raise x => {| result := Rejected x; world := w; env := e; events := [] |}
  | Get k => run H (k w) w e
  | Put w' k => run H k w' e
  | Emit x k => then_event (Did x) (run H k w e)
  | Ask q k =>
      let '(r, e') := on_ask H q e in
      then_event (Asked q r) (run H (k r) w e')
  | Do c k =>
      let '(o, e') := on_call H c e in
      then_event (Called c o) (run H (k o) w e')
  end.

(** ** Suspension at awaited calls *)

(** A procedure advanced up to its next awaited call. *)
Inductive Task (A : Type) : Type :=
| Finished (o : Outcome A)
| Awaiting {R} (c : Call R) (k : Outcome R -> Proc A).
Arguments Finished {A} o.
Arguments Awaiting {A R} c k.

(** Runs the synchronous part of [p]: up to its end or to the first call
    that suspends.  Nothing else runs during that part; while the task is
    awaiting, other handlers of the page may run. *)
Fixpoint advance {E A} (H : Handler E) (p : Proc A) (w : World) (e : E)
  : Task A * World * E :=
  match p with
  | Ret a => (Finished (Resolved a), w, e)
  | Raise x => (Finished (Rejected x), w, e)
  | Get k => advance H (k w) w e
  | Put w' k => advance H k w' e
  | Emit _ k => advance H k w e
  | Ask q k => let '(r, e') := on_ask H q e in advance H (k r) w e'
  | Do c k =>
      if suspends c then (Awaiting c k, w, e)
      else let '(o, e') := on_call H c e in advance H (k o) w e'
  end.

(** The awaited call settles and the task runs on to its next suspension. *)
Definition resume {E A} (H : Handler E) (t : Task A) (w : World) (e : E)
  : Task A * World * E :=
  match t with
  | Finished o => (Finished o, w, e)
  | Awaiting c k => let '(o, e') := on_call H c e in advance H (k o) w e'
  end.

(** Resumes a task until it finishes, at most [fuel] suspensions later. *)
Fixpoint resume_all {E A} (H : Handler E) (fuel : nat) (t : Task A) (w : World) (e : E)
  : Task A * World * E :=
  match fuel with
  | O => (t, w, e)
  | S n =>
      match t with
      | Finished _ => (t, w, e)
      | Awaiting _ _ => let '(t', w', e') := resume H t w e in resume_all H n t' w' e'
      end
  end.

(* ================================================================== *)
(** * Browser primitives *)
(* ================================================================== *)

(** [setTimeout(cb, ms)]: returns the handle of the new timer. *)
Definition setTimeout (cb : TimerCallback) (ms : Z) : Proc positive :=
  Get (fun w => Put (with_window (add_timer cb ms) w) (Ret (nextTimerId (window w)))).

(** [clearTimeout(h)]. *)
Definition clearTimeout (h : positive) : Proc unit :=
  modify (with_window (remove_timer h)).

(** [await new Promise(resolve => setTimeout(resolve, ms))]: the handle is
    not kept; the procedure goes on when the timer has fired, which also
    ends the timer. *)
Definition delay (ms : Z) : Proc unit :=
  h ← setTimeout CbResolveDelay ms;
  _ ← settle (TimerElapsed h);
  modify (with_window (remove_timer h)).

Definition localStorage_getItem (k : string) : Proc (option Stored) :=
  Get (fun w => Ret (localStorage (window w) !! k)).

Definition localStorage_setItem (k : string) (v : Stored) : Proc unit :=
  modify (with_window (map_localStorage (insert k v))).

Definition sessionStorage_getItem (k : string) : Proc (option string) :=
  Get (fun w => Ret (sessionStorage (window w) !! k)).

Definition sessionStorage_setItem (k : string) (v : string) : Proc unit :=
  modify (with_window (map_sessionStorage (insert k v))).

(** [JSON.parse(localStorage.getItem(k) || '[]')] read as a list of
    alerts.  A missing entry and the empty text are falsy, so that ['[]']
    is parsed: the empty list.  A stored list of alerts is read back.  Any
    other entry makes the statements that use the list throw: either
    [JSON.parse] itself (a text that is not JSON), or the first use of the
    value as an array; the statements below are about the first two
    cases. *)
Definition parse_alerts (k : string) : Proc (list Alert) :=
  v ← localStorage_getItem k;
  match v with
  | None => Ret []
  | Some (StoredText EmptyString) => Ret []
  | Some (StoredAlerts l) => Ret l
  | Some _ => Raise (TypeError "stored value is not a list of alerts")
  end.

(* ================================================================== *)
(** * lib/supabaseClient.js *)
(* ================================================================== *)

(** [ensureSupabaseUser(user)]. *)
Definition ensureSupabaseUser (user : option SupabaseUser) : Proc EnsureResult :=
  match user with
  | None =>
      console_error "[Supabase] Invalid user payload: user_id is required" "";;
      Raise (new_Error "user_id is required")
  | Some u =>
      if negb (truthy (su_user_id u)) then
        console_error "[Supabase] Invalid user payload: user_id is required" "";;
        Raise (new_Error "user_id is required")
      else if negb (truthy (su_name u)) || negb (truthy (su_email u))
              || negb (truthy (su_phone u)) then
        console_error "[Supabase] Missing required fields (name, email, phone)" "";;
        Raise (new_Error "name, email, phone are required")
      else
        joined ← ask DateNow;
        let payload :=
          {| ur_user_id := default "" (su_user_id u);
             ur_name := trim (default "" (su_name u));
             ur_email := trim (toLowerCase (default "" (su_email u)));
             ur_phone := trim (default "" (su_phone u));
             ur_role := or_else (su_role u) "citizen";
             ur_joined_at := joined |} in
        sel ← call (SupabaseSelectUser (ur_user_id payload));
        match error sel with
        | Some selectErr => console_error "[Supabase] Select error:" (err_message selectErr)
        | None => Ret tt
        end;;
        match data sel with
        | Some _ =>
            Ret {| ens_status := "exists"; ens_user_id := ur_user_id payload |}
        | None =>
            ins ← call (SupabaseInsertUser payload);
            match error ins with
            | Some err =>
                console_error "[Supabase] Insert error:" (err_message err);;
                Raise err
            | None =>
                Ret {| ens_status := "inserted"; ens_user_id := ur_user_id payload |}
            end
        end
  end.

(** [options.durationMs || 15000]: an absent or zero duration gives the
    default. *)
Definition duration_or_default (d : option Z) : Z :=
  match d with
  | Some ms => if ms =? 0 then 15000 else ms
  | None => 15000
  end.

(** [(publicUrlData && (publicUrlData.publicUrl || publicUrlData.public_url)) || null]. *)
Definition public_url_of (d : option PublicUrlData) : option string :=
  match d with
  | None => None
  | Some d => or_null (if truthy (publicUrl d) then publicUrl d else public_url d)
  end.

(** [uploadStreamToSupabase(stream, userId, options)]. *)
Definition uploadStreamToSupabase (stream : option Stream) (userId : string)
    (options : UploadOptions) : Proc SupaUpload :=
  let bucket := or_else (opt_bucket options) "first_bucket" in
  let durationMs := duration_or_default (opt_durationMs options) in
  match stream with
  | None => Raise (new_Error "Stream is required for video upload")
  | Some s =>
      blob ← call (RecordStreamToBlob s durationMs);
      (if blob_size blob <? 1000
       then console_warn "[Supabase] Warning: Video blob is very small" (pretty (blob_size blob))
       else Ret tt);;
      now ← ask DateNow;
      let fileName := "sos-videos/" ++ userId ++ "_" ++ pretty now ++ ".mp4" in
      try_catch
        (up ← call (StorageUpload bucket fileName blob);
         match error up with
         | Some uploadError =>
             console_error "[Supabase] Upload error:" (message_or_self uploadError);;
             Raise uploadError
         | None =>
             pub ← call (StorageGetPublicUrl bucket fileName);
             match error pub with
             | Some publicUrlError =>
                 console_error "[Supabase] getPublicUrl error:"
                               (message_or_self publicUrlError);;
                 Raise publicUrlError
             | None =>
                 Ret {| supa_videoUrl := public_url_of (data pub); supa_raw := data up |}
             end
         end)
        (fun e =>
           console_error "[Supabase] uploadStreamToSupabase failed:" (message_or_self e);;
           Raise e)
  end.

(* ================================================================== *)
(** * contexts/PanicContext: the PanicProvider *)
(* ================================================================== *)

(** What [useAuth()] and [useLocation()] gave the provider at render. *)
Record PanicCtx := {
  ctx_firebaseUser : option FirebaseUser;
  ctx_userProfile : option UserProfile;
  ctx_location : option Location
}.

(** [!firebaseUser?.uid || !userProfile] is false: both are present and
    the uid is not empty. *)
Definition signed_in (ctx : PanicCtx) : option (FirebaseUser * UserProfile) :=
  match ctx_firebaseUser ctx, ctx_userProfile ctx with
  | Some fu, Some profile =>
      if String.eqb (uid fu) "" then None else Some (fu, profile)
  | _, _ => None
  end.

(** [userProfile.isLocalUser || firebaseUser.uid.startsWith('local_')]. *)
Definition isLocalMode (fu : FirebaseUser) (profile : UserProfile) : bool :=
  user_isLocalUser profile || startsWith (uid fu) "local_".

Definition setIsActivated (b : bool) : Proc unit := modify (with_panic (put_isActivated b)).
Definition setHasActiveAlerts (b : bool) : Proc unit :=
  modify (with_panic (put_hasActiveAlerts b)).
Definition setIsProcessing (b : bool) : Proc unit := modify (with_panic (put_isProcessing b)).
Definition setPanicHistory (f : list Alert -> list Alert) : Proc unit :=
  modify (with_panic (map_panicHistory f)).
Definition setRealtimeAlerts (f : list Alert -> list Alert) : Proc unit :=
  modify (with_panic (map_realtimeAlerts f)).

(** [a.status === 'pending' || a.status === 'active']. *)
Definition is_active (a : Alert) : bool :=
  match alert_status a with
  | Some s => String.eqb s "pending" || String.eqb s "active"
  | None => false
  end.

(** [!!x] on the result of [Array.prototype.find]. *)
Definition found {A} (x : option A) : bool :=
  match x with Some _ => true | None => false end.

(** [!!f] where [f] is a function value: a function is truthy. *)
Definition function_is_truthy {A B} (f : A -> B) : bool := true.

(** [normalize(row)]. *)
Definition normalize (row : AlertRow) : Proc Alert :=
  ts ← match row_created_at row with
       | Some t => Ret t
       | None => ask DateNow
       end;
  Ret {| alert_id := row_id row;
         alert_timestamp := ts;
         alert_status := Some (or_else (row_status row) "pending");
         alert_userId := None;
         alert_message := row_message row;
         alert_videoUrl := or_null (row_video_url row);
         alert_location :=
           {| loc_latitude := row_location_latitude row;
              loc_longitude := row_location_longitude row;
              loc_address := row_location_address row |} |}.

(** [rows.map(normalize)]. *)
Fixpoint normalize_all (rows : list AlertRow) : Proc (list Alert) :=
  match rows with
  | [] => Ret []
  | r :: rs => a ← normalize r; l ← normalize_all rs; Ret (a :: l)
  end.

(** The local-mode branch of the loading effect. *)
Definition loadLocalAlerts : Proc unit :=
  localAlerts ← parse_alerts "local_sos_alerts";
  setPanicHistory (fun _ => localAlerts);;
  setRealtimeAlerts (fun _ => localAlerts);;
  let activeAlert := List.find is_active localAlerts in
  setHasActiveAlerts (found activeAlert).

(** The initial fetch of the Supabase branch of the loading effect;
    [mounted] is the flag as it stands when the query has returned.  The
    subscription to the realtime channel that follows the fetch is left
    out: its two handlers are [onInsert] and [onUpdate] below. *)
Definition fetchInitialAlerts (mounted : bool) : Proc unit :=
  try_catch
    (r ← call SupabaseSelectAlerts;
     match error r with
     | Some err => console_warn "[Panic] Supabase initial fetch error:" (message_or_self err)
     | None =>
         if mounted then
           alerts ← normalize_all (default [] (data r));
           setPanicHistory (fun _ => alerts);;
           setRealtimeAlerts (fun _ => alerts);;
           let activeAlert := List.find is_active alerts in
           setHasActiveAlerts (found activeAlert)
         else Ret tt
     end)
    (fun err => console_error "[Panic] Supabase realtime setup failed:" (err_message err)).

(** The handler of realtime INSERT events; [row] is [payload.new]. *)
Definition onInsert (row : AlertRow) : Proc unit :=
  newAlert ← normalize row;
  setPanicHistory (fun prev => newAlert :: prev);;
  setRealtimeAlerts (fun prev => newAlert :: prev);;
  setHasActiveAlerts true.

(** The handler of realtime UPDATE events; [row] is [payload.new].
    [active] is bound to the arrow function itself, which is never applied
    to the list. *)
Definition onUpdate (row : AlertRow) : Proc unit :=
  updated ← normalize row;
  let replace := map (fun p => if String.eqb (alert_id p) (alert_id updated)
                               then updated else p) in
  setPanicHistory replace;;
  setRealtimeAlerts replace;;
  let active := fun prev : list Alert => List.find is_active prev in
  setHasActiveAlerts (function_is_truthy active).

(** The loading effect, by the branch taken. *)
Definition loadAlerts (ctx : PanicCtx) (mounted : bool) : Proc unit :=
  match signed_in ctx with
  | None => Ret tt
  | Some (fu, profile) =>
      if isLocalMode fu profile then loadLocalAlerts else fetchInitialAlerts mounted
  end.

(** ** activatePanic *)

(** The window-level handle is cleared when it is set. *)
Definition clearPanicButtonTimeout : Proc unit :=
  w ← get;
  match panicButtonTimeout (window w) with
  | Some h =>
      clearTimeout h;;
      modify (with_window (put_panicButtonTimeout None))
  | None => Ret tt
  end.

(** Lines "Get current location": the location of the context, or the one
    [getCurrentLocation()] resolves to, which may be [null]. *)
Definition acquireLocation (ctx : PanicCtx) : Proc (option Location) :=
  match ctx_location ctx with
  | Some l => Ret (Some l)
  | None =>
      toast "Getting Location..." "Please wait while we fetch your precise location."
            false None;;
      call GetCurrentLocation
  end.

Definition noVideo : VideoData :=
  {| videoUrl := None; videoDuration := 0; uploadedTo := None |}.

Definition panicUploadOptions : UploadOptions :=
  {| opt_bucket := Some "first_bucket"; opt_durationMs := Some 15000 |}.

(** Lines "Upload video to Supabase Storage (preferred) then fallback to
    Firebase if needed": the value of [videoData] after them. *)
Definition captureVideo (stream : option Stream) (userId : string) : Proc VideoData :=
  match stream with
  | None =>
      console_error "[Panic] CRITICAL: No stream object available for video recording" "";;
      toast "Video Recording Failed"
            "No stream available. Camera permission may have been denied." true (Some 5000);;
      Ret noVideo
  | Some s =>
      try_catch
        (toast "Recording Video..." "Recording your emergency video for 15 seconds..."
               false None;;
         supaResult ← uploadStreamToSupabase (Some s) userId panicUploadOptions;
         if negb (truthy (supa_videoUrl supaResult)) then
           Raise (new_Error "Upload completed but no video URL returned")
         else
           toast "Video Uploaded!"
                 "Your emergency video has been successfully uploaded to Supabase."
                 false None;;
           Ret {| videoUrl := supa_videoUrl supaResult; videoDuration := 0;
                  uploadedTo := Some "supabase" |})
        (fun supaError =>
           console_error "[Panic] Supabase upload FAILED:" (message_or_self supaError);;
           try_catch
             (toast "Uploading Video (Firebase)..." "Recording and uploading to Firebase..."
                    false None;;
              fbResult ← call (UploadVideoAndGetURL s userId);
              if negb (truthy (fb_videoUrl fbResult)) then
                Raise (new_Error "Firebase upload completed but no URL returned")
              else
                toast "Video Uploaded (Firebase)!"
                      "Your emergency video has been uploaded to Firebase." false None;;
                Ret {| videoUrl := fb_videoUrl fbResult; videoDuration := 0;
                       uploadedTo := Some "firebase" |})
             (fun videoError =>
                console_error
                  "[Panic] CRITICAL: Both Supabase AND Firebase video uploads FAILED:"
                  (message_or_self videoError);;
                toast "Video Upload Failed"
                      "SOS alert will be sent WITHOUT video. Emergency response may be delayed."
                      true (Some 6000);;
                Ret noVideo))
  end.

(** [sosAlertData]; reading [currentLocation.latitude] throws when the
    location is [null]. *)
Definition buildSosAlertData (userId : string) (message : option string)
    (videoData : VideoData) (currentLocation : option Location) : Proc SosAlertData :=
  match currentLocation with
  | None => Raise (TypeError "Cannot read properties of null (reading 'latitude')")
  | Some l =>
      Ret {| sos_userId := userId;
             sos_message := or_else message "Emergency SOS activated without a message.";
             sos_videoUrl := videoUrl videoData;
             sos_location :=
               {| sos_latitude := latitude l;
                  sos_longitude := longitude l;
                  sos_address := toFixed4 (latitude l) ++ ", " ++ toFixed4 (longitude l) |} |}
  end.

Definition json_of_option (s : option string) : JVal :=
  match s with Some s => JString s | None => JNull end.

(** [insertPayload], the row sent to [sos_alerts]. *)
Definition insertPayload (userId : string) (d : SosAlertData) (videoData : VideoData)
  : Row :=
  [ ("user_id", JString userId);
    ("message", JString (sos_message d));
    ("video_url", json_of_option (or_null (videoUrl videoData)));
    ("location_latitude", JNumber (sos_latitude (sos_location d)));
    ("location_longitude", JNumber (sos_longitude (sos_location d)));
    ("location_address", JString (sos_address (sos_location d)));
    ("status", JString "pending") ].

(** The insert into the Supabase [sos_alerts] table, the same in both
    modes but for the text of the console lines ([mode]); its value is
    [supabaseInsertId]. *)
Definition insertSupabaseAlert (mode : string) (userId : string) (d : SosAlertData)
    (videoData : VideoData) : Proc (option string) :=
  try_catch
    (r ← call (SupabaseInsertAlert (insertPayload userId d videoData));
     match error r with
     | Some insertError =>
         console_warn ("[Panic] Supabase insert (" ++ mode ++ ") error:")
                      (message_or_self insertError);;
         Ret None
     | None =>
         Ret (match data r with
              | Some (first :: _) => first
              | _ => None
              end)
     end)
    (fun e =>
       console_error ("[Panic] Supabase insert (" ++ mode ++ ") failed:") (message_or_self e);;
       Ret None).

(** The local-mode branch of the persistence step; its value is
    [alertId]. *)
Definition saveAlertLocally (userId : string) (d : SosAlertData) (videoData : VideoData)
  : Proc (option string) :=
  now ← ask DateNow;
  let alertId := "local_sos_" ++ pretty now in
  localAlerts ← parse_alerts "local_sos_alerts";
  timestamp ← ask DateNow;
  let record :=
    {| alert_id := alertId;
       alert_timestamp := timestamp;
       alert_status := None;
       alert_userId := Some (sos_userId d);
       alert_message := Some (sos_message d);
       alert_videoUrl := sos_videoUrl d;
       alert_location :=
         {| loc_latitude := Some (sos_latitude (sos_location d));
            loc_longitude := Some (sos_longitude (sos_location d));
            loc_address := Some (sos_address (sos_location d)) |} |} in
  let localAlerts := record :: localAlerts in
  localStorage_setItem "local_sos_alerts" (StoredAlerts localAlerts);;
  setPanicHistory (fun _ => localAlerts);;
  setRealtimeAlerts (fun _ => localAlerts);;
  _ ← insertSupabaseAlert "local" userId d videoData;
  Ret (Some alertId).

(** The Firestore branch of the persistence step; its value is
    [alertId]. *)
Definition saveAlertToFirestore (userId : string) (message : option string)
    (d : SosAlertData) (videoData : VideoData) (currentLocation : option Location)
  : Proc (option string) :=
  alertId ← call (CreateSOSAlert d);
  (if truthy alertId then
     try_catch
       (call (CreateNotificationLog
                {| nl_reportId := default "" alertId;
                   nl_userId := userId;
                   nl_type := "sos_alert_created";
                   nl_message := "SOS alert created: " ++ or_else message "Emergency activated";
                   nl_metadata := MetaCreated currentLocation (truthy (videoUrl videoData)) |}))
       (fun logError =>
          console_warn "Failed to create notification log:" (err_message logError))
   else Ret tt);;
  _ ← insertSupabaseAlert "firebase" userId d videoData;
  Ret alertId.

(** [hostname === 'localhost' || hostname.includes('fly.dev')]. *)
Definition is_development (host : string) : bool :=
  String.eqb host "localhost" || includes host "fly.dev".

Definition read_hostname : Proc string := Get (fun w => Ret (hostname (window w))).

(** [firebaseUser.getIdToken()]: the mock user of local mode has no such
    method. *)
Definition getIdToken (fu : FirebaseUser) : Proc string :=
  if hasGetIdToken fu then call (GetIdToken (uid fu))
  else Raise (TypeError "firebaseUser.getIdToken is not a function").

(** [sendPanicAlertToBackend(payload)]. *)
Definition sendPanicAlertToBackend (fu : FirebaseUser) (payload : BackendPayload)
  : Proc unit :=
  try_catch
    (host ← read_hostname;
     if is_development host then
       delay 1500;;
       toast "Development Mode"
             "SOS alert saved to Firebase. In production, emergency services would be notified."
             false (Some 5000)
     else
       token ← getIdToken fu;
       response ← call (Fetch "/api/sos/alert" token payload);
       if negb (ok response) then
         body ← settle (ResponseJson response);
         let errorData :=
           match body with
           | Resolved b => b
           | Rejected _ => {| json_message := Some "Server returned an error" |}
           end in
         Raise (new_Error ("Server Error: " ++ pretty (status response) ++ " - "
                           ++ show_undefined (json_message errorData)))
       else
         _ ← call (ResponseJson response);
         toast "Emergency Services Notified"
               "Your SOS alert has been sent to emergency services." false (Some 5000))
    (fun error =>
       console_error "Backend SOS alert failed:" (err_message error);;
       host ← read_hostname;
       if is_development host then
         console_warn "Backend not available, but alert saved to Firebase" ""
       else Raise error).

(** The statements of the [try] block of [activatePanic].  The value of
    [getDeviceInfo()], which the block computes and never uses, is left
    out. *)
Definition activateBody (fu : FirebaseUser) (profile : UserProfile) (ctx : PanicCtx)
    (message : option string) (stream : option Stream) : Proc unit :=
  currentLocation ← acquireLocation ctx;
  videoData ← captureVideo stream (uid fu);
  sosAlertData ← buildSosAlertData (uid fu) message videoData currentLocation;
  alertId ← (if isLocalMode fu profile
             then saveAlertLocally (uid fu) sosAlertData videoData
             else saveAlertToFirestore (uid fu) message sosAlertData videoData
                                       currentLocation);
  sendPanicAlertToBackend fu {| bp_data := sosAlertData; bp_alertId := alertId |};;
  setIsActivated true;;
  let hasVideo := truthy (videoUrl videoData) in
  (if isLocalMode fu profile then
     toast "SOS Alert Created!"
           ("Emergency alert saved locally"
            ++ (if hasVideo then " with video" else " (no video)")
            ++ ". Ready to send another if needed.")
           false (Some 5000)
   else
     toast "SOS Alert Sent!"
           ("Emergency alert sent successfully"
            ++ (if hasVideo then " with video" else " (no video)")
            ++ ". You can send another alert if needed.")
           false (Some 5000));;
  resetTimeout ← setTimeout CbResetButton 2000;
  modify (with_window (put_panicButtonTimeout (Some resetTimeout))).

(** The [catch] block of [activatePanic]. *)
Definition activateFailed (fu : FirebaseUser) (profile : UserProfile) (error : Error)
  : Proc unit :=
  console_error "Panic Activation Error:" (err_message error);;
  (if negb (isLocalMode fu profile) then
     now ← ask DateNow;
     logged ← settle (CreateNotificationLog
                        {| nl_reportId := "error_" ++ pretty now;
                           nl_userId := uid fu;
                           nl_type := "sos_alert_failed";
                           nl_message := "SOS alert failed: " ++ err_message error;
                           nl_metadata := MetaFailed (err_message error) |});
     match logged with
     | Resolved _ => Ret tt
     | Rejected e => console_error "" (err_message e)
     end
   else Ret tt);;
  toast "SOS Alert Failed"
        (if String.eqb (err_message error) ""
         then "Failed to send SOS alert. Please try again."
         else err_message error)
        true (Some 8000).

(** [activatePanic(message, stream)]. *)
Definition activatePanic (ctx : PanicCtx) (message : option string)
    (stream : option Stream) : Proc unit :=
  match signed_in ctx with
  | None =>
      toast "Authentication Required" "Please log in to send SOS alerts." true (Some 5000)
  | Some (fu, profile) =>
      clearPanicButtonTimeout;;
      setIsProcessing true;;
      try_finally
        (try_catch (activateBody fu profile ctx message stream)
                   (activateFailed fu profile))
        (setIsProcessing false)
  end.

(** [deactivatePanic()]. *)
Definition deactivatePanic : Proc unit :=
  clearPanicButtonTimeout;;
  setIsActivated false.

(** [resetButtonState()]. *)
Definition resetButtonState : Proc unit :=
  clearPanicButtonTimeout;;
  setIsActivated false.

(** A pending timer fires: it stops being pending and its callback runs.
    The callback of the button reset is [setIsActivated(false)]; the one of
    a delay only lets the awaiting procedure go on. *)
Definition fireTimer (h : positive) : Proc unit :=
  w ← get;
  match List.find (fun t => Pos.eqb (timer_id t) h) (timers (window w)) with
  | None => Ret tt
  | Some t =>
      modify (with_window (remove_timer h));;
      match timer_callback t with
      | CbResetButton => setIsActivated false
      | CbResolveDelay => Ret tt
      end
  end.

(* ================================================================== *)
(** * lib/supabaseClient.js: recordStreamToBlob *)
(* ================================================================== *)

(** [recordStreamToBlob] builds a promise around a [MediaRecorder]: it
    installs four event handlers, starts the recorder and arms one timer.
    The embedding keeps the variables the closures share ([chunks],
    [timeout], [recordingStarted], the state of the recorder and of the
    promise) and gives one transition per handler.  Time is what the
    browser's clock shows: it passes between events, and the browser runs
    the callback of a pending timer when its delay has elapsed, that is at
    its due time or later, never before. *)

Inductive RecorderState := Inactive | Recording | Paused.

Inductive Settlement :=
| Pending
| Fulfilled (b : Blob)
| Failed (e : Error).

Record Recorder := {
  rec_state : RecorderState;
  rec_mimeType : string;
  rec_chunks : list Blob;
  rec_recordingStarted : bool;
  rec_startedAt : Z;
  (** the clock of the browser *)
  rec_clock : Z;
  (** due time of the timer held in [timeout], while it is pending *)
  rec_timeout : option Z;
  (** number of [setTimeout] calls made so far *)
  rec_timersArmed : nat;
  (** time of the call of [mediaRecorder.stop()] made by this code *)
  rec_stopCalledAt : option Z;
  rec_promise : Settlement
}.

(** What the browser supports and whether [start] throws. *)
Record MediaEnv := {
  isTypeSupported : string -> bool;
  start_error : option Error
}.

(** [resolve(b)] and [reject(e)]: only the first settlement counts. *)
Definition settle_promise (s : Settlement) (r : Recorder) : Recorder :=
  {| rec_state := rec_state r; rec_mimeType := rec_mimeType r;
     rec_chunks := rec_chunks r; rec_recordingStarted := rec_recordingStarted r;
     rec_startedAt := rec_startedAt r; rec_clock := rec_clock r;
     rec_timeout := rec_timeout r;
     rec_timersArmed := rec_timersArmed r; rec_stopCalledAt := rec_stopCalledAt r;
     rec_promise := match rec_promise r with Pending => s | p => p end |}.

Definition set_state (st : RecorderState) (r : Recorder) : Recorder :=
  {| rec_state := st; rec_mimeType := rec_mimeType r;
     rec_chunks := rec_chunks r; rec_recordingStarted := rec_recordingStarted r;
     rec_startedAt := rec_startedAt r; rec_clock := rec_clock r;
     rec_timeout := rec_timeout r;
     rec_timersArmed := rec_timersArmed r; rec_stopCalledAt := rec_stopCalledAt r;
     rec_promise := rec_promise r |}.

(** [clearTimeout(timeout)], and the end of the timer when it fires. *)
Definition drop_timeout (r : Recorder) : Recorder :=
  {| rec_state := rec_state r; rec_mimeType := rec_mimeType r;
     rec_chunks := rec_chunks r; rec_recordingStarted := rec_recordingStarted r;
     rec_startedAt := rec_startedAt r; rec_clock := rec_clock r;
     rec_timeout := None;
     rec_timersArmed := rec_timersArmed r; rec_stopCalledAt := rec_stopCalledAt r;
     rec_promise := rec_promise r |}.

Definition push_chunk (d : Blob) (r : Recorder) : Recorder :=
  {| rec_state := rec_state r; rec_mimeType := rec_mimeType r;
     rec_chunks := rec_chunks r ++ [d]; rec_recordingStarted := rec_recordingStarted r;
     rec_startedAt := rec_startedAt r; rec_clock := rec_clock r;
     rec_timeout := rec_timeout r;
     rec_timersArmed := rec_timersArmed r; rec_stopCalledAt := rec_stopCalledAt r;
     rec_promise := rec_promise r |}.

Definition mark_started (r : Recorder) : Recorder :=
  {| rec_state := rec_state r; rec_mimeType := rec_mimeType r;
     rec_chunks := rec_chunks r; rec_recordingStarted := true;
     rec_startedAt := rec_startedAt r; rec_clock := rec_clock r;
     rec_timeout := rec_timeout r;
     rec_timersArmed := rec_timersArmed r; rec_stopCalledAt := rec_stopCalledAt r;
     rec_promise := rec_promise r |}.

Definition mark_stop_called (t : Z) (r : Recorder) : Recorder :=
  {| rec_state := Inactive; rec_mimeType := rec_mimeType r;
     rec_chunks := rec_chunks r; rec_recordingStarted := rec_recordingStarted r;
     rec_startedAt := rec_startedAt r; rec_clock := rec_clock r;
     rec_timeout := rec_timeout r;
     rec_timersArmed := rec_timersArmed r; rec_stopCalledAt := Some t;
     rec_promise := rec_promise r |}.

(** The promise rejected by the [catch] of the executor, nothing armed. *)
Definition rejected_at_setup (now : Z) (mime : string) (e : Error) : Recorder :=
  {| rec_state := Inactive; rec_mimeType := mime; rec_chunks := [];
     rec_recordingStarted := false; rec_startedAt := now; rec_clock := now;
     rec_timeout := None;
     rec_timersArmed := 0; rec_stopCalledAt := None; rec_promise := Failed e |}.

(** The delay of [setTimeout(cb, ms)] as the browser reads it: the number
    is converted to a 32-bit signed integer, and a negative delay counts as
    zero. *)
Definition to_int32 (n : Z) : Z := (n + 2147483648) mod 4294967296 - 2147483648.

Definition timer_delay_of (ms : Z) : Z := Z.max 0 (to_int32 ms).

(** After [mediaRecorder.start(..)] and [timeout = setTimeout(.., durationMs)]. *)
Definition armed (now : Z) (mime : string) (durationMs : Z) : Recorder :=
  {| rec_state := Recording; rec_mimeType := mime; rec_chunks := [];
     rec_recordingStarted := false; rec_startedAt := now; rec_clock := now;
     rec_timeout := Some (now + timer_delay_of durationMs);
     rec_timersArmed := 1; rec_stopCalledAt := None; rec_promise := Pending |}.

(** Time passes: the clock reaches [t] (it does not go back). *)
Definition clock_reaches (t : Z) (r : Recorder) : Recorder :=
  {| rec_state := rec_state r; rec_mimeType := rec_mimeType r;
     rec_chunks := rec_chunks r; rec_recordingStarted := rec_recordingStarted r;
     rec_startedAt := rec_startedAt r; rec_clock := Z.max (rec_clock r) t;
     rec_timeout := rec_timeout r;
     rec_timersArmed := rec_timersArmed r; rec_stopCalledAt := rec_stopCalledAt r;
     rec_promise := rec_promise r |}.

(** The default value of the parameter [durationMs]. *)
Definition durationMs_or_default (durationMs : option Z) : Z := default 15000 durationMs.

(** The cascade of [MediaRecorder.isTypeSupported] tests. *)
Definition choose_mimeType (m : MediaEnv) : string :=
  let mimeType := "video/webm;codecs=vp8,opus" in
  let mimeType := if negb (isTypeSupported m mimeType) then "video/webm;codecs=vp8"
                  else mimeType in
  let mimeType := if negb (isTypeSupported m mimeType) then "video/webm" else mimeType in
  let mimeType := if negb (isTypeSupported m mimeType) then "video/mp4" else mimeType in
  mimeType.

(** Events delivered by the browser to the recorder's handlers, the firing
    of the timer, and the passing of time. *)
Inductive MediaEvent :=
| OnStart
| OnDataAvailable (d : Blob)
| OnStop
| OnError (e : string)
| TimeoutFires
| ClockReaches (t : Z).

(** The callback given to [setTimeout], the same in both versions: the
    recorder is stopped, now, if it is recording. *)
Definition timeout_callback (r : Recorder) : Recorder :=
  match rec_state r with
  | Recording => mark_stop_called (rec_clock r) r
  | _ => r
  end.

(** The browser fires the timer: nothing happens when the timer was
    cleared or has fired already, or when its delay has not elapsed (the
    browser does not fire it then); otherwise the timer is over and its
    callback runs. *)
Definition timer_fires (r : Recorder) : Recorder :=
  match rec_timeout r with
  | None => r
  | Some due =>
      if rec_clock r <? due then r else timeout_callback (drop_timeout r)
  end.

(** ** The current version (with stream checks) *)

(** [recordStreamToBlob(stream, durationMs = 15000)], up to the return of
    the executor, called at time [now]. *)
Definition recordStreamToBlob (m : MediaEnv) (now : Z) (stream : Stream)
    (durationMs : option Z) : Recorder :=
  let durationMs := durationMs_or_default durationMs in
  match videoTracks stream with
  | [] => rejected_at_setup now "" (new_Error "No video tracks available in stream")
  | videoTrack :: _ =>
      if negb (String.eqb (readyState videoTrack) "live") then
        rejected_at_setup now ""
          (new_Error ("Video track not live, state: " ++ readyState videoTrack))
      else
        let mimeType := choose_mimeType m in
        if negb (isTypeSupported m mimeType) then
          (* the constructor refuses a type that is not supported *)
          rejected_at_setup now mimeType (mkError "NotSupportedError" mimeType)
        else
          match start_error m with
          | Some e => rejected_at_setup now mimeType e
          | None => armed now mimeType durationMs
          end
  end.

(** The handlers [onstart], [ondataavailable], [onstop], [onerror]. *)
Definition handle (ev : MediaEvent) (r : Recorder) : Recorder :=
  match ev with
  | OnStart => mark_started r
  | OnDataAvailable d => if 0 <? blob_size d then push_chunk d r else r
  | OnStop =>
      let r := drop_timeout (set_state Inactive r) in
      let blob := new_Blob (rec_chunks r) (rec_mimeType r) in
      if blob_size blob =? 0
      then settle_promise (Failed (new_Error "Video recording produced empty blob")) r
      else settle_promise (Fulfilled blob) r
  | OnError e =>
      let r := drop_timeout (set_state Inactive r) in
      settle_promise (Failed (new_Error ("MediaRecorder error: " ++ e))) r
  | TimeoutFires => timer_fires r
  | ClockReaches t => clock_reaches t r
  end.

(** ** The first version (the first copy in supabaseClient.js) *)

Definition recordStreamToBlob_v1 (m : MediaEnv) (now : Z) (stream : Stream)
    (durationMs : option Z) : Recorder :=
  let durationMs := durationMs_or_default durationMs in
  match start_error m with
  | Some e => rejected_at_setup now "video/mp4" e
  | None => armed now "video/mp4" durationMs
  end.

Definition handle_v1 (ev : MediaEvent) (r : Recorder) : Recorder :=
  match ev with
  | OnStart => r
  | OnDataAvailable d => push_chunk d r
  | OnStop =>
      let r := drop_timeout (set_state Inactive r) in
      settle_promise (Fulfilled (new_Blob (rec_chunks r) "video/mp4")) r
  | OnError e =>
      let r := drop_timeout (set_state Inactive r) in
      settle_promise (Failed (mkError "Event" e)) r
  | TimeoutFires => timer_fires r
  | ClockReaches t => clock_reaches t r
  end.

(** The recorder after a sequence of events. *)
Definition deliver (h : MediaEvent -> Recorder -> Recorder) (evs : list MediaEvent)
    (r : Recorder) : Recorder :=
  fold_left (fun r ev => h ev r) evs r.

(* ================================================================== *)
(** * contexts/AuthContext: login *)
(* ================================================================== *)

(** The argument of [login]; absent properties are [None]. *)
Record LoginInput := {
  in_name : option string;
  in_email : option string;
  in_phone : option string
}.

Definition is_digit (c : ascii) : bool :=
  let n := Ascii.nat_of_ascii c in (48 <=? n)%nat && (n <=? 57)%nat.

Fixpoint string_forallb (f : ascii -> bool) (s : string) : bool :=
  match s with
  | EmptyString => true
  | String c s' => f c && string_forallb f s'
  end.

Fixpoint string_filter (f : ascii -> bool) (s : string) : string :=
  match s with
  | EmptyString => EmptyString
  | String c s' => if f c then String c (string_filter f s') else string_filter f s'
  end.

(** A character of the class [[^\s@]]. *)
Definition is_email_char (c : ascii) : bool :=
  negb (is_space c) && negb (Ascii.eqb c "@"%char).

(** [[^\s@]+\.[^\s@]+] anchored at both ends: characters of the class, with
    a dot that has at least one character on each side. *)
Fixpoint has_inner_dot (s : string) : bool :=
  match s with
  | String _ (String c2 ((String _ _) as rest) as s') =>
      (Ascii.eqb c2 "."%char) || has_inner_dot s'
  | _ => false
  end.

Definition matches_domain (s : string) : bool :=
  string_forallb is_email_char s && has_inner_dot s.

(** The text before the first ['@'] and the text after it. *)
Fixpoint split_at_sign (s : string) : option (string * string) :=
  match s with
  | EmptyString => None
  | String c s' =>
      if Ascii.eqb c "@"%char then Some (EmptyString, s')
      else match split_at_sign s' with
           | Some (l, r) => Some (String c l, r)
           | None => None
           end
  end.

(** [/^[^\s@]+@[^\s@]+\.[^\s@]+$/.test(s)]. *)
Definition emailRegex_test (s : string) : bool :=
  match split_at_sign s with
  | Some (l, r) =>
      negb (String.eqb l "") && string_forallb is_email_char l && matches_domain r
  | None => false
  end.

(** [s.replace(/[\s\-\(\)]/g, '')]. *)
Definition strip_phone_punctuation (s : string) : string :=
  string_filter (fun c => negb (is_space c || Ascii.eqb c "-"%char
                                || Ascii.eqb c "("%char || Ascii.eqb c ")"%char)) s.

(** [/^[\+]?[1-9][\d]{0,15}$/.test(s)]. *)
Definition phoneRegex_test (s : string) : bool :=
  let digits := match s with
                | String "+"%char r => r
                | _ => s
                end in
  match digits with
  | String d r =>
      is_digit d && negb (Ascii.eqb d "0"%char) && string_forallb is_digit r
      && (String.length r <=? 15)%nat
  | EmptyString => false
  end.

(** ** Names in scope *)

(** The names declared in each scope that encloses the statement
    [setUser(firebaseUser.user)] of [login], innermost first: the [else]
    block, the outer [try] block, the function [login], the component
    [AuthProvider], the module. *)
Definition scope_else_block : list string := [].
Definition scope_login_try_block : list string :=
  ["emailRegex"; "phoneRegex"; "processedUserData"; "finalUserData"; "shouldUseFallback"].
Definition scope_login : list string := ["userData"].
Definition scope_AuthProvider : list string :=
  ["children"; "user"; "setUser"; "userProfile"; "setUserProfile"; "loading";
   "setLoading"; "isAuthenticated"; "setIsAuthenticated"; "login"; "logout";
   "updateUserProfile"; "value"].
Definition scope_module : list string :=
  ["React"; "createContext"; "useContext"; "useState"; "useEffect";
   "signInAnonymously"; "onAuthStateChanged"; "doc"; "setDoc"; "getDoc"; "toast";
   "auth"; "db"; "createOrUpdateUser"; "getUser"; "COLLECTIONS";
   "ensureSupabaseUser"; "AuthContext"; "useAuth"; "AuthProvider"].

(** The names declared by [const] in the block of the inner [try], where
    the sign-in is awaited; they are visible in that block only. *)
Definition scope_signin_try_block : list string := ["firebaseUser"; "userId"].

Definition scopes_at_success_branch : list (list string) :=
  [scope_else_block; scope_login_try_block; scope_login; scope_AuthProvider; scope_module].

Definition in_scope (scopes : list (list string)) (x : string) : bool :=
  existsb (existsb (String.eqb x)) scopes.

(** Reading the identifier [x] where [scopes] are visible: its value [v]
    when it is declared, a [ReferenceError] otherwise. *)
Definition read_identifier {A} (scopes : list (list string)) (x : string) (v : A) : Proc A :=
  if in_scope scopes x then Ret v
  else Raise (ReferenceError (x ++ " is not defined")).

Definition setUser (u : option FirebaseUser) : Proc unit := modify (with_auth (put_user u)).
Definition setUserProfile (p : option UserProfile) : Proc unit :=
  modify (with_auth (put_userProfile p)).
Definition setLoading (b : bool) : Proc unit := modify (with_auth (put_loading b)).
Definition setIsAuthenticated (b : bool) : Proc unit :=
  modify (with_auth (put_isAuthenticated b)).

(** The payload of the first-login sync. *)
Definition supabasePayload (d : UserProfile) : SupabaseUser :=
  {| su_user_id := Some (user_id d);
     su_name := Some (user_name d);
     su_email := Some (user_email d);
     su_phone := Some (user_phone d);
     su_role := Some (or_else (user_role d) "citizen") |}.

(** The validation at the head of [login]: the three fields, or the error
    thrown. *)
Definition validateLogin (userData : LoginInput) : Proc (string * string * string) :=
  if negb (truthy (in_name userData)) || negb (truthy (in_email userData))
     || negb (truthy (in_phone userData)) then
    Raise (new_Error "Please fill in all required fields")
  else
    let name := default "" (in_name userData) in
    let email := default "" (in_email userData) in
    let phone := default "" (in_phone userData) in
    if negb (emailRegex_test email) then
      Raise (new_Error "Please enter a valid email address")
    else if negb (phoneRegex_test (strip_phone_punctuation phone)) then
      Raise (new_Error "Please enter a valid phone number")
    else Ret (name, email, phone).

(** The inner [try]/[catch] of [login]: the sign-in, the save of the
    profile and the first sync; its value is [finalUserData] with
    [shouldUseFallback] and, on success, the Firebase user that the block
    holds in its own [firebaseUser]. *)
Definition signInOrFallback (processedUserData : UserProfile)
  : Proc (UserProfile * bool * option FirebaseUser) :=
  try_catch
    (userId ← call SignInAnonymously;
     let finalUserData :=
       {| user_id := userId;
          user_name := user_name processedUserData;
          user_email := user_email processedUserData;
          user_phone := user_phone processedUserData;
          user_createdAt := user_createdAt processedUserData;
          user_lastLogin := user_lastLogin processedUserData;
          user_safetyStatus := user_safetyStatus processedUserData;
          user_locationPermission := user_locationPermission processedUserData;
          user_firebaseUid := Some userId;
          user_isLocalUser := false;
          user_role := None |} in
     try_catch
       (call (CreateOrUpdateUser userId finalUserData);;
        try_catch
          (_ ← ensureSupabaseUser (Some (supabasePayload finalUserData)); Ret tt)
          (fun e =>
             console_error "[Supabase] First-login sync failed (Firebase branch):"
                           (err_message e)))
       (fun firestoreError =>
          console_warn "Firestore save failed:" (err_message firestoreError));;
     Ret (finalUserData, false,
          Some {| uid := userId; isAnonymous := true; hasGetIdToken := true |}))
    (fun authError =>
       console_warn "Firebase Auth failed:" (err_message authError);;
       now ← ask DateNow;
       Ret ({| user_id := "local_" ++ pretty now;
               user_name := user_name processedUserData;
               user_email := user_email processedUserData;
               user_phone := user_phone processedUserData;
               user_createdAt := user_createdAt processedUserData;
               user_lastLogin := user_lastLogin processedUserData;
               user_safetyStatus := user_safetyStatus processedUserData;
               user_locationPermission := user_locationPermission processedUserData;
               user_firebaseUid := None;
               user_isLocalUser := true;
               user_role := None |}, true, None)).

(** The statements of the outer [try] block of [login]. *)
Definition loginBody (userData : LoginInput) : Proc UserProfile :=
  '(name, email, phone) ← validateLogin userData;
  idStamp ← ask DateNow;
  createdAt ← ask DateNow;
  lastLogin ← ask DateNow;
  let processedUserData :=
    {| user_id := "user_" ++ pretty idStamp;
       user_name := trim name;
       user_email := trim (toLowerCase email);
       user_phone := trim phone;
       user_createdAt := createdAt;
       user_lastLogin := lastLogin;
       user_safetyStatus := "safe";
       user_locationPermission := "pending";
       user_firebaseUid := None;
       user_isLocalUser := false;
       user_role := None |} in
  '(finalUserData, shouldUseFallback, signedIn) ← signInOrFallback processedUserData;
  (if shouldUseFallback : bool then
     localStorage_setItem "safeguard_user_session" (StoredUser finalUserData);;
     setUser (Some {| uid := user_id finalUserData; isAnonymous := true;
                      hasGetIdToken := false |});;
     setUserProfile (Some finalUserData);;
     setIsAuthenticated true;;
     toast "Welcome to SafeGuard!"
           ("Hello " ++ user_name finalUserData
            ++ "! Running in local mode - Firebase needs configuration.")
           false (Some 6000)
   else
     firebaseUser ← read_identifier scopes_at_success_branch "firebaseUser" signedIn;
     setUser firebaseUser;;
     setUserProfile (Some finalUserData);;
     setIsAuthenticated true;;
     toast "Welcome to SafeGuard!"
           ("Hello " ++ user_name finalUserData
            ++ "! Your account is connected to Firebase.")
           false (Some 4000));;
  try_catch
    (_ ← ensureSupabaseUser (Some (supabasePayload finalUserData)); Ret tt)
    (fun e => console_error "[Supabase] Final first-login sync failed:" (err_message e));;
  Ret finalUserData.

(** [login(userData)]. *)
Definition login (userData : LoginInput) : Proc UserProfile :=
  setLoading true;;
  try_finally
    (try_catch (loginBody userData)
       (fun error =>
          console_error "Login error:" (err_message error);;
          toast "Login Failed"
                (if String.eqb (err_message error) ""
                 then "Please check your information and try again."
                 else err_message error)
                true (Some 5000);;
          Raise error))
    (setLoading false).

(* ================================================================== *)
(** * components/GoogleSignIn.jsx and pages/AuthCallback *)
(* ================================================================== *)

Definition hex_digit (n : Z) : ascii :=
  if n <? 10 then Ascii.ascii_of_N (Z.to_N (48 + n))
  else Ascii.ascii_of_N (Z.to_N (87 + n)).

(** [n.toString(16)] for [0 <= n < 16^fuel]. *)
Fixpoint toString16 (fuel : nat) (n : Z) : string :=
  match fuel with
  | O => ""
  | S f =>
      if n <? 16 then String (hex_digit n) ""
      else toString16 f (n / 16) ++ String (hex_digit (n mod 16)) ""
  end.

(** [s.substr(-2)]: the last two characters (all of [s] when shorter). *)
Fixpoint substr_last2 (s : string) : string :=
  match s with
  | String _ (String _ (String _ _) as s') => substr_last2 s'
  | _ => s
  end.

(** The contents of a [Uint32Array] of length [n] filled from [vals]. *)
Definition uint32_array (n : nat) (vals : list Z) : list Z :=
  map (fun v => v mod 4294967296) (take n (vals ++ repeat 0 n)).

(** [generateCodeVerifier()]. *)
Definition generateCodeVerifier : Proc string :=
  vals ← ask (GetRandomValues 28);
  let array := uint32_array 28 vals in
  Ret (String.concat ""
         (map (fun dec => substr_last2 ("0" ++ toString16 8 dec)) array)).

(** [new TextEncoder().encode(plain)] on ASCII text. *)
Definition encode_text (plain : string) : list byte := list_byte_of_string plain.

(** [sha256(plain)]. *)
Definition sha256 (plain : string) : Proc (list byte) :=
  call (SubtleDigest "SHA-256" (encode_text plain)).

(** The base64 alphabet of [btoa]. *)
Definition b64_char (n : Z) : ascii :=
  if n <? 26 then Ascii.ascii_of_N (Z.to_N (65 + n))
  else if n <? 52 then Ascii.ascii_of_N (Z.to_N (97 + (n - 26)))
  else if n <? 62 then Ascii.ascii_of_N (Z.to_N (48 + (n - 52)))
  else if n =? 62 then "+"%char
  else "/"%char.

Definition code (c : ascii) : Z := Z.of_N (Ascii.N_of_ascii c).

(** [btoa(str)]: base64 with padding, of a string of characters below 256. *)
Fixpoint btoa (str : string) : string :=
  match str with
  | EmptyString => ""
  | String a EmptyString =>
      String (b64_char (code a / 4))
        (String (b64_char ((code a mod 4) * 16)) "==")
  | String a (String b EmptyString) =>
      String (b64_char (code a / 4))
        (String (b64_char ((code a mod 4) * 16 + code b / 16))
           (String (b64_char ((code b mod 16) * 4)) "="))
  | String a (String b (String c rest)) =>
      String (b64_char (code a / 4))
        (String (b64_char ((code a mod 4) * 16 + code b / 16))
           (String (b64_char ((code b mod 16) * 4 + code c / 64))
              (String (b64_char (code c mod 64)) (btoa rest))))
  end.

(** [s.replace(/x/g, y)] for single characters. *)
Fixpoint replace_char (x y : ascii) (s : string) : string :=
  match s with
  | EmptyString => EmptyString
  | String c s' => String (if Ascii.eqb c x then y else c) (replace_char x y s')
  end.

(** [s.replace(/=+$/, '')]. *)
Fixpoint strip_padding (s : string) : string :=
  match s with
  | EmptyString => EmptyString
  | String c s' =>
      match strip_padding s' with
      | EmptyString => if Ascii.eqb c "="%char then EmptyString else String c EmptyString
      | t => String c t
      end
  end.

(** The loop of [base64UrlEncode]: [str += String.fromCharCode(bytes[i])]. *)
Definition binary_string (bytes : list byte) : string := string_of_list_byte bytes.

(** [base64UrlEncode(arrayBuffer)]. *)
Definition base64UrlEncode (bytes : list byte) : string :=
  strip_padding (replace_char "/" "_" (replace_char "+" "-" (btoa (binary_string bytes)))).

(** The base64url encoding in the words of the claim: the base64 alphabet
    with ['-'] for ['+'] and ['_'] for ['/'], and no padding. *)
Definition b64url_char (n : Z) : ascii :=
  if n <? 26 then Ascii.ascii_of_N (Z.to_N (65 + n))
  else if n <? 52 then Ascii.ascii_of_N (Z.to_N (97 + (n - 26)))
  else if n <? 62 then Ascii.ascii_of_N (Z.to_N (48 + (n - 52)))
  else if n =? 62 then "-"%char
  else "_"%char.

Fixpoint base64url_unpadded (str : string) : string :=
  match str with
  | EmptyString => ""
  | String a EmptyString =>
      String (b64url_char (code a / 4))
        (String (b64url_char ((code a mod 4) * 16)) "")
  | String a (String b EmptyString) =>
      String (b64url_char (code a / 4))
        (String (b64url_char ((code a mod 4) * 16 + code b / 16))
           (String (b64url_char ((code b mod 16) * 4)) ""))
  | String a (String b (String c rest)) =>
      String (b64url_char (code a / 4))
        (String (b64url_char ((code a mod 4) * 16 + code b / 16))
           (String (b64url_char ((code b mod 16) * 4 + code c / 64))
              (String (b64url_char (code c mod 64)) (base64url_unpadded rest))))
  end.

Definition signIn_clientId : string :=
  "1069463850395-r7tefqv5lucgbn9vnl322gaepqmvpb19.apps.googleusercontent.com".

Definition read_origin : Proc string := Get (fun w => Ret (origin (window w))).

(** [startAuth()]. *)
Definition startAuth : Proc unit :=
  try_catch
    (codeVerifier ← generateCodeVerifier;
     hashed ← sha256 codeVerifier;
     let codeChallenge := base64UrlEncode hashed in
     sessionStorage_setItem "google_code_verifier" codeVerifier;;
     org ← read_origin;
     let redirectUri := org ++ "/auth/callback" in
     emit (LocationAssign "https://accounts.google.com/o/oauth2/v2/auth"
             [ ("client_id", signIn_clientId);
               ("redirect_uri", redirectUri);
               ("response_type", "code");
               ("scope", "openid profile email");
               ("include_granted_scopes", "true");
               ("access_type", "offline");
               ("prompt", "consent");
               ("code_challenge", codeChallenge);
               ("code_challenge_method", "S256") ]))
    (fun e =>
       console_error "[Google] Failed to start auth:" (err_message e);;
       emit (WindowAlert "Failed to start Google sign-in. See console for details.")).

Definition callback_clientId : string :=
  "541486884869-mo97r52fhuqiurlf768qn756fpc82plq.apps.googleusercontent.com".

(** [params.get(k)] on [new URLSearchParams(window.location.search)]. *)
Fixpoint params_get (params : list (string * string)) (k : string) : option string :=
  match params with
  | [] => None
  | (k', v) :: rest => if String.eqb k' k then Some v else params_get rest k
  end.

Definition read_search : Proc (list (string * string)) :=
  Get (fun w => Ret (search (window w))).

(** [a || ''] on possibly absent strings. *)
Definition or_empty (s : option string) : string := or_else s "".

(** The effect of the [AuthCallback] page.  The [loading] flag of the page,
    set to [false] at the end, is left out. *)
Definition authCallback : Proc unit :=
  try_catch
    (params ← read_search;
     let code := params_get params "code" in
     let error := params_get params "error" in
     if truthy error then
       console_error "[Google] Auth error:" (default "" error);;
       toast "Google Sign-in Failed" (default "" error) true None;;
       emit (Navigate "/login")
     else if negb (truthy code) then
       console_error "[Google] No code in callback URL" "";;
       emit (Navigate "/login")
     else
       codeVerifier ← sessionStorage_getItem "google_code_verifier";
       if negb (truthy codeVerifier) then
         console_error "[Google] Missing code_verifier in sessionStorage" "";;
         toast "Authentication Error" "Missing PKCE verifier." true None;;
         emit (Navigate "/login")
       else
         org ← read_origin;
         let redirectUri := org ++ "/auth/callback" in
         let body :=
           [ ("client_id", callback_clientId);
             ("grant_type", "authorization_code");
             ("code", default "" code);
             ("code_verifier", default "" codeVerifier);
             ("redirect_uri", redirectUri) ] in
         tokenRes_ok ← call (PostForm "https://oauth2.googleapis.com/token" body);
         tokenJson ← call TokenResponseJson;
         if negb tokenRes_ok then
           console_error "[Google] Token exchange failed:" "";;
           toast "Google Sign-in Failed"
                 (if truthy (tok_error_description tokenJson)
                  then default "" (tok_error_description tokenJson)
                  else or_else (tok_error tokenJson) "Token exchange failed")
                 true None;;
           emit (Navigate "/login")
         else
           let idToken := tok_id_token tokenJson in
           let accessToken := tok_access_token tokenJson in
           decoded ← ask (DecodeJwtClaims idToken);
           let profile := default {| jwt_name := None; jwt_email := None;
                                     jwt_picture := None |} decoded in
           let user :=
             {| g_name := or_empty (jwt_name profile);
                g_email := or_empty (jwt_email profile);
                g_picture := or_empty (jwt_picture profile);
                g_idToken := idToken;
                g_accessToken := accessToken |} in
           localStorage_setItem "google_user" (StoredGoogleUser user);;
           toast "Signed in" ("Welcome " ++ g_name user) false None;;
           emit (Navigate "/welcome"))
    (fun e =>
       console_error "[Google] Callback processing failed:" (err_message e);;
       toast "Sign-in Error" "Could not complete sign-in." true None;;
       emit (Navigate "/login")).

(* ================================================================== *)
(** * Environments used in examples *)
(* ================================================================== *)

(** ** Scripted services *)

(** One settlement per external service; the environment state is the
    clock, which advances by one millisecond at each reading. *)
Record Scenario := {
  sc_location : Outcome (option Location);
  sc_record : Outcome Blob;
  sc_storage_upload : Outcome (SupaResp string);
  sc_public_url : Outcome (SupaResp PublicUrlData);
  sc_firebase_upload : Outcome FirebaseUpload;
  sc_create_alert : Outcome (option string);
  sc_notification_log : Outcome unit;
  sc_insert_alert : Outcome (SupaResp (list (option string)));
  sc_select_alerts : Outcome (SupaResp (list AlertRow));
  sc_select_user : Outcome (SupaResp string);
  sc_insert_user : Outcome (SupaResp (list string));
  sc_sign_in : Outcome string;
  sc_save_user : Outcome unit;
  sc_id_token : Outcome string;
  sc_fetch : Outcome Response;
  sc_response_json : Outcome JsonBody;
  sc_post_form : Outcome bool;
  sc_token_json : Outcome TokenJson;
  sc_digest : list byte -> Outcome (list byte);
  sc_random : list Z;
  sc_jwt : option JwtProfile
}.

Definition scripted_call (sc : Scenario) {R} (c : Call R) : Outcome R :=
  match c in Call R return Outcome R with
  | GetCurrentLocation => sc_location sc
  | RecordStreamToBlob _ _ => sc_record sc
  | StorageUpload _ _ _ => sc_storage_upload sc
  | StorageGetPublicUrl _ _ => sc_public_url sc
  | SupabaseSelectAlerts => sc_select_alerts sc
  | SupabaseInsertAlert _ => sc_insert_alert sc
  | SupabaseSelectUser _ => sc_select_user sc
  | SupabaseInsertUser _ => sc_insert_user sc
  | UploadVideoAndGetURL _ _ => sc_firebase_upload sc
  | CreateSOSAlert _ => sc_create_alert sc
  | CreateNotificationLog _ => sc_notification_log sc
  | SignInAnonymously => sc_sign_in sc
  | CreateOrUpdateUser _ _ => sc_save_user sc
  | GetIdToken _ => sc_id_token sc
  | Fetch _ _ _ => sc_fetch sc
  | ResponseJson _ => sc_response_json sc
  | PostForm _ _ => sc_post_form sc
  | TokenResponseJson => sc_token_json sc
  | TimerElapsed _ => Resolved tt
  | SubtleDigest _ bytes => sc_digest sc bytes
  end.

Definition scripted_ask (sc : Scenario) {R} (q : Query R) (clock : Z) : R * Z :=
  match q in Query R return R * Z with
  | DateNow => (clock, clock + 1)
  | GetRandomValues _ => (sc_random sc, clock)
  | DecodeJwtClaims _ => (sc_jwt sc, clock)
  end.

Definition scripted (sc : Scenario) : Handler Z :=
  {| on_call := fun R c clock => (scripted_call sc c, clock);
     on_ask := fun R q clock => scripted_ask sc q clock |}.

(** ** A users table *)

(** The [users] table of Supabase with the failures the client can see:
    each query and each insert takes the next entry of its list of faults
    ([None], or no entry left: the operation works).  A query that works
    reports the first row with the given [user_id]; an insert that works
    appends the row. *)
Record UsersDb := {
  db_rows : list UserRow;
  db_select_faults : list (option Error);
  db_insert_faults : list (option Error);
  db_clock : Z
}.

Definition db_select (user_id : string) (db : UsersDb) : SupaResp string * UsersDb :=
  let rest := {| db_rows := db_rows db; db_select_faults := tail (db_select_faults db);
                 db_insert_faults := db_insert_faults db; db_clock := db_clock db |} in
  match db_select_faults db with
  | Some err :: _ => ({| data := None; error := Some err |}, rest)
  | _ =>
      ({| data := ur_user_id <$> List.find (fun r => String.eqb (ur_user_id r) user_id)
                                            (db_rows db);
          error := None |}, rest)
  end.

Definition db_insert (row : UserRow) (db : UsersDb) : SupaResp (list string) * UsersDb :=
  match db_insert_faults db with
  | Some err :: faults =>
      ({| data := None; error := Some err |},
       {| db_rows := db_rows db; db_select_faults := db_select_faults db;
          db_insert_faults := faults; db_clock := db_clock db |})
  | faults =>
      ({| data := Some [ur_user_id row]; error := None |},
       {| db_rows := db_rows db ++ [row]; db_select_faults := db_select_faults db;
          db_insert_faults := tail faults; db_clock := db_clock db |})
  end.

Definition unavailable {R} : Outcome R := Rejected (new_Error "service not available").

Definition users_db_call {R} (c : Call R) (db : UsersDb) : Outcome R * UsersDb :=
  match c in Call R return Outcome R * UsersDb with
  | SupabaseSelectUser user_id => let '(r, db') := db_select user_id db in (Resolved r, db')
  | SupabaseInsertUser row => let '(r, db') := db_insert row db in (Resolved r, db')
  | _ => (unavailable, db)
  end.

Definition users_db_ask {R} (q : Query R) (db : UsersDb) : R * UsersDb :=
  match q in Query R return R * UsersDb with
  | DateNow =>
      (db_clock db,
       {| db_rows := db_rows db; db_select_faults := db_select_faults db;
          db_insert_faults := db_insert_faults db; db_clock := db_clock db + 1 |})
  | GetRandomValues _ => ([], db)
  | DecodeJwtClaims _ => (None, db)
  end.

Definition users_db : Handler UsersDb :=
  {| on_call := fun R c db => users_db_call c db;
     on_ask := fun R q db => users_db_ask q db |}.

(** The rows of the table that belong to [user_id]. *)
Definition rows_of (user_id : string) (db : UsersDb) : list UserRow :=
  filter (fun r => ur_user_id r = user_id) (db_rows db).

(* ================================================================== *)
(** * Composition of runs *)
(* ================================================================== *)

(** The run [g] seen after the events [evs]. *)
Definition after {E A} (evs : list Event) (g : Final E A) : Final E A :=
  {| result := result g; world := world g; env := env g; events := evs ++ events g |}.

(** The run of [k] after a run that ended as [f]. *)
Definition and_then {E A B} (f : Final E A) (k : A -> World -> E -> Final E B)
  : Final E B :=
  match result f with
  | Resolved a => after (events f) (k a (world f) (env f))
  | Rejected x =>
      {| result := Rejected x; world := world f; env := env f; events := events f |}
  end.

(** The run of the handler [h] after a run that ended as [f]. *)
Definition or_catch {E A} (f : Final E A) (h : Error -> World -> E -> Final E A)
  : Final E A :=
  match result f with
  | Resolved a => f
  | Rejected x => after (events f) (h x (world f) (env f))
  end.

(** The end of a [try]/[finally]: the exit [r] of the [try] part is kept
    unless the [finally] block, which ran as [g], threw. *)
Definition finish {E A} (r : Outcome A) (g : Final E unit) : Final E A :=
  {| result := match result g with
               | Resolved _ => r
               | Rejected x => Rejected x
               end;
     world := world g; env := env g; events := events g |}.

(** The run of the [finally] block [c] after a run that ended as [f]. *)
Definition and_finally {E A} (f : Final E A) (c : World -> E -> Final E unit)
  : Final E A :=
  finish (result f) (after (events f) (c (world f) (env f))).

(* ================================================================== *)
(** * Properties stated about the flows *)
(* ================================================================== *)

(** ** Active alerts *)

(** The alert has status ['pending'] or ['active']. *)
Definition active_status (a : Alert) : Prop :=
  alert_status a = Some "pending" \/ alert_status a = Some "active".

(** The flag is true exactly when the list holds an alert that is pending
    or active. *)
Definition flag_agrees (flag : bool) (l : list Alert) : Prop :=
  flag = true <-> exists a, In a l /\ active_status a.

(** [hasActiveAlerts] agrees with both lists of the provider. *)
Definition alerts_consistent (s : PanicState) : Prop :=
  flag_agrees (hasActiveAlerts s) (panicHistory s)
  /\ flag_agrees (hasActiveAlerts s) (realtimeAlerts s).

(** ** Events of a run *)

Definition is_call (ev : Event) : bool :=
  match ev with Called _ _ => true | _ => false end.

Definition is_insert_user (ev : Event) : bool :=
  match ev with
  | Called (SupabaseInsertUser _) _ => true
  | _ => false
  end.

(** ** ensureSupabaseUser *)

(** The argument has the four required properties. *)
Definition valid_user (u : SupabaseUser) : Prop :=
  truthy (su_user_id u) = true /\ truthy (su_name u) = true
  /\ truthy (su_email u) = true /\ truthy (su_phone u) = true.

(** The text is made of ASCII characters only.  On such text the white
    space that [trim] and the regular expressions see and the letters that
    [toLowerCase] changes are those of the definitions above; the code's
    also reach characters outside ASCII. *)
Definition ascii_text (s : string) : bool :=
  string_forallb (fun c => (Ascii.nat_of_ascii c <? 128)%nat) s.

(** The name, the email and the phone of the argument are ASCII text. *)
Definition ascii_user (u : SupabaseUser) : Prop :=
  ascii_text (default "" (su_name u)) = true
  /\ ascii_text (default "" (su_email u)) = true
  /\ ascii_text (default "" (su_phone u)) = true.

(** The row [ensureSupabaseUser] builds from its argument ([payload]),
    [joined] being the reading of the clock. *)
Definition user_row (u : SupabaseUser) (joined : Z) : UserRow :=
  {| ur_user_id := default "" (su_user_id u);
     ur_name := trim (default "" (su_name u));
     ur_email := trim (toLowerCase (default "" (su_email u)));
     ur_phone := trim (default "" (su_phone u));
     ur_role := or_else (su_role u) "citizen";
     ur_joined_at := joined |}.

(** The [n]-th existence query made to the table from now on does not
    fail. *)
Definition select_works (n : nat) (db : UsersDb) : Prop :=
  match db_select_faults db !! n with
  | Some (Some _) => False
  | _ => True
  end.

(** The table holds a row of that user. *)
Definition has_row (user_id : string) (rows : list UserRow) : bool :=
  found (List.find (fun r => String.eqb (ur_user_id r) user_id) rows).

Definition is_effect (ev : Event) : bool :=
  match ev with Did _ => true | _ => false end.

(** ** The video step of activatePanic *)

Definition is_firebase_upload (ev : Event) : bool :=
  match ev with
  | Called (UploadVideoAndGetURL _ _) _ => true
  | _ => false
  end.

(** What a Supabase attempt may leave behind: the recording, the storage
    upload, the public URL, readings of the clock, console lines. *)
Definition supabase_attempt_event (ev : Event) : bool :=
  match ev with
  | Called (RecordStreamToBlob _ _) _ => true
  | Called (StorageUpload _ _ _) _ => true
  | Called (StorageGetPublicUrl _ _) _ => true
  | Asked DateNow _ => true
  | Did (Console _ _ _) => true
  | _ => false
  end.

(** The video URL a Supabase attempt ends with: none when it throws and
    when it returns no URL. *)
Definition supabase_url {E} (f : Final E SupaUpload) : option string :=
  match result f with
  | Resolved r => or_null (supa_videoUrl r)
  | Rejected _ => None
  end.

(** The video URL a Firebase attempt ends with. *)
Definition firebase_url (o : Outcome FirebaseUpload) : option string :=
  match o with
  | Resolved r => or_null (fb_videoUrl r)
  | Rejected _ => None
  end.

(** ** The persistence step of activatePanic *)

Definition is_firestore_write (ev : Event) : bool :=
  match ev with
  | Called (CreateSOSAlert _) _ => true
  | _ => false
  end.

Definition is_alert_insert (ev : Event) : bool :=
  match ev with
  | Called (SupabaseInsertAlert _) _ => true
  | _ => false
  end.

(** ** Client states along activatePanic *)

(** The state once the handle in [window.panicButtonTimeout] has been
    cleared. *)
Definition cleared (w : World) : World :=
  match panicButtonTimeout (window w) with
  | Some h => with_window (put_panicButtonTimeout None) (with_window (remove_timer h) w)
  | None => w
  end.

(** The state once a delay of 1500 ms has been awaited: its timer was
    armed and has fired. *)
Definition delayed (w : World) : World :=
  with_window (remove_timer (nextTimerId (window w)))
    (with_window (add_timer CbResolveDelay 1500) w).

(** The state once the button has been activated and its reset armed. *)
Definition button_armed (w : World) : World :=
  with_window (put_panicButtonTimeout (Some (nextTimerId (window w))))
    (with_window (add_timer CbResetButton 2000) (with_panic (put_isActivated true) w)).

(** The record saved in local mode for [d], under the id made of [now],
    with the time stamp [timestamp]. *)
Definition local_record (d : SosAlertData) (now timestamp : Z) : Alert :=
  {| alert_id := "local_sos_" ++ pretty now;
     alert_timestamp := timestamp;
     alert_status := None;
     alert_userId := Some (sos_userId d);
     alert_message := Some (sos_message d);
     alert_videoUrl := sos_videoUrl d;
     alert_location :=
       {| loc_latitude := Some (sos_latitude (sos_location d));
          loc_longitude := Some (sos_longitude (sos_location d));
          loc_address := Some (sos_address (sos_location d)) |} |}.

(** The state once the list [l] has been stored and shown. *)
Definition stored_locally (l : list Alert) (w : World) : World :=
  with_panic (map_realtimeAlerts (fun _ => l))
    (with_panic (map_panicHistory (fun _ => l))
       (with_window (map_localStorage (insert "local_sos_alerts" (StoredAlerts l))) w)).

(** The list held under ['local_sos_alerts'] is [l] ([[]] when the entry
    is missing). *)
Definition local_alerts_are (l : list Alert) (w : World) : Prop :=
  localStorage (window w) !! "local_sos_alerts" = Some (StoredAlerts l)
  \/ (localStorage (window w) !! "local_sos_alerts" = None /\ l = []).

(** The list read from ['local_sos_alerts'] is [l]: the entry holds [l],
    or it is missing or the empty text and [l] is the empty list. *)
Definition stored_alerts_read (l : list Alert) (w : World) : Prop :=
  local_alerts_are l w
  \/ (localStorage (window w) !! "local_sos_alerts" = Some (StoredText "") /\ l = []).

(** The text opens a JSON array: its first character after JSON white
    space (space, tab, line feed, carriage return) is an opening bracket.
    [JSON.parse] gives an array on such texts only. *)
Fixpoint opens_array (s : string) : bool :=
  match s with
  | EmptyString => false
  | String c s' =>
      if Ascii.eqb c "[" then true
      else if (Ascii.eqb c " " || Ascii.eqb c "009" || Ascii.eqb c "010"
               || Ascii.eqb c "013")%bool
           then opens_array s'
           else false
  end.

(** The entry under ['local_sos_alerts'] cannot be used as a list: it is
    an object, or a text that is not empty and does not open an array, so
    that [JSON.parse] throws on it or gives a value without [unshift]. *)
Definition stored_alerts_unreadable (w : World) : Prop :=
  match localStorage (window w) !! "local_sos_alerts" with
  | Some (StoredUser _) | Some (StoredGoogleUser _) => True
  | Some (StoredText s) => s <> EmptyString /\ opens_array s = false
  | Some (StoredAlerts _) | None => False
  end.

(** [sosAlertData] for a known location. *)
Definition sos_data (userId : string) (message : option string) (video : option string)
    (l : Location) : SosAlertData :=
  {| sos_userId := userId;
     sos_message := or_else message "Emergency SOS activated without a message.";
     sos_videoUrl := video;
     sos_location :=
       {| sos_latitude := latitude l;
          sos_longitude := longitude l;
          sos_address := toFixed4 (latitude l) ++ ", " ++ toFixed4 (longitude l) |} |}.

(** ** The backend notification *)

(** The answer of the backend service that makes
    [sendPanicAlertToBackend] throw: a rejected token, request or body, or
    a response that is not [ok]. *)
Definition backend_failure (ev : Event) : bool :=
  match ev with
  | Called (GetIdToken _) (Rejected _) => true
  | Called (Fetch _ _ _) (Rejected _) => true
  | Called (Fetch _ _ _) (Resolved r) => negb (ok r)
  | Called (ResponseJson _) (Rejected _) => true
  | _ => false
  end.


(** A toast of the destructive variant, the one used to report failures. *)
Definition is_destructive_toast (ev : Event) : bool :=
  match ev with
  | Did (Toast t) => toast_destructive t
  | _ => false
  end.

(** The toast that ends a successful activation. *)
Definition success_toast (localMode hasVideo : bool) : ToastOpts :=
  if localMode then
    {| toast_title := "SOS Alert Created!";
       toast_description :=
         "Emergency alert saved locally"
         ++ (if hasVideo then " with video" else " (no video)")
         ++ ". Ready to send another if needed.";
       toast_destructive := false; toast_duration := Some 5000 |}
  else
    {| toast_title := "SOS Alert Sent!";
       toast_description :=
         "Emergency alert sent successfully"
         ++ (if hasVideo then " with video" else " (no video)")
         ++ ". You can send another alert if needed.";
       toast_destructive := false; toast_duration := Some 5000 |}.

(** The toast shown by the [catch] block of [activatePanic]. *)
Definition failure_toast (error : Error) : ToastOpts :=
  {| toast_title := "SOS Alert Failed";
     toast_description :=
       if String.eqb (err_message error) ""
       then "Failed to send SOS alert. Please try again."
       else err_message error;
     toast_destructive := true; toast_duration := Some 8000 |}.

(** ** Ends of activatePanic *)

(** The location of the activation is [loc]: the context has it, or
    [getCurrentLocation()] resolves to it. *)
Definition location_found {E} (H : Handler E) (ctx : PanicCtx) (e : E) (loc : Location)
  : Prop :=
  ctx_location ctx = Some loc
  \/ (ctx_location ctx = None /\ (on_call H GetCurrentLocation e).1 = Resolved (Some loc)).

(** The end of [activatePanic] when its [try] block threw [x] in the state
    [wk] after the events [pre]: the [catch] block ran (its console lines
    and its call of the notification log are [logs]) and showed the failure
    toast, nothing else changed but [isProcessing]. *)
Definition aborted_with {E} (f : Final E unit) (pre : list Event) (x : Error) (wk : World)
  : Prop :=
  world f = with_panic (put_isProcessing false) wk
  /\ exists logs,
       events f = (pre ++ logs ++ [Did (Toast (failure_toast x))])%list
       /\ forallb (fun ev => negb (is_firestore_write ev)) logs = true.

(** The remaining steps of the alert were all taken: the button is
    activated, its reset is armed for 2000 ms under the handle kept in
    [window.panicButtonTimeout], [isProcessing] is over and the last thing
    shown is the success toast. *)
Definition completed {E} (f : Final E unit) : Prop :=
  result f = Resolved tt
  /\ isActivated (panic (world f)) = true
  /\ isProcessing (panic (world f)) = false
  /\ (exists h,
        panicButtonTimeout (window (world f)) = Some h
        /\ In {| timer_id := h; timer_callback := CbResetButton; timer_delay := 2000 |}
              (timers (window (world f))))
  /\ exists pre localMode hasVideo,
       events f = (pre ++ [Did (Toast (success_toast localMode hasVideo))])%list.

(* ================================================================== *)
(** * The button-reset timer *)
(* ================================================================== *)

(** What the page can do to the reset timer of the panic button: the three
    functions of the provider that touch [window.panicButtonTimeout], and
    the firing of a pending timer. *)
Inductive PanicOp :=
| Activate (ctx : PanicCtx) (message : option string) (stream : option Stream)
| Deactivate
| ResetButtonState
| TimerFires (h : positive).

Definition perform (op : PanicOp) : Proc unit :=
  match op with
  | Activate ctx message stream => activatePanic ctx message stream
  | Deactivate => deactivatePanic
  | ResetButtonState => resetButtonState
  | TimerFires h => fireTimer h
  end.

(** The operations run one after the other, each one to its end before the
    next one starts. *)
Fixpoint perform_all {E} (H : Handler E) (ops : list PanicOp) (w : World) (e : E)
  : World * E :=
  match ops with
  | [] => (w, e)
  | op :: ops' =>
      let f := run H (perform op) w e in
      perform_all H ops' (world f) (env f)
  end.

Definition reset_timer (h : positive) : Timer :=
  {| timer_id := h; timer_callback := CbResetButton; timer_delay := 2000 |}.

Definition is_reset_timer (t : Timer) : bool :=
  match timer_callback t with
  | CbResetButton => true
  | CbResolveDelay => false
  end.

(** The button-reset timers that are pending. *)
Definition pending_resets (w : World) : list Timer :=
  List.filter is_reset_timer (timers (window w)).

(** No timer is pending and no handle is kept. *)
Definition no_timer (w : World) : Prop :=
  timers (window w) = [] /\ panicButtonTimeout (window w) = None.

(** No timer is pending, or only the button reset whose handle is the one
    kept in [window.panicButtonTimeout]. *)
Definition single_handle (w : World) : Prop :=
  timers (window w) = []
  \/ exists h, panicButtonTimeout (window w) = Some h
               /\ timers (window w) = [reset_timer h].

(* ================================================================== *)
(** * The recorder *)
(* ================================================================== *)

(** The two copies of [recordStreamToBlob] found in the sources. *)
Inductive RecorderVersion := CurrentVersion | FirstVersion.

Definition start_recording (v : RecorderVersion) (m : MediaEnv) (now : Z) (stream : Stream)
    (durationMs : option Z) : Recorder :=
  match v with
  | CurrentVersion => recordStreamToBlob m now stream durationMs
  | FirstVersion => recordStreamToBlob_v1 m now stream durationMs
  end.

Definition handler_of (v : RecorderVersion) : MediaEvent -> Recorder -> Recorder :=
  match v with
  | CurrentVersion => handle
  | FirstVersion => handle_v1
  end.

(** The chunks that the browser handed over in [evs]. *)
Fixpoint received (evs : list MediaEvent) : list Blob :=
  match evs with
  | [] => []
  | OnDataAvailable d :: evs' => d :: received evs'
  | _ :: evs' => received evs'
  end.

(** The events of a recording that goes on: [start] and data. *)
Definition while_recording (ev : MediaEvent) : bool :=
  match ev with
  | OnStart | OnDataAvailable _ => true
  | _ => false
  end.

(** Nothing makes the set-up of the recorder throw: for the current copy
    the stream has a first video track that is live, the type chosen is
    supported and [start] does not throw; for the first copy [start] does
    not throw. *)
Definition set_up_succeeds (v : RecorderVersion) (m : MediaEnv) (stream : Stream) : Prop :=
  match v with
  | CurrentVersion =>
      (exists videoTrack rest,
         videoTracks stream = videoTrack :: rest /\ readyState videoTrack = "live")
      /\ isTypeSupported m (choose_mimeType m) = true
      /\ start_error m = None
  | FirstVersion => start_error m = None
  end.

(** The type given to the recorder and to the blob. *)
Definition recorded_type (v : RecorderVersion) (m : MediaEnv) : string :=
  match v with
  | CurrentVersion => choose_mimeType m
  | FirstVersion => "video/mp4"
  end.

(** What happens while the recording goes on and the timer is not due:
    [start], data, and time passing short of [due]. *)
Definition before_due (due : Z) (ev : MediaEvent) : bool :=
  match ev with
  | OnStart | OnDataAvailable _ => true
  | ClockReaches t => t <? due
  | _ => false
  end.

(** What happens between the call of [stop()] and the [stop] event: the
    last data, and time passing. *)
Definition while_stopping (ev : MediaEvent) : bool :=
  match ev with
  | OnDataAvailable _ | ClockReaches _ => true
  | _ => false
  end.

(** No [stop] and no [error] event. *)
Definition not_settling (ev : MediaEvent) : bool :=
  match ev with
  | OnStop | OnError _ => false
  | _ => true
  end.

(* ================================================================== *)
(** * login *)
(* ================================================================== *)

(** The input passes the three checks at the head of [login]. *)
Definition valid_login (input : LoginInput) : Prop :=
  truthy (in_name input) = true
  /\ truthy (in_email input) = true
  /\ truthy (in_phone input) = true
  /\ emailRegex_test (default "" (in_email input)) = true
  /\ phoneRegex_test (strip_phone_punctuation (default "" (in_phone input))) = true.

(** [processedUserData] for the three readings of the clock. *)
Definition processed_profile (input : LoginInput) (idStamp createdAt lastLogin : Z)
  : UserProfile :=
  {| user_id := "user_" ++ pretty idStamp;
     user_name := trim (default "" (in_name input));
     user_email := trim (toLowerCase (default "" (in_email input)));
     user_phone := trim (default "" (in_phone input));
     user_createdAt := createdAt;
     user_lastLogin := lastLogin;
     user_safetyStatus := "safe";
     user_locationPermission := "pending";
     user_firebaseUid := None;
     user_isLocalUser := false;
     user_role := None |}.

(** [finalUserData] of the fallback: [{ ...processedUserData,
    id: `local_${Date.now()}`, firebaseUid: null, isLocalUser: true }]. *)
Definition local_profile (p : UserProfile) (now : Z) : UserProfile :=
  {| user_id := "local_" ++ pretty now;
     user_name := user_name p;
     user_email := user_email p;
     user_phone := user_phone p;
     user_createdAt := user_createdAt p;
     user_lastLogin := user_lastLogin p;
     user_safetyStatus := user_safetyStatus p;
     user_locationPermission := user_locationPermission p;
     user_firebaseUid := None;
     user_isLocalUser := true;
     user_role := None |}.

(** [finalUserData] after a sign-in: [{ ...processedUserData, id: userId,
    firebaseUid: userId }]. *)
Definition firebase_profile (p : UserProfile) (userId : string) : UserProfile :=
  {| user_id := userId;
     user_name := user_name p;
     user_email := user_email p;
     user_phone := user_phone p;
     user_createdAt := user_createdAt p;
     user_lastLogin := user_lastLogin p;
     user_safetyStatus := user_safetyStatus p;
     user_locationPermission := user_locationPermission p;
     user_firebaseUid := Some userId;
     user_isLocalUser := false;
     user_role := None |}.

(** The toast of the [catch] block of [login]. *)
Definition login_failed_toast (error : Error) : ToastOpts :=
  {| toast_title := "Login Failed";
     toast_description :=
       if String.eqb (err_message error) ""
       then "Please check your information and try again."
       else err_message error;
     toast_destructive := true; toast_duration := Some 5000 |}.

(* ================================================================== *)
(** * Google sign-in *)
(* ================================================================== *)

(** The code verifier made from the random values [vals]. *)
Definition verifier_of (vals : list Z) : string :=
  String.concat ""
    (map (fun dec => substr_last2 ("0" ++ toString16 8 dec)) (uint32_array 28 vals)).

(** The page once the browser has come back to [/auth/callback] with the
    query [params]. *)
Definition returned_with (params : list (string * string)) (w : World) : World :=
  with_window (fun b =>
    {| panicButtonTimeout := panicButtonTimeout b; timers := timers b;
       nextTimerId := nextTimerId b; localStorage := localStorage b;
       sessionStorage := sessionStorage b;
       hostname := hostname b; origin := origin b; search := params |}) w.

(** The two replacements of [base64UrlEncode] on one character. *)
Definition url_char (c : ascii) : ascii :=
  let c := if Ascii.eqb c "+"%char then "-"%char else c in
  if Ascii.eqb c "/"%char then "_"%char else c.

(** What holds of each of the 64 values of a base64 digit. *)
Definition digit_ok (n : Z) : bool :=
  Ascii.eqb (url_char (b64_char n)) (b64url_char n)
  && negb (Ascii.eqb (b64url_char n) "="%char).

(* ================================================================== *)
(** * Sample data *)
(* ================================================================== *)

(** The page just loaded on the production host: nothing stored, no timer,
    nobody signed in. *)
Definition fresh_world : World :=
  {| panic := {| isActivated := false; hasActiveAlerts := false; isProcessing := false;
                 panicHistory := []; realtimeAlerts := [] |};
     auth := {| user := None; userProfile := None; loading := false;
                isAuthenticated := false |};
     window := {| panicButtonTimeout := None; timers := []; nextTimerId := 1%positive;
                  localStorage := ∅; sessionStorage := ∅;
                  hostname := "drishti.example"; origin := "https://drishti.example";
                  search := [] |} |}.

(** The same page served from a development host. *)
Definition fresh_dev_world : World :=
  with_window (fun b =>
    {| panicButtonTimeout := panicButtonTimeout b; timers := timers b;
       nextTimerId := nextTimerId b; localStorage := localStorage b;
       sessionStorage := sessionStorage b;
       hostname := "localhost"; origin := "http://localhost"; search := search b |})
    fresh_world.

Definition supa_ok {D} (d : D) : SupaResp D := {| data := Some d; error := None |}.
Definition supa_error {D} (msg : string) : SupaResp D :=
  {| data := None; error := Some (new_Error msg) |}.

(** Every service answers and succeeds. *)
Definition services_up : Scenario :=
  {| sc_location := Resolved (Some {| latitude := 285 # 10; longitude := 771 # 10 |});
     sc_record := Resolved {| blob_bytes := [x1a; x45; xdf; xa3]; blob_type := "video/webm" |};
     sc_storage_upload := Resolved (supa_ok "sos-videos/clip.mp4");
     sc_public_url :=
       Resolved (supa_ok {| publicUrl := Some "https://cdn.example/clip.mp4";
                            public_url := None |});
     sc_firebase_upload := Resolved {| fb_videoUrl := Some "https://firebase.example/clip.mp4" |};
     sc_create_alert := Resolved (Some "alert-1");
     sc_notification_log := Resolved tt;
     sc_insert_alert := Resolved (supa_ok [Some "77"]);
     sc_select_alerts := Resolved (supa_ok []);
     sc_select_user := Resolved {| data := None; error := None |};
     sc_insert_user := Resolved (supa_ok ["uid-1"]);
     sc_sign_in := Resolved "uid-1";
     sc_save_user := Resolved tt;
     sc_id_token := Resolved "token";
     sc_fetch := Resolved {| ok := true; status := 200 |};
     sc_response_json := Resolved {| json_message := None |};
     sc_post_form := Resolved true;
     sc_token_json :=
       Resolved {| tok_id_token := Some "header.payload.signature";
                   tok_access_token := Some "access";
                   tok_error := None; tok_error_description := None |};
     sc_digest := fun bytes => Resolved (rev bytes);
     sc_random := [1; 255; 256; 4294967295; 16];
     sc_jwt := Some {| jwt_name := Some "Asha"; jwt_email := Some "asha@example.org";
                       jwt_picture := None |} |}.

(** The same services, but Supabase answers the insert into [sos_alerts]
    with an error. *)
Definition insert_refused (sc : Scenario) : Scenario :=
  {| sc_location := sc_location sc;
     sc_record := sc_record sc;
     sc_storage_upload := sc_storage_upload sc;
     sc_public_url := sc_public_url sc;
     sc_firebase_upload := sc_firebase_upload sc;
     sc_create_alert := sc_create_alert sc;
     sc_notification_log := sc_notification_log sc;
     sc_insert_alert := Resolved (supa_error "new row violates row-level security policy");
     sc_select_alerts := sc_select_alerts sc;
     sc_select_user := sc_select_user sc;
     sc_insert_user := sc_insert_user sc;
     sc_sign_in := sc_sign_in sc;
     sc_save_user := sc_save_user sc;
     sc_id_token := sc_id_token sc;
     sc_fetch := sc_fetch sc;
     sc_response_json := sc_response_json sc;
     sc_post_form := sc_post_form sc;
     sc_token_json := sc_token_json sc;
     sc_digest := sc_digest sc;
     sc_random := sc_random sc;
     sc_jwt := sc_jwt sc |}.

(** An environment in which the calls selected by [broken] are rejected and
    the others are answered by [H]. *)
Definition failing {E} (broken : forall R, Call R -> bool) (H : Handler E) : Handler E :=
  {| on_call := fun R c e =>
       if broken R c then (Rejected (new_Error "network request failed"), e)
       else on_call H c e;
     on_ask := fun R q e => on_ask H q e |}.

Definition is_backend_fetch {R} (c : Call R) : bool :=
  match c with Fetch _ _ _ => true | _ => false end.

Definition is_video_upload {R} (c : Call R) : bool :=
  match c with
  | RecordStreamToBlob _ _ | StorageUpload _ _ _ | UploadVideoAndGetURL _ _ => true
  | _ => false
  end.

Definition is_location_call {R} (c : Call R) : bool :=
  match c with GetCurrentLocation => true | _ => false end.

Definition is_alert_insert_call {R} (c : Call R) : bool :=
  match c with SupabaseInsertAlert _ => true | _ => false end.


Definition is_sign_in {R} (c : Call R) : bool :=
  match c with SignInAnonymously => true | _ => false end.

Definition sample_user : FirebaseUser :=
  {| uid := "uid-1"; isAnonymous := true; hasGetIdToken := true |}.

Definition sample_profile : UserProfile :=
  {| user_id := "uid-1"; user_name := "Asha"; user_email := "asha@example.org";
     user_phone := "+919876543210"; user_createdAt := 0; user_lastLogin := 0;
     user_safetyStatus := "safe"; user_locationPermission := "pending";
     user_firebaseUid := Some "uid-1"; user_isLocalUser := false; user_role := None |}.

Definition sample_local_user : FirebaseUser :=
  {| uid := "local_1700000000000"; isAnonymous := true; hasGetIdToken := false |}.

Definition sample_local_profile : UserProfile :=
  {| user_id := "local_1700000000000"; user_name := "Asha";
     user_email := "asha@example.org"; user_phone := "+919876543210";
     user_createdAt := 0; user_lastLogin := 0;
     user_safetyStatus := "safe"; user_locationPermission := "pending";
     user_firebaseUid := None; user_isLocalUser := true; user_role := None |}.

Definition sample_location : Location := {| latitude := 285 # 10; longitude := 771 # 10 |}.

Definition sample_ctx : PanicCtx :=
  {| ctx_firebaseUser := Some sample_user; ctx_userProfile := Some sample_profile;
     ctx_location := Some sample_location |}.

Definition sample_local_ctx : PanicCtx :=
  {| ctx_firebaseUser := Some sample_local_user;
     ctx_userProfile := Some sample_local_profile;
     ctx_location := Some sample_location |}.

(** The same local-mode session before any location was obtained. *)
Definition sample_local_ctx_nowhere : PanicCtx :=
  {| ctx_firebaseUser := Some sample_local_user;
     ctx_userProfile := Some sample_local_profile;
     ctx_location := None |}.

Definition sample_stream : Stream :=
  {| audioTracks := [ {| readyState := "live" |} ];
     videoTracks := [ {| readyState := "live" |} ] |}.

(** A row of [sos_alerts] with the given id and status. *)
Definition sample_row (id : string) (status : option string) : AlertRow :=
  {| row_id := id; row_created_at := Some 1700000000000; row_status := status;
     row_message := Some "help"; row_video_url := None;
     row_location_latitude := Some (285 # 10); row_location_longitude := Some (771 # 10);
     row_location_address := Some "28.5000, 77.1000" |}.

(** The provider after an initial fetch that returned one pending alert. *)
Definition one_pending_world : World :=
  world (run (scripted
                {| sc_location := sc_location services_up;
                   sc_record := sc_record services_up;
                   sc_storage_upload := sc_storage_upload services_up;
                   sc_public_url := sc_public_url services_up;
                   sc_firebase_upload := sc_firebase_upload services_up;
                   sc_create_alert := sc_create_alert services_up;
                   sc_notification_log := sc_notification_log services_up;
                   sc_insert_alert := sc_insert_alert services_up;
                   sc_select_alerts := Resolved (supa_ok [sample_row "41" (Some "pending")]);
                   sc_select_user := sc_select_user services_up;
                   sc_insert_user := sc_insert_user services_up;
                   sc_sign_in := sc_sign_in services_up;
                   sc_save_user := sc_save_user services_up;
                   sc_id_token := sc_id_token services_up;
                   sc_fetch := sc_fetch services_up;
                   sc_response_json := sc_response_json services_up;
                   sc_post_form := sc_post_form services_up;
                   sc_token_json := sc_token_json services_up;
                   sc_digest := sc_digest services_up;
                   sc_random := sc_random services_up;
                   sc_jwt := sc_jwt services_up |})
            (fetchInitialAlerts true) fresh_world 0).

Definition sample_supabase_user : SupabaseUser :=
  {| su_user_id := Some "uid-1"; su_name := Some " Asha ";
     su_email := Some " Asha@Example.org"; su_phone := Some "+919876543210";
     su_role := None |}.

(** The same user under another name and address. *)
Definition sample_supabase_renamed : SupabaseUser :=
  {| su_user_id := Some "uid-1"; su_name := Some "Asha K";
     su_email := Some "asha.k@example.org"; su_phone := Some "+919876543210";
     su_role := Some "volunteer" |}.

(** A healthy, empty [users] table. *)
Definition empty_users_db : UsersDb :=
  {| db_rows := []; db_select_faults := []; db_insert_faults := []; db_clock := 1700000000000 |}.

(** A table that already holds the row of ["uid-1"] and whose next
    existence query fails. *)
Definition users_db_select_down : UsersDb :=
  {| db_rows := [user_row sample_supabase_user 1600000000000];
     db_select_faults := [Some (new_Error "TypeError: Failed to fetch")];
     db_insert_faults := [];
     db_clock := 1700000000000 |}.

(** An empty table whose second existence query fails. *)
Definition users_db_second_select_down : UsersDb :=
  {| db_rows := [];
     db_select_faults := [None; Some (new_Error "TypeError: Failed to fetch")];
     db_insert_faults := [];
     db_clock := 1700000000000 |}.

(** Two activations that overlap: the second one starts while the first
    one awaits its first answer, then each one runs to its end, the first
    one first.  The value is the two tasks at their end and the final
    state of the page. *)
Definition overlapping_activations : Task unit * Task unit * World :=
  let H := scripted services_up in
  let p := activatePanic sample_ctx (Some "help") (Some sample_stream) in
  let '(first, w1, e1) := advance H p fresh_world 0 in
  let '(second, w2, e2) := advance H p w1 e1 in
  let '(first', w3, e3) := resume_all H 20 first w2 e2 in
  let '(second', w4, e4) := resume_all H 20 second w3 e3 in
  (first', second', w4).

Definition is_finished {A} (t : Task A) : bool :=
  match t with
  | Finished (Resolved _) => true
  | _ => false
  end.

(** A browser that supports every recording type and starts recorders. *)
Definition every_type_supported : MediaEnv :=
  {| isTypeSupported := fun _ => true; start_error := None |}.

Definition sample_chunk : Blob :=
  {| blob_bytes := [x1a; x45; xdf; xa3]; blob_type := "video/webm" |}.

Definition sample_login : LoginInput :=
  {| in_name := Some "Asha"; in_email := Some "Asha@Example.org";
     in_phone := Some "+91 98765-43210" |}.

(* ================================================================== *)
(** * contexts/PanicContext: clearHistory *)
(* ================================================================== *)

(** [clearHistory()].  The two lists are emptied first; the log entry is
    written afterwards, and its failure is reported by the [catch] block. *)
Definition clearHistory (ctx : PanicCtx) : Proc unit :=
  match ctx_firebaseUser ctx with
  | None => Ret tt
  | Some fu =>
      if String.eqb (uid fu) "" then Ret tt
      else
        try_catch
          (setPanicHistory (fun _ => []);;
           setRealtimeAlerts (fun _ => []);;
           now ← ask DateNow;
           call (CreateNotificationLog
                   {| nl_reportId := "history_clear_" ++ pretty now;
                      nl_userId := uid fu;
                      nl_type := "history_cleared";
                      nl_message := "User cleared SOS alert history from local view";
                      nl_metadata := MetaNone |});;
           toast "Local History Cleared"
                 "SOS alert history cleared from local view. Data remains in Firebase."
                 false None)
          (fun error =>
             console_error "Error clearing history:" (err_message error);;
             toast "Clear Failed" "Failed to clear history. Please try again." true None)
  end.

(* ================================================================== *)
(** * App.jsx: the routes *)
(* ================================================================== *)

(** The pages that the routes mount. *)
Inductive Page :=
| LoginPage | AuthCallbackPage | WelcomePage
| DashboardPage | SOSAlertsPage | SOSHistoryPage | SettingsPage.

(** What a route element renders: the loading screen, a page, or
    [<Navigate to=.. replace />]. *)
Inductive View :=
| LoadingScreen
| Shows (p : Page)
| NavigateTo (path : string).

(** [ProtectedRoute]. *)
Definition ProtectedRoute (a : AuthState) (children : View) : View :=
  if loading a then LoadingScreen
  else if isAuthenticated a then children else NavigateTo "/login".

(** [PublicRoute]. *)
Definition PublicRoute (a : AuthState) (children : View) : View :=
  if loading a then LoadingScreen
  else if isAuthenticated a then NavigateTo "/dashboard" else children.

(** The entries of [<Routes>], in the order of the source. *)
Inductive Route :=
| RouteLogin | RouteAuthCallback | RouteWelcome
| RouteDashboard | RouteSosAlerts | RouteHistory | RouteSettings
| RouteRoot | RouteAny.

Definition route_path (r : Route) : string :=
  match r with
  | RouteLogin => "/login"
  | RouteAuthCallback => "/auth/callback"
  | RouteWelcome => "/welcome"
  | RouteDashboard => "/dashboard"
  | RouteSosAlerts => "/sos-alerts"
  | RouteHistory => "/history"
  | RouteSettings => "/settings"
  | RouteRoot => "/"
  | RouteAny => "*"
  end.

(** The [element] of each route. *)
Definition route_element (r : Route) (a : AuthState) : View :=
  match r with
  | RouteLogin => PublicRoute a (Shows LoginPage)
  | RouteAuthCallback => Shows AuthCallbackPage
  | RouteWelcome => Shows WelcomePage
  | RouteDashboard => ProtectedRoute a (Shows DashboardPage)
  | RouteSosAlerts => ProtectedRoute a (Shows SOSAlertsPage)
  | RouteHistory => ProtectedRoute a (Shows SOSHistoryPage)
  | RouteSettings => ProtectedRoute a (Shows SettingsPage)
  | RouteRoot => NavigateTo "/dashboard"
  | RouteAny => NavigateTo "/dashboard"
  end.

Definition static_routes : list Route :=
  [RouteLogin; RouteAuthCallback; RouteWelcome; RouteDashboard; RouteSosAlerts;
   RouteHistory; RouteSettings; RouteRoot].

(** The route taken for a location written exactly as the path of a route;
    any other location is taken here by ["*"]. *)
Definition route_of (path : string) : Route :=
  default RouteAny (List.find (fun r => String.eqb (route_path r) path) static_routes).

(** What is on screen once the redirections have been followed, at most
    [fuel] of them. *)
Fixpoint settle_route (fuel : nat) (r : Route) (a : AuthState) : View :=
  match route_element r a with
  | NavigateTo path =>
      match fuel with
      | O => NavigateTo path
      | S n => settle_route n (route_of path) a
      end
  | v => v
  end.

Definition is_protected (p : Page) : bool :=
  match p with
  | DashboardPage | SOSAlertsPage | SOSHistoryPage | SettingsPage => true
  | _ => false
  end.

(* ================================================================== *)
(** * Further properties stated about the flows *)
(* ================================================================== *)

(** ** Events *)

Definition is_video_call (ev : Event) : bool :=
  match ev with
  | Called (RecordStreamToBlob _ _) _ => true
  | Called (StorageUpload _ _ _) _ => true
  | Called (UploadVideoAndGetURL _ _) _ => true
  | _ => false
  end.

(** A request that leaves the browser for the backend: the token and the
    POST to [/api/sos/alert]. *)
Definition is_backend_call (ev : Event) : bool :=
  match ev with
  | Called (GetIdToken _) _ => true
  | Called (Fetch _ _ _) _ => true
  | Called (ResponseJson _) _ => true
  | _ => false
  end.

Definition is_public_url_call (ev : Event) : bool :=
  match ev with
  | Called (StorageGetPublicUrl _ _) _ => true
  | _ => false
  end.

Definition is_storage_upload (ev : Event) : bool :=
  match ev with
  | Called (StorageUpload _ _ _) _ => true
  | _ => false
  end.

Definition is_navigation (ev : Event) : bool :=
  match ev with
  | Did (Navigate _) => true
  | Did (LocationAssign _ _) => true
  | _ => false
  end.

(** ** activatePanic *)

(** What the steps of an activation leave alone: the flag of the active
    alerts and the state of the auth context. *)
Definition untouched (w w' : World) : Prop :=
  hasActiveAlerts (panic w') = hasActiveAlerts (panic w) /\ auth w' = auth w.

(** What the [catch] block of [activatePanic] may leave behind before its
    toast: console lines, a reading of the clock, the failure log. *)
Definition failure_log_event (ev : Event) : bool :=
  match ev with
  | Did (Console _ _ _) => true
  | Asked DateNow _ => true
  | Called (CreateNotificationLog _) _ => true
  | _ => false
  end.

(** ** Characters *)

Fixpoint count_char (c : ascii) (s : string) : nat :=
  match s with
  | EmptyString => O
  | String c' s' => (if Ascii.eqb c' c then 1 else 0) + count_char c s'
  end.

(** [0-9a-f]. *)
Definition is_lower_hex (c : ascii) : bool :=
  let n := Ascii.nat_of_ascii c in
  ((48 <=? n)%nat && (n <=? 57)%nat) || ((97 <=? n)%nat && (n <=? 102)%nat).

(** The unreserved characters of base64url: [A-Za-z0-9-_]. *)
Definition is_base64url_char (c : ascii) : bool :=
  let n := Ascii.nat_of_ascii c in
  ((65 <=? n)%nat && (n <=? 90)%nat) || ((97 <=? n)%nat && (n <=? 122)%nat)
  || ((48 <=? n)%nat && (n <=? 57)%nat)
  || Ascii.eqb c "-"%char || Ascii.eqb c "_"%char.

Definition digit_is_safe (n : Z) : bool := is_base64url_char (b64url_char n).

Definition hex_is_lower (n : Z) : bool := is_lower_hex (hex_digit n).

(** The two hexadecimal digits of the low byte of [v]. *)
Definition low_byte_hex (v : Z) : string :=
  String (hex_digit ((v / 16) mod 16)) (String (hex_digit (v mod 16)) "").

(** ** The recorder *)

(** The four types that [recordStreamToBlob] tries, in its order. *)
Definition mimeType_candidates : list string :=
  ["video/webm;codecs=vp8,opus"; "video/webm;codecs=vp8"; "video/webm"; "video/mp4"].

(** The stream passes the two checks made before the recorder is
    created. *)
Definition recordable (stream : Stream) : Prop :=
  exists videoTrack rest,
    videoTracks stream = videoTrack :: rest /\ readyState videoTrack = "live".

(** ** login *)

(** The three messages of the checks at the head of [login]. *)
Definition login_messages : list string :=
  ["Please fill in all required fields"; "Please enter a valid email address";
   "Please enter a valid phone number"].

(** The three fields of the input of [login] are ASCII text. *)
Definition ascii_login (input : LoginInput) : Prop :=
  ascii_text (default "" (in_name input)) = true
  /\ ascii_text (default "" (in_email input)) = true
  /\ ascii_text (default "" (in_phone input)) = true.

(** The context that the panic provider gets from the auth state. *)
Definition ctx_of_auth (a : AuthState) (l : option Location) : PanicCtx :=
  {| ctx_firebaseUser := user a; ctx_userProfile := userProfile a; ctx_location := l |}.

(* ================================================================== *)
(** * Classes of events *)
(* ================================================================== *)

(** ** The calls a procedure can make *)

(** The event is not a call, or a call of the class [P]. *)
Definition call_event (P : forall R, Call R -> bool) (ev : Event) : bool :=
  match ev with
  | Called c _ => P _ c
  | _ => true
  end.

(** Every call that [p] can make, whatever it is answered, is of the class
    [P]. *)
Inductive calls_only (P : forall R, Call R -> bool) {A} : Proc A -> Prop :=
| co_ret a : calls_only P (Ret a)
| co_raise x : calls_only P (Raise x)
| co_get k : (forall w, calls_only P (k w)) -> calls_only P (Get k)
| co_put w k : calls_only P k -> calls_only P (Put w k)
| co_emit x k : calls_only P k -> calls_only P (Emit x k)
| co_ask R (q : Query R) k : (forall r, calls_only P (k r)) -> calls_only P (Ask q k)
| co_do R (c : Call R) k :
    P R c = true -> (forall o, calls_only P (k o)) -> calls_only P (Do c k).

(** Calls to Firestore: the alert and the notification log. *)
Definition not_firestore_call {R} (c : Call R) : bool :=
  match c with
  | CreateSOSAlert _ | CreateNotificationLog _ => false
  | _ => true
  end.

(** Calls of the video step: the recording, the two calls to Supabase
    storage and the Firebase upload. *)
Definition not_video_call {R} (c : Call R) : bool :=
  match c with
  | RecordStreamToBlob _ _ | StorageUpload _ _ _ | StorageGetPublicUrl _ _
  | UploadVideoAndGetURL _ _ => false
  | _ => true
  end.

(** The writes of the alert: [createSOSAlert] and the insert into
    [sos_alerts]. *)
Definition not_alert_write {R} (c : Call R) : bool :=
  match c with
  | CreateSOSAlert _ | SupabaseInsertAlert _ => false
  | _ => true
  end.

(** ** Failures and their trace on the console *)

Definition is_console (ev : Event) : bool :=
  match ev with
  | Did (Console _ _ _) => true
  | _ => false
  end.

(** The answer of a service that is a failure: a rejected call (the
    timer of a delay never fails), an answer of Supabase that carries an
    [error], and a response of the backend that is not [ok]. *)
Definition failed_call (ev : Event) : bool :=
  match ev with
  | Called (TimerElapsed _) _ => false
  | Called (StorageUpload _ _ _) (Resolved r) => found (error r)
  | Called (StorageGetPublicUrl _ _) (Resolved r) => found (error r)
  | Called (SupabaseInsertAlert _) (Resolved r) => found (error r)
  | Called (Fetch _ _ _) (Resolved r) => negb (ok r)
  | Called _ (Rejected _) => true
  | _ => false
  end.


(** The same, computed; [later] tells whether a console line follows the
    whole list. *)
Fixpoint logged_before (later : bool) (evs : list Event) : bool :=
  match evs with
  | [] => true
  | ev :: rest =>
      (negb (failed_call ev) || existsb is_console rest || later)
      && logged_before later rest
  end.



(* ================================================================== *)
(** * Facts about runs *)
(* ================================================================== *)

Lemma final_eta {E A} (f : Final E A) :
  {| result := result f; world := world f; env := env f; events := events f |} = f.
Proof. by destruct f. Qed.

Lemma run_bind {E A B} (H : Handler E) (p : Proc A) (k : A -> Proc B) w e :
  run H (p ≫= k) w e = and_then (run H p w e) (fun a w' e' => run H (k a) w' e').
Proof.
  unfold mbind, Proc_bind.
  revert w e; induction p as [a|x|k' IH|w' k' IH|x k' IH|R q k' IH|R c k' IH];
    intros w e; cbn [bind run].
  - unfold and_then, after; cbn. by rewrite final_eta.
  - reflexivity.
  - apply IH.
  - apply IH.
  - rewrite IH. by destruct (run H k' w e) as [[a|y] w1 e1 evs].
  - destruct (on_ask H q e) as [r e']. rewrite IH.
    by destruct (run H (k' r) w e') as [[a|y] w1 e1 evs].
  - destruct (on_call H c e) as [o e']. rewrite IH.
    by destruct (run H (k' o) w e') as [[a|y] w1 e1 evs].
Qed.

Lemma run_try_catch {E A} (H : Handler E) (p : Proc A) (h : Error -> Proc A) w e :
  run H (try_catch p h) w e
  = or_catch (run H p w e) (fun x w' e' => run H (h x) w' e').
Proof.
  revert w e; induction p as [a|x|k' IH|w' k' IH|x k' IH|R q k' IH|R c k' IH];
    intros w e; cbn [try_catch run].
  - reflexivity.
  - unfold or_catch, after; cbn. by rewrite final_eta.
  - apply IH.
  - apply IH.
  - rewrite IH. by destruct (run H k' w e) as [[a|y] w1 e1 evs].
  - destruct (on_ask H q e) as [r e']. rewrite IH.
    by destruct (run H (k' r) w e') as [[a|y] w1 e1 evs].
  - destruct (on_call H c e) as [o e']. rewrite IH.
    by destruct (run H (k' o) w e') as [[a|y] w1 e1 evs].
Qed.

Lemma run_try_finally {E A} (H : Handler E) (p : Proc A) (c : Proc unit) w e :
  run H (try_finally p c) w e
  = and_finally (run H p w e) (fun w' e' => run H c w' e').
Proof.
  revert w e; induction p as [a|x|k' IH|w' k' IH|x k' IH|R q k' IH|R c' k' IH];
    intros w e; cbn [try_finally run].
  - change (bind c (fun _ => Ret a)) with (c ≫= (fun _ => Ret a)).
    rewrite run_bind. unfold and_then, and_finally, finish, after; cbn.
    destruct (result (run H c w e)); cbn; by rewrite ?app_nil_r.
  - change (bind c (fun _ => Raise x)) with (c ≫= (fun _ : unit => @Raise A x)).
    rewrite run_bind. unfold and_then, and_finally, finish, after; cbn.
    destruct (result (run H c w e)); cbn; by rewrite ?app_nil_r.
  - apply IH.
  - apply IH.
  - rewrite IH. reflexivity.
  - destruct (on_ask H q e) as [r e']. rewrite IH. reflexivity.
  - destruct (on_call H c' e) as [o e']. rewrite IH. reflexivity.
Qed.

(** Runs of the primitive procedures. *)
Lemma run_modify {E} (H : Handler E) f w e :
  run H (modify f) w e
  = {| result := Resolved tt; world := f w; env := e; events := [] |}.
Proof. reflexivity. Qed.

Lemma run_emit {E} (H : Handler E) x w e :
  run H (emit x) w e
  = {| result := Resolved tt; world := w; env := e; events := [Did x] |}.
Proof. reflexivity. Qed.

Lemma run_call {E R} (H : Handler E) (c : Call R) w e :
  run H (call c) w e
  = {| result := (on_call H c e).1; world := w; env := (on_call H c e).2;
       events := [Called c (on_call H c e).1] |}.
Proof.
  unfold call; cbn [run]. destruct (on_call H c e) as [[r|x] e']; reflexivity.
Qed.

Lemma run_settle {E R} (H : Handler E) (c : Call R) w e :
  run H (settle c) w e
  = {| result := Resolved (on_call H c e).1; world := w; env := (on_call H c e).2;
       events := [Called c (on_call H c e).1] |}.
Proof. unfold settle; cbn [run]. destruct (on_call H c e); reflexivity. Qed.

Lemma run_ask {E R} (H : Handler E) (q : Query R) w e :
  run H (ask q) w e
  = {| result := Resolved (on_ask H q e).1; world := w; env := (on_ask H q e).2;
       events := [Asked q (on_ask H q e).1] |}.
Proof. unfold ask; cbn [run]. destruct (on_ask H q e); reflexivity. Qed.

Lemma run_toast {E} (H : Handler E) title description destructive duration w e :
  run H (toast title description destructive duration) w e
  = {| result := Resolved tt; world := w; env := e;
       events := [Did (Toast {| toast_title := title; toast_description := description;
                                toast_destructive := destructive;
                                toast_duration := duration |})] |}.
Proof. reflexivity. Qed.

Lemma run_console_error {E} (H : Handler E) text detail w e :
  run H (console_error text detail) w e
  = {| result := Resolved tt; world := w; env := e;
       events := [Did (Console LogError text detail)] |}.
Proof. reflexivity. Qed.

Lemma run_console_warn {E} (H : Handler E) text detail w e :
  run H (console_warn text detail) w e
  = {| result := Resolved tt; world := w; env := e;
       events := [Did (Console LogWarn text detail)] |}.
Proof. reflexivity. Qed.

(** Symbolic execution: [expose] unfolds a run up to the next answer of the
    environment, [answer] names that answer. *)
Ltac expose :=
  cbn [run mbind Proc_bind bind try_catch try_finally call settle ask get modify emit
       toast console_error console_warn then_event mret Proc_ret
       data error fst snd].

Ltac answer :=
  expose;
  match goal with
  | |- context [on_call ?H ?c ?e] =>
      let o := fresh "o" in let e' := fresh "e" in
      destruct (on_call H c e) as [o e'] eqn:?
  | |- context [on_ask ?H ?q ?e] =>
      let r := fresh "r" in let e' := fresh "e" in
      destruct (on_ask H q e) as [r e'] eqn:?
  end;
  expose.

(* ================================================================== *)
(** * The video step *)
(* ================================================================== *)

Lemma run_uploadStreamToSupabase {E} (H : Handler E) s userId options w e :
  let f := run H (uploadStreamToSupabase (Some s) userId options) w e in
  world f = w
  /\ (exists o rest,
        events f = Called (RecordStreamToBlob s (duration_or_default (opt_durationMs options))) o
                   :: rest)
  /\ forallb supabase_attempt_event (events f) = true.
Proof.
  cbn zeta. unfold uploadStreamToSupabase.
  answer. destruct o as [blob|x]; expose; [|cbn; eauto].
  destruct (blob_size blob <? 1000); answer.
  all: answer; destruct o as [[d [uerr|]]|x]; expose; try (cbn; eauto; fail).
  all: answer; destruct o as [[d' [perr|]]|x]; cbn; eauto.
Qed.

Lemma or_null_Some s url : or_null s = Some url -> s = Some url /\ truthy s = true.
Proof. unfold or_null. destruct (truthy s) eqn:Ht; [|done]. by intros ->. Qed.

Lemma or_null_None s : or_null s = None -> truthy s = false.
Proof. unfold or_null. destruct (truthy s) eqn:Ht; [|done]. intros ->. done. Qed.

(** The video step for a stream, by the end of the Supabase attempt
    ([supa]) and the settlement of the Firebase upload ([fb]).  When the
    attempt gives a URL nothing else is called.  Otherwise the failure is
    written to the console and the Firebase upload is called; when that one
    gives no URL either, this is written to the console and shown in a
    toast, and the step ends without video. *)
Lemma captureVideo_run {E} (H : Handler E) s userId w e :
  let supa := run H (uploadStreamToSupabase (Some s) userId panicUploadOptions) w e in
  let fb := on_call H (UploadVideoAndGetURL s userId) (env supa) in
  match supabase_url supa with
  | Some url =>
      exists t1 t2,
        run H (captureVideo (Some s) userId) w e
        = {| result := Resolved {| videoUrl := Some url; videoDuration := 0;
                                   uploadedTo := Some "supabase" |};
             world := w; env := env supa;
             events := (Did (Toast t1) :: events supa ++ [Did (Toast t2)])%list |}
  | None =>
      exists t1 c t3 rest,
        forallb is_effect rest = true
        /\ match firebase_url fb.1 with
           | Some _ => True
           | None =>
               exists c' t,
                 rest = [Did (Console LogError
                           "[Panic] CRITICAL: Both Supabase AND Firebase video uploads FAILED:"
                           c');
                         Did (Toast t)]
                 /\ toast_title t = "Video Upload Failed"
                 /\ toast_destructive t = true
           end
        /\ run H (captureVideo (Some s) userId) w e
           = {| result := Resolved match firebase_url fb.1 with
                                   | Some url =>
                                       {| videoUrl := Some url; videoDuration := 0;
                                          uploadedTo := Some "firebase" |}
                                   | None => noVideo
                                   end;
                world := w; env := fb.2;
                events := (Did (Toast t1) :: events supa
                             ++ [Did (Console LogError "[Panic] Supabase upload FAILED:" c);
                                 Did (Toast t3);
                                 Called (UploadVideoAndGetURL s userId) fb.1]
                             ++ rest)%list |}
  end.
Proof.
  intros supa fb. subst fb. unfold captureVideo.
  rewrite run_try_catch. rewrite run_bind, run_toast.
  unfold and_then, after. cbn [result world env events]. rewrite run_bind.
  destruct (run_uploadStreamToSupabase H s userId panicUploadOptions w e) as (Hw & _ & _).
  lazy zeta in Hw. fold supa in Hw |- *. clearbody supa. unfold supabase_url.
  destruct supa as [[r|x] w1 e1 ev1]; cbn [result world env events] in *; subst w1.
  - unfold and_then, after. cbn [result world env events].
    destruct (or_null (supa_videoUrl r)) as [url|] eqn:Hurl.
    + apply or_null_Some in Hurl as [Hs Ht]. rewrite Ht. cbn. rewrite Hs.
      eexists _, _. reflexivity.
    + apply or_null_None in Hurl. rewrite Hurl. cbn [negb].
      unfold or_catch, after; cbn [run result world env events].
      expose.
      destruct (on_call H (UploadVideoAndGetURL s userId) e1) as [[fbr|x] e2];
        cbn [fst snd firebase_url]; expose.
      * destruct (or_null (fb_videoUrl fbr)) as [url|] eqn:Hfb.
        -- apply or_null_Some in Hfb as [Hs Ht]. rewrite Ht. cbn. rewrite Hs.
           eexists _, _, _, _. rewrite <- app_assoc. cbn.
           (split; [|split; [done|reflexivity]]); reflexivity.
        -- apply or_null_None in Hfb. rewrite Hfb. cbn.
           eexists _, _, _, _. rewrite <- app_assoc. cbn.
           (split; [|split; [|reflexivity]]); [reflexivity|]. eexists _, _. done.
      * cbn. eexists _, _, _, _. rewrite <- app_assoc. cbn.
        (split; [|split; [|reflexivity]]); [reflexivity|]. eexists _, _. done.
  - unfold and_then, after. cbn [result world env events].
    unfold or_catch, after; cbn [run result world env events].
    expose.
    destruct (on_call H (UploadVideoAndGetURL s userId) e1) as [[fbr|x'] e2];
      cbn [fst snd firebase_url]; expose.
    + destruct (or_null (fb_videoUrl fbr)) as [url|] eqn:Hfb.
      * apply or_null_Some in Hfb as [Hs Ht]. rewrite Ht. cbn. rewrite Hs.
        eexists _, _, _, _. (split; [|split; [done|reflexivity]]); reflexivity.
      * apply or_null_None in Hfb. rewrite Hfb. cbn.
        eexists _, _, _, _.
        (split; [|split; [|reflexivity]]); [reflexivity|]. eexists _, _. done.
    + cbn. eexists _, _, _, _.
      (split; [|split; [|reflexivity]]); [reflexivity|]. eexists _, _. done.
Qed.

Lemma no_firestore_write_in_attempt (l : list Event) :
  forallb supabase_attempt_event l = true ->
  forallb (fun ev => negb (is_firestore_write ev)) l = true.
Proof.
  induction l as [|ev l IH]; cbn; [done|].
  intros [Hev Hl]%andb_prop. rewrite IH by done.
  destruct ev as [x|R c o|R q r]; [done| |done]. by destruct c.
Qed.

Lemma no_firestore_write_in_effects (l : list Event) :
  forallb is_effect l = true ->
  forallb (fun ev => negb (is_firestore_write ev)) l = true.
Proof.
  induction l as [|ev l IH]; cbn; [done|].
  intros [Hev Hl]%andb_prop. rewrite IH by done. by destruct ev.
Qed.

Lemma or_null_idem s : or_null (or_null s) = or_null s.
Proof. unfold or_null. destruct (truthy s) eqn:Ht; [by rewrite Ht | done]. Qed.

(** The video step always returns a value and leaves the client state
    alone; the URL it returns is [null] or a non-empty string. *)
Lemma captureVideo_returns {E} (H : Handler E) stream userId w e :
  exists vd e' evs,
    run H (captureVideo stream userId) w e
    = {| result := Resolved vd; world := w; env := e'; events := evs |}
    /\ forallb (fun ev => negb (is_firestore_write ev)) evs = true
    /\ or_null (videoUrl vd) = videoUrl vd.
Proof.
  destruct stream as [s|].
  - pose proof (captureVideo_run H s userId w e) as Hrun. lazy zeta in Hrun.
    destruct (run_uploadStreamToSupabase H s userId panicUploadOptions w e)
      as (_ & _ & Hsupa).
    lazy zeta in Hsupa. apply no_firestore_write_in_attempt in Hsupa.
    remember (run H (uploadStreamToSupabase (Some s) userId panicUploadOptions) w e)
      as supa eqn:Heq.
    clear Heq.
    destruct (supabase_url supa) as [url|] eqn:Hurl.
    + destruct Hrun as (t1 & t2 & ->). eexists _, _, _. split; [reflexivity|]. split.
      * cbn [forallb is_firestore_write negb andb]. rewrite forallb_app, Hsupa. done.
      * cbn [videoUrl]. unfold supabase_url in Hurl.
        destruct (result supa) as [r|x]; [|done]. rewrite <- Hurl. apply or_null_idem.
    + destruct Hrun as (t1 & t2 & t3 & rest & Hrest & _ & ->).
      eexists _, _, _. split; [reflexivity|]. split.
      * apply no_firestore_write_in_effects in Hrest.
        cbn [forallb is_firestore_write negb andb].
        rewrite !forallb_app, Hsupa. cbn [forallb is_firestore_write negb andb].
        by rewrite Hrest.
      * unfold firebase_url.
        destruct (on_call H (UploadVideoAndGetURL s userId) (env supa)).1 as [r|x];
          [|done].
        destruct (or_null (fb_videoUrl r)) as [url|] eqn:Hfb; [|done].
        cbn [videoUrl]. rewrite <- Hfb. apply or_null_idem.
  - cbn. eexists _, _, _. split; [reflexivity|]. done.
Qed.

(* ================================================================== *)
(** * The steps of activatePanic *)
(* ================================================================== *)

Lemma run_clearPanicButtonTimeout {E} (H : Handler E) w e :
  run H clearPanicButtonTimeout w e
  = {| result := Resolved tt; world := cleared w; env := e; events := [] |}.
Proof.
  unfold clearPanicButtonTimeout, cleared. cbn.
  destruct (panicButtonTimeout (window w)); reflexivity.
Qed.

Lemma run_acquireLocation {E} (H : Handler E) ctx w e :
  let f := run H (acquireLocation ctx) w e in
  world f = w
  /\ forallb (fun ev => negb (is_firestore_write ev)) (events f) = true
  /\ match ctx_location ctx with
     | Some l => result f = Resolved (Some l) /\ env f = e
     | None =>
         result f = (on_call H GetCurrentLocation e).1
         /\ env f = (on_call H GetCurrentLocation e).2
         /\ In (Called GetCurrentLocation (on_call H GetCurrentLocation e).1) (events f)
     end.
Proof.
  unfold acquireLocation. destruct (ctx_location ctx) as [l|]; [done|].
  answer. destruct o; cbn; repeat split; auto.
Qed.

(** The Supabase insert never throws and leaves the client state alone;
    when it fails (rejection, or an [error] in the answer) the failure is
    written to the console and to nothing else. *)
Lemma run_insertSupabaseAlert {E} (H : Handler E) mode userId d vd w e :
  exists r logs,
    run H (insertSupabaseAlert mode userId d vd) w e
    = {| result := Resolved r; world := w;
         env := (on_call H (SupabaseInsertAlert (insertPayload userId d vd)) e).2;
         events := Called (SupabaseInsertAlert (insertPayload userId d vd))
                          (on_call H (SupabaseInsertAlert (insertPayload userId d vd)) e).1
                   :: logs |}
    /\ forallb is_effect logs = true
    /\ match (on_call H (SupabaseInsertAlert (insertPayload userId d vd)) e).1 with
       | Resolved {| data := _; error := None |} => logs = []
       | Resolved {| data := _; error := Some err |} =>
           logs = [Did (Console LogWarn ("[Panic] Supabase insert (" ++ mode ++ ") error:")
                          (message_or_self err))]
       | Rejected x =>
           logs = [Did (Console LogError ("[Panic] Supabase insert (" ++ mode ++ ") failed:")
                          (message_or_self x))]
       end.
Proof.
  unfold insertSupabaseAlert. answer.
  destruct o as [[dt [err|]]|x]; expose; cbn [fst snd]; eexists _, _;
    (split; [|split]); reflexivity.
Qed.

Lemma run_parse_alerts {E} (H : Handler E) w e l :
  stored_alerts_read l w ->
  run H (parse_alerts "local_sos_alerts") w e
  = {| result := Resolved l; world := w; env := e; events := [] |}.
Proof.
  unfold parse_alerts, localStorage_getItem. cbn.
  intros [[-> | [-> ->]] | [-> ->]]; reflexivity.
Qed.

(** An entry that is neither a list of alerts nor empty stops the
    statements that read it. *)
Lemma run_parse_alerts_unreadable {E} (H : Handler E) w e :
  (forall l, ~ stored_alerts_read l w) ->
  exists x,
    run H (parse_alerts "local_sos_alerts") w e
    = {| result := Rejected x; world := w; env := e; events := [] |}.
Proof.
  intros Hno. unfold parse_alerts, localStorage_getItem. cbn.
  destruct (localStorage (window w) !! "local_sos_alerts") as [[l|u|g|s]|] eqn:Hl.
  - destruct (Hno l). left. by left.
  - eauto.
  - eauto.
  - destruct s as [|c s]; [|eauto]. destruct (Hno []). right. done.
  - destruct (Hno []). left. right. done.
Qed.

Lemma stored_alerts_read_dec w :
  (exists l, stored_alerts_read l w) \/ (forall l, ~ stored_alerts_read l w).
Proof.
  unfold stored_alerts_read, local_alerts_are.
  destruct (localStorage (window w) !! "local_sos_alerts") as [[l|u|g|s]|] eqn:Hl.
  - left. exists l. left. by left.
  - right. intros l [[?|[? ?]]|[? ?]]; congruence.
  - right. intros l [[?|[? ?]]|[? ?]]; congruence.
  - destruct s as [|c s].
    + left. exists []. right. done.
    + right. intros l [[?|[? ?]]|[? ?]]; congruence.
  - left. exists []. left. right. done.
Qed.

Lemma run_saveAlertLocally {E} (H : Handler E) userId d vd w e l :
  stored_alerts_read l w ->
  exists now e1 timestamp e2 (logs : list Event),
    on_ask H DateNow e = (now, e1)
    /\ on_ask H DateNow e1 = (timestamp, e2)
    /\ forallb is_effect logs = true
    /\ run H (saveAlertLocally userId d vd) w e
       = {| result := Resolved (Some ("local_sos_" ++ pretty now));
            world := stored_locally (local_record d now timestamp :: l) w;
            env := (on_call H (SupabaseInsertAlert (insertPayload userId d vd)) e2).2;
            events :=
              Asked DateNow now :: Asked DateNow timestamp
              :: Called (SupabaseInsertAlert (insertPayload userId d vd))
                        (on_call H (SupabaseInsertAlert (insertPayload userId d vd)) e2).1
              :: logs |}.
Proof.
  intros Hl. unfold saveAlertLocally.
  rewrite run_bind, run_ask. unfold and_then, after; cbn [result world env events].
  destruct (on_ask H DateNow e) as [now e1] eqn:Hnow. cbn [fst snd].
  rewrite run_bind.
  rewrite (run_parse_alerts H w e1 l Hl).
  unfold and_then, after; cbn [result world env events].
  rewrite run_bind, run_ask. unfold and_then, after; cbn [result world env events].
  destruct (on_ask H DateNow e1) as [timestamp e2] eqn:Hstamp. cbn [fst snd].
  fold (local_record d now timestamp).
  unfold localStorage_setItem, setPanicHistory, setRealtimeAlerts.
  rewrite run_bind, run_modify. unfold and_then, after; cbn [result world env events].
  rewrite run_bind, run_modify. unfold and_then, after; cbn [result world env events].
  rewrite run_bind, run_modify. unfold and_then, after; cbn [result world env events].
  rewrite run_bind.
  destruct (run_insertSupabaseAlert H "local" userId d vd
              (stored_locally (local_record d now timestamp :: l) w) e2)
    as (r & logs & Hrun & Hlogs & _).
  exists now, e1, timestamp, e2, logs. split; [reflexivity|]. split; [exact Hstamp|].
  split; [done|].
  unfold stored_locally in Hrun |- *. rewrite Hrun.
  unfold and_then, after; cbn [result world env events run app]. by rewrite app_nil_r.
Qed.

Lemma run_saveAlertToFirestore {E} (H : Handler E) userId message d vd loc w e :
  let created := on_call H (CreateSOSAlert d) e in
  let f := run H (saveAlertToFirestore userId message d vd loc) w e in
  world f = w
  /\ match created.1 with
     | Rejected x =>
         result f = Rejected x
         /\ events f = [Called (CreateSOSAlert d) (Rejected x)]
     | Resolved alertId =>
         result f = Resolved alertId
         /\ exists evs o,
              events f = Called (CreateSOSAlert d) (Resolved alertId) :: evs
              /\ In (Called (SupabaseInsertAlert (insertPayload userId d vd)) o) evs
              /\ forallb (fun ev => negb (is_firestore_write ev)) evs = true
     end.
Proof.
  intros created f. subst created f. unfold saveAlertToFirestore.
  rewrite run_bind, run_call. unfold and_then, after; cbn [result world env events].
  destruct (on_call H (CreateSOSAlert d) e) as [[alertId|x] e1]; cbn [fst snd]; [|done].
  rewrite run_bind.
  assert (exists e2 evs,
            run H (if truthy alertId
                   then try_catch
                          (call (CreateNotificationLog
                                   {| nl_reportId := default "" alertId;
                                      nl_userId := userId;
                                      nl_type := "sos_alert_created";
                                      nl_message := "SOS alert created: "
                                                    ++ or_else message "Emergency activated";
                                      nl_metadata :=
                                        MetaCreated loc (truthy (videoUrl vd)) |}))
                          (fun logError =>
                             console_warn "Failed to create notification log:"
                                          (err_message logError))
                   else Ret tt) w e1
            = {| result := Resolved tt; world := w; env := e2; events := evs |}
            /\ forallb (fun ev => negb (is_firestore_write ev)) evs = true)
    as (e2 & evs & -> & Hevs).
  { destruct (truthy alertId); [|eexists _, _; split; reflexivity].
    answer. destruct o as [[]|x]; cbn; eexists _, _; split; reflexivity. }
  unfold and_then, after; cbn [result world env events]. rewrite run_bind.
  destruct (run_insertSupabaseAlert H "firebase" userId d vd w e2)
    as (r & logs & -> & Hlogs & _).
  unfold and_then, after; cbn [result world env events run app].
  split; [done|]. split; [done|].
  eexists _, _. split; [reflexivity|]. split.
  - apply in_or_app. right. left. reflexivity.
  - rewrite !forallb_app, Hevs.
    cbn [forallb is_firestore_write negb andb]. rewrite ?andb_true_r, ?app_nil_r.
    by apply no_firestore_write_in_effects.
Qed.

Lemma run_activateTail {E} (H : Handler E) localMode hasVideo w e :
  run H (setIsActivated true;;
         (if localMode : bool then
            toast "SOS Alert Created!"
                  ("Emergency alert saved locally"
                   ++ (if hasVideo : bool then " with video" else " (no video)")
                   ++ ". Ready to send another if needed.")
                  false (Some 5000)
          else
            toast "SOS Alert Sent!"
                  ("Emergency alert sent successfully"
                   ++ (if hasVideo then " with video" else " (no video)")
                   ++ ". You can send another alert if needed.")
                  false (Some 5000));;
         resetTimeout ← setTimeout CbResetButton 2000;
         modify (with_window (put_panicButtonTimeout (Some resetTimeout)))) w e
  = {| result := Resolved tt; world := button_armed w; env := e;
       events := [Did (Toast (success_toast localMode hasVideo))] |}.
Proof. destruct localMode; reflexivity. Qed.

Lemma run_activateFailed {E} (H : Handler E) fu profile error w e :
  exists e' evs,
    run H (activateFailed fu profile error) w e
    = {| result := Resolved tt; world := w; env := e';
         events := (evs ++ [Did (Toast (failure_toast error))])%list |}
    /\ forallb (fun ev => negb (is_firestore_write ev)) evs = true.
Proof.
  unfold activateFailed. destruct (isLocalMode fu profile); cbn [negb].
  - eexists e, [_]. split; reflexivity.
  - answer. answer.
    destruct o as [[]|x];
      first [ eexists _, [_; _; _]; split; reflexivity
            | eexists _, [_; _; _; _]; split; reflexivity ].
Qed.

Lemma run_sendPanicAlertToBackend {E} (H : Handler E) fu payload w e :
  let f := run H (sendPanicAlertToBackend fu payload) w e in
  forallb (fun ev => negb (is_firestore_write ev)) (events f) = true
  /\ if is_development (hostname (window w)) then
       result f = Resolved tt /\ world f = delayed w
     else
       world f = w
       /\ match result f with
          | Resolved _ =>
              hasGetIdToken fu = true /\ existsb backend_failure (events f) = false
          | Rejected _ =>
              hasGetIdToken fu = false \/ existsb backend_failure (events f) = true
          end.
Proof.
  intros f. subst f. unfold sendPanicAlertToBackend, read_hostname, delay, setTimeout.
  expose.
  destruct (is_development (hostname (window w))) eqn:Hdev.
  - answer. cbn. done.
  - unfold getIdToken. destruct (hasGetIdToken fu) eqn:Htok; expose.
    2: { cbn [with_window window hostname]. rewrite Hdev. cbn. auto. }
    answer. destruct o as [token|x]; expose.
    2: { cbn [with_window window hostname]. rewrite Hdev. cbn. auto. }
    answer. destruct o as [response|x]; expose.
    2: { cbn [with_window window hostname]. rewrite Hdev. cbn. auto. }
    destruct (ok response) eqn:Hok; cbn [negb]; expose.
    + answer. destruct o as [body|x]; expose.
      2: { cbn [with_window window hostname]. rewrite Hdev. cbn. rewrite Hok. cbn. auto. }
      cbn. rewrite Hok. cbn. auto.
    + answer. rewrite Hdev. cbn. rewrite Hok. cbn. auto.
Qed.

Lemma run_setIsProcessing {E} (H : Handler E) b w e :
  run H (setIsProcessing b) w e
  = {| result := Resolved tt; world := with_panic (put_isProcessing b) w; env := e;
       events := [] |}.
Proof. reflexivity. Qed.

Lemma run_setIsActivated {E} (H : Handler E) b w e :
  run H (setIsActivated b) w e
  = {| result := Resolved tt; world := with_panic (put_isActivated b) w; env := e;
       events := [] |}.
Proof. reflexivity. Qed.

(** [activatePanic] for a signed-in user: the [try] block runs once the
    handle has been cleared and [isProcessing] set; the [catch] block takes
    over when it throws; [isProcessing] is reset at the end. *)
Lemma run_activatePanic {E} (H : Handler E) ctx message stream w e fu profile :
  signed_in ctx = Some (fu, profile) ->
  run H (activatePanic ctx message stream) w e
  = and_finally
      (or_catch
         (run H (activateBody fu profile ctx message stream)
              (with_panic (put_isProcessing true) (cleared w)) e)
         (fun x w' e' => run H (activateFailed fu profile x) w' e'))
      (fun w' e' => run H (setIsProcessing false) w' e').
Proof.
  intros Hin. unfold activatePanic. rewrite Hin.
  rewrite run_bind, run_clearPanicButtonTimeout.
  unfold and_then, after; cbn [result world env events].
  rewrite run_bind, run_setIsProcessing.
  unfold and_then, after; cbn [result world env events].
  rewrite run_try_finally, run_try_catch.
  by destruct (and_finally _ _).
Qed.

(** Projections of the client state through the steps. *)
Ltac world_simpl :=
  unfold button_armed, delayed, stored_locally, cleared;
  cbn [world panic auth window with_panic with_window with_auth
       put_isActivated put_hasActiveAlerts put_isProcessing
       map_panicHistory map_realtimeAlerts
       put_panicButtonTimeout map_localStorage map_sessionStorage add_timer remove_timer
       isActivated hasActiveAlerts isProcessing panicHistory realtimeAlerts
       panicButtonTimeout timers nextTimerId localStorage sessionStorage hostname
       origin search].

Lemma run_saveAlertLocally_unreadable {E} (H : Handler E) userId d vd w e :
  (forall l, ~ stored_alerts_read l w) ->
  exists x,
    run H (saveAlertLocally userId d vd) w e
    = {| result := Rejected x; world := w; env := (on_ask H DateNow e).2;
         events := [Asked DateNow (on_ask H DateNow e).1] |}.
Proof.
  intros Hno. unfold saveAlertLocally.
  rewrite run_bind, run_ask. unfold and_then, after; cbn [result world env events].
  rewrite run_bind.
  destruct (run_parse_alerts_unreadable H w (on_ask H DateNow e).2 Hno) as [x ->].
  exists x. reflexivity.
Qed.

Lemma stored_alerts_read_cleared l w :
  stored_alerts_read l w ->
  stored_alerts_read l (with_panic (put_isProcessing true) (cleared w)).
Proof.
  unfold stored_alerts_read, local_alerts_are, cleared.
  destruct (panicButtonTimeout (window w)); world_simpl; auto.
Qed.

Lemma stored_alerts_unreadable_spec w l :
  stored_alerts_unreadable w -> ~ stored_alerts_read l w.
Proof.
  unfold stored_alerts_unreadable, stored_alerts_read, local_alerts_are.
  destruct (localStorage (window w) !! "local_sos_alerts") as [[l0|u|g|t]|];
    intros Hu [[?|[? ?]]|[? ?]]; try done.
  destruct Hu as [Hne _]. congruence.
Qed.

Lemma activatePanic_aborted {E} (H : Handler E) fu profile (pre : list Event) x wk ek :
  let f := and_finally
             (or_catch
                {| result := Rejected x; world := wk; env := ek; events := pre |}
                (fun x w' e' => run H (activateFailed fu profile x) w' e'))
             (fun w' e' => run H (setIsProcessing false) w' e') in
  result f = Resolved tt /\ aborted_with f pre x wk.
Proof.
  cbn [or_catch and_finally result world env events].
  destruct (run_activateFailed H fu profile x wk ek) as (e' & logs & -> & Hlogs).
  unfold and_finally, finish, after. cbn [result world env events].
  rewrite run_setIsProcessing.
  cbn [result world env events]. split; [done|]. split; [done|].
  exists logs. by rewrite app_nil_r.
Qed.

Lemma activatePanic_outcome {E} (H : Handler E) ctx message stream w e fu profile :
  signed_in ctx = Some (fu, profile) ->
  let w1 := with_panic (put_isProcessing true) (cleared w) in
  let s_loc := run H (acquireLocation ctx) w1 e in
  let s_video := run H (captureVideo stream (uid fu)) w1 (env s_loc) in
  let f := run H (activatePanic ctx message stream) w e in
  result f = Resolved tt
  /\ match result s_loc with
     | Rejected x => aborted_with f (events s_loc) x w1
     | Resolved currentLocation =>
         match result s_video with
         | Rejected _ => False
         | Resolved vd =>
              match currentLocation with
              | None =>
                  aborted_with f (events s_loc ++ events s_video)
                    (TypeError "Cannot read properties of null (reading 'latitude')") w1
              | Some loc =>
                  let d := sos_data (uid fu) message (videoUrl vd) loc in
                  let s_save :=
                    run H (if isLocalMode fu profile
                           then saveAlertLocally (uid fu) d vd
                           else saveAlertToFirestore (uid fu) message d vd (Some loc))
                        w1 (env s_video) in
                  match result s_save with
                  | Rejected x =>
                      aborted_with f (events s_loc ++ events s_video ++ events s_save) x
                        (world s_save)
                  | Resolved alertId =>
                      let s_send :=
                        run H (sendPanicAlertToBackend fu
                                 {| bp_data := d; bp_alertId := alertId |})
                            (world s_save) (env s_save) in
                      match result s_send with
                      | Rejected x =>
                          aborted_with f
                            (events s_loc ++ events s_video ++ events s_save
                             ++ events s_send) x (world s_send)
                      | Resolved _ =>
                          world f = with_panic (put_isProcessing false)
                                      (button_armed (world s_send))
                          /\ events f
                             = (events s_loc ++ events s_video ++ events s_save
                                ++ events s_send
                                ++ [Did (Toast (success_toast (isLocalMode fu profile)
                                                  (truthy (videoUrl vd))))])%list
                      end
                  end
              end
         end
     end.
Proof.
  intros Hin w1 s_loc s_video f. subst f.
  rewrite (run_activatePanic H ctx message stream w e fu profile Hin). fold w1.
  unfold activateBody.
  (* location *)
  rewrite run_bind. fold s_loc.
  destruct (run_acquireLocation H ctx w1 e) as (Hw & _). lazy zeta in Hw. fold s_loc in Hw.
  subst s_video. destruct s_loc as [[currentLocation|x] w1' e1 ev1];
    cbn [result world env events] in *; subst w1'.
  2: { cbn [and_then result world env events]. apply activatePanic_aborted. }
  cbn [and_then result world env events].
  (* video *)
  rewrite run_bind.
  destruct (captureVideo_returns H stream (uid fu) w1 e1) as (vd & e2 & ev2 & -> & _ & _).
  cbn [and_then result world env events]. lazy zeta.
  rewrite run_bind.
  destruct currentLocation as [loc|]; cbn [buildSosAlertData run and_then result world env events].
  2: { unfold after. cbn [result world env events]. rewrite app_nil_r.
       destruct (activatePanic_aborted H fu profile (ev1 ++ ev2)
                   (TypeError "Cannot read properties of null (reading 'latitude')") w1 e2)
         as [Hr Hab].
       split; [exact Hr|]. exact Hab. }
  fold (sos_data (uid fu) message (videoUrl vd) loc).
  set (d := sos_data (uid fu) message (videoUrl vd) loc).
  (* persistence *)
  rewrite run_bind.
  set (s_save := run H (if isLocalMode fu profile
                        then saveAlertLocally (uid fu) d vd
                        else saveAlertToFirestore (uid fu) message d vd (Some loc)) w1 e2).
  destruct s_save as [[alertId|x] w3 e3 ev3]; cbn [and_then result world env events].
  2: { unfold after. cbn [result world env events app]. rewrite ?app_nil_r.
       destruct (activatePanic_aborted H fu profile (ev1 ++ ev2 ++ ev3) x w3 e3)
         as [Hr Hab].
       split; [exact Hr|]. exact Hab. }
  (* backend *)
  rewrite run_bind.
  set (s_send := run H (sendPanicAlertToBackend fu {| bp_data := d; bp_alertId := alertId |})
                     w3 e3).
  destruct s_send as [[[]|x] w4 e4 ev4]; cbn [and_then result world env events].
  2: { unfold after. cbn [result world env events app]. rewrite ?app_nil_r.
       destruct (activatePanic_aborted H fu profile (ev1 ++ ev2 ++ ev3 ++ ev4) x w4 e4)
         as [Hr Hab].
       split; [exact Hr|]. exact Hab. }
  lazy beta zeta. rewrite run_activateTail.
  unfold and_finally, finish, after. cbn [or_catch result world env events app].
  rewrite run_setIsProcessing. cbn [result world env events].
  split; [done|]. split; [done|].
  by rewrite !app_nil_r.
Qed.

Ltac no_firestore_write :=
  repeat first
    [ rewrite forallb_app
    | progress cbn [forallb is_firestore_write negb andb app]
    | match goal with
      | Hl : forallb _ ?l = true |- context [forallb _ ?l] => rewrite Hl
      end ];
  reflexivity.

Lemma cleared_handle w : panicButtonTimeout (window (cleared w)) = None.
Proof.
  unfold cleared. destruct (panicButtonTimeout (window w)) eqn:Hh; world_simpl; done.
Qed.

Lemma location_found_result {E} (H : Handler E) ctx w e loc :
  location_found H ctx e loc ->
  result (run H (acquireLocation ctx) w e) = Resolved (Some loc).
Proof.
  intros Hloc. destruct (run_acquireLocation H ctx w e) as (_ & _ & Hres).
  lazy zeta in Hres.
  destruct Hloc as [Hc | [Hc Hc']]; rewrite Hc in Hres; [apply Hres|].
  destruct Hres as (-> & _). done.
Qed.

(** In local mode, once the location is known and the stored list can be
    read, the record of the alert is stored and shown whatever happens to
    the video, to the Supabase insert and to the backend notification. *)
Lemma local_mode_saves {E} (H : Handler E) ctx message stream w e fu profile l loc :
  signed_in ctx = Some (fu, profile) ->
  isLocalMode fu profile = true ->
  stored_alerts_read l w ->
  location_found H ctx e loc ->
  let w1 := with_panic (put_isProcessing true) (cleared w) in
  let s_loc := run H (acquireLocation ctx) w1 e in
  let s_video := run H (captureVideo stream (uid fu)) w1 (env s_loc) in
  let f := run H (activatePanic ctx message stream) w e in
  exists vd now timestamp,
    result s_video = Resolved vd
    /\ In (Asked DateNow now) (events f)
    /\ localStorage (window (world f)) !! "local_sos_alerts"
       = Some (StoredAlerts
                 (local_record (sos_data (uid fu) message (videoUrl vd) loc) now timestamp
                  :: l))
    /\ panicHistory (panic (world f))
       = local_record (sos_data (uid fu) message (videoUrl vd) loc) now timestamp :: l
    /\ realtimeAlerts (panic (world f))
       = local_record (sos_data (uid fu) message (videoUrl vd) loc) now timestamp :: l
    /\ forallb (fun ev => negb (is_firestore_write ev)) (events f) = true.
Proof.
  intros Hin Hlocal Hl Hloc w1 s_loc s_video f.
  destruct (activatePanic_outcome H ctx message stream w e fu profile Hin) as [_ Hout].
  lazy zeta in Hout. fold w1 s_loc s_video f in Hout.
  apply stored_alerts_read_cleared in Hl. fold w1 in Hl.
  pose proof (location_found_result H ctx w1 e loc Hloc) as Hr. fold s_loc in Hr.
  destruct (run_acquireLocation H ctx w1 e) as (_ & Hev1 & _). lazy zeta in Hev1.
  fold s_loc in Hev1.
  rewrite Hr, Hlocal in Hout.
  destruct (captureVideo_returns H stream (uid fu) w1 (env s_loc))
    as (vd & e2 & ev2 & Hvideo & Hev2 & _).
  fold s_video in Hvideo. rewrite Hvideo in Hout. cbn [result world env events] in Hout.
  set (d := sos_data (uid fu) message (videoUrl vd) loc) in *.
  destruct (run_saveAlertLocally H (uid fu) d vd w1 e2 l Hl)
    as (now & e3 & timestamp & e4 & logs & Hnow & Hstamp & Hlogs & Hsave).
  rewrite Hsave in Hout. cbn [result world env events] in Hout.
  apply no_firestore_write_in_effects in Hlogs.
  set (wp := stored_locally (local_record d now timestamp :: l) w1) in *.
  match type of Hout with
  | context [run H (sendPanicAlertToBackend fu ?p) wp ?e5] =>
      destruct (run_sendPanicAlertToBackend H fu p wp e5) as (Hev5 & Hsend);
      lazy zeta in Hev5, Hsend;
      destruct (run H (sendPanicAlertToBackend fu p) wp e5) as [r5 w5 e5' ev5]
  end.
  cbn [result world env events] in *.
  assert (localStorage (window w5) !! "local_sos_alerts"
          = Some (StoredAlerts (local_record d now timestamp :: l))
          /\ panicHistory (panic w5) = local_record d now timestamp :: l
          /\ realtimeAlerts (panic w5) = local_record d now timestamp :: l) as Hkept.
  { assert (w5 = wp \/ w5 = delayed wp) as [-> | ->]
      by (destruct (is_development _); [right | left]; apply Hsend).
    all: subst wp; world_simpl; by rewrite lookup_insert_eq. }
  exists vd, now, timestamp. split; [by rewrite Hvideo|].
  destruct r5 as [[]|x].
  - destruct Hout as [-> ->]. world_simpl.
    split; [rewrite !in_app_iff; cbn [In]; auto 15|].
    split; [apply Hkept|]. split; [apply Hkept|]. split; [apply Hkept|].
    no_firestore_write.
  - destruct Hout as [-> (logs' & -> & Hlogs')]. world_simpl.
    split; [rewrite !in_app_iff; cbn [In]; auto 15|].
    split; [apply Hkept|]. split; [apply Hkept|]. split; [apply Hkept|].
    no_firestore_write.
Qed.


(* ================================================================== *)
(** * The calls a procedure can make *)
(* ================================================================== *)

Lemma calls_only_run {E A} (P : forall R, Call R -> bool) (H : Handler E) (p : Proc A) w e :
  calls_only P p -> forallb (call_event P) (events (run H p w e)) = true.
Proof.
  intros Hp. revert w e.
  induction Hp as [| | | | | |R c k Hc _ IH]; intros w0 e0; cbn [run events forallb]; auto.
  - cbn. auto.
  - match goal with |- context [on_ask H ?q e0] => destruct (on_ask H q e0) as [r e'] end.
    cbn. auto.
  - destruct (on_call H c e0) as [o e']. cbn. rewrite Hc. apply IH.
Qed.

Lemma calls_only_bind {A B} P (p : Proc A) (k : A -> Proc B) :
  calls_only P p -> (forall a, calls_only P (k a)) -> calls_only P (p ≫= k).
Proof.
  intros Hp Hk. unfold mbind, Proc_bind.
  induction Hp; cbn [bind]; try (constructor; auto); auto.
Qed.

Lemma calls_only_try_catch {A} P (p : Proc A) (h : Error -> Proc A) :
  calls_only P p -> (forall x, calls_only P (h x)) -> calls_only P (try_catch p h).
Proof.
  intros Hp Hh. induction Hp; cbn [try_catch]; try (constructor; auto); auto.
Qed.

Lemma calls_only_try_finally {A} P (p : Proc A) (c : Proc unit) :
  calls_only P p -> calls_only P c -> calls_only P (try_finally p c).
Proof.
  intros Hp Hc. induction Hp; cbn [try_finally]; try (constructor; auto); auto.
  - apply (calls_only_bind P c (fun _ => Ret a)); [done | constructor].
  - apply (calls_only_bind P c (fun _ => Raise x)); [done | constructor].
Qed.

(** Walks through a procedure, one node at a time. *)
Ltac calls_only_step :=
  first
    [ progress intros
    | apply co_ret | apply co_raise | apply co_get | apply co_put | apply co_emit
    | apply co_ask | (apply co_do; [reflexivity|])
    | apply calls_only_bind | apply calls_only_try_catch | apply calls_only_try_finally
    | match goal with
      | |- calls_only _ (match ?x with _ => _ end) => destruct x
      | |- calls_only _ (if ?x then _ else _) => destruct x
      end
    | progress unfold call, settle, ask, get, modify, emit, toast, console_error,
        console_warn, setTimeout, clearTimeout, delay, localStorage_getItem,
        localStorage_setItem, read_hostname, getIdToken, parse_alerts,
        setIsActivated, setHasActiveAlerts, setIsProcessing, setPanicHistory,
        setRealtimeAlerts, clearPanicButtonTimeout
    | progress cbn [mret Proc_ret] ].

Ltac calls_only_walk := repeat calls_only_step.

Ltac panic_walk :=
  repeat first
    [ calls_only_step
    | progress lazy zeta
    | progress unfold acquireLocation, captureVideo, uploadStreamToSupabase,
        buildSosAlertData, insertSupabaseAlert, saveAlertLocally, saveAlertToFirestore,
        sendPanicAlertToBackend, activateFailed ].

(** What the steps of an activation call. *)
Lemma acquireLocation_calls ctx :
  calls_only (@not_firestore_call) (acquireLocation ctx)
  /\ calls_only (@not_video_call) (acquireLocation ctx)
  /\ calls_only (@not_alert_write) (acquireLocation ctx).
Proof. repeat split; panic_walk. Qed.

Lemma captureVideo_calls stream userId :
  calls_only (@not_firestore_call) (captureVideo stream userId)
  /\ calls_only (@not_alert_write) (captureVideo stream userId).
Proof. split; panic_walk. Qed.

Lemma saveAlertLocally_calls userId d vd :
  calls_only (@not_firestore_call) (saveAlertLocally userId d vd)
  /\ calls_only (@not_video_call) (saveAlertLocally userId d vd).
Proof. split; panic_walk. Qed.

Lemma saveAlertToFirestore_calls userId message d vd loc :
  calls_only (@not_video_call) (saveAlertToFirestore userId message d vd loc).
Proof. panic_walk. Qed.

Lemma sendPanicAlertToBackend_calls fu payload :
  calls_only (@not_firestore_call) (sendPanicAlertToBackend fu payload)
  /\ calls_only (@not_video_call) (sendPanicAlertToBackend fu payload)
  /\ calls_only (@not_alert_write) (sendPanicAlertToBackend fu payload).
Proof. repeat split; panic_walk. Qed.

Lemma activateFailed_calls fu profile x :
  calls_only (@not_video_call) (activateFailed fu profile x)
  /\ calls_only (@not_alert_write) (activateFailed fu profile x)
  /\ (isLocalMode fu profile = true ->
      calls_only (@not_firestore_call) (activateFailed fu profile x)).
Proof.
  split; [|split]; [panic_walk..|].
  intros Hmode. unfold activateFailed. rewrite Hmode. panic_walk.
Qed.

(** In local mode an activation calls neither [createSOSAlert] nor
    [createNotificationLog]. *)
Lemma activatePanic_local_calls ctx message stream fu profile :
  signed_in ctx = Some (fu, profile) ->
  isLocalMode fu profile = true ->
  calls_only (@not_firestore_call) (activatePanic ctx message stream).
Proof.
  intros Hin Hmode. unfold activatePanic. rewrite Hin.
  unfold activateBody, activateFailed. rewrite !Hmode. panic_walk.
Qed.

Lemma no_alert_write_filter (l : list Event) :
  forallb (call_event (@not_alert_write)) l = true ->
  List.filter is_firestore_write l = [] /\ List.filter is_alert_insert l = [].
Proof.
  induction l as [|ev l IH]; [done|]. cbn [forallb List.filter].
  intros [Hev Hl]%andb_prop. destruct (IH Hl) as [-> ->].
  destruct ev as [x|R c o|R q r]; [done| |done]. by destruct c.
Qed.

Lemma no_video_call_filter (l : list Event) :
  forallb (call_event (@not_video_call)) l = true ->
  List.filter is_firebase_upload l = [] /\ existsb is_video_call l = false.
Proof.
  induction l as [|ev l IH]; [done|]. cbn [forallb List.filter existsb].
  intros [Hev Hl]%andb_prop. destruct (IH Hl) as [-> ->].
  destruct ev as [x|R c o|R q r]; [done| |done]. by destruct c.
Qed.

(* ================================================================== *)
(** * Failures and the console *)
(* ================================================================== *)



Lemma logged_before_true later a :
  logged_before later a = true -> logged_before true a = true.
Proof.
  induction a as [|ev a IH]; [done|]. cbn [logged_before].
  intros [Hev Ha]%andb_prop. rewrite (IH Ha). by rewrite !orb_true_r.
Qed.



(** ** Composition *)








(** ** The steps of an activation *)















(** ** What follows the video step *)

(** Once the location step has returned, the events of an activation are
    those of the location step, those of the video step and then events
    among which there is no call of the video step. *)
Lemma activatePanic_after_video {E} (H : Handler E) ctx message stream w e fu profile :
  signed_in ctx = Some (fu, profile) ->
  let w1 := with_panic (put_isProcessing true) (cleared w) in
  let s_loc := run H (acquireLocation ctx) w1 e in
  let s_video := run H (captureVideo stream (uid fu)) w1 (env s_loc) in
  let f := run H (activatePanic ctx message stream) w e in
  forallb (call_event (@not_video_call)) (events s_loc) = true
  /\ (is_resolved (result s_loc) = true ->
      exists post,
        events f = (events s_loc ++ events s_video ++ post)%list
        /\ forallb (call_event (@not_video_call)) post = true).
Proof.
  intros Hin w1 s_loc s_video f.
  split; [apply calls_only_run, acquireLocation_calls|].
  intros Hres. subst f.
  rewrite (run_activatePanic H ctx message stream w e fu profile Hin). fold w1.
  unfold activateBody. rewrite run_bind. fold s_loc.
  destruct (run_acquireLocation H ctx w1 e) as (Hw & _). lazy zeta in Hw. fold s_loc in Hw.
  subst s_video. destruct s_loc as [[currentLocation|x] w1' e1 ev1];
    cbn [result world env events] in *; subst w1'; [|done].
  cbn [and_then result world env events].
  rewrite run_bind.
  destruct (captureVideo_returns H stream (uid fu) w1 e1) as (vd & e2 & ev2 & -> & _ & _).
  cbn [and_then result world env events].
  match goal with
  | |- context [after ev2 (run H ?rest w1 e2)] =>
      assert (calls_only (@not_video_call) rest) as Hrest by panic_walk;
      pose proof (calls_only_run (@not_video_call) H rest w1 e2 Hrest) as Hev;
      destruct (run H rest w1 e2) as [r3 w3 e3 ev3]
  end.
  cbn [events] in Hev.
  unfold and_finally, finish, or_catch, after. cbn [result world env events].
  destruct r3 as [[]|x]; cbn [result world env events]; rewrite run_setIsProcessing;
    cbn [result world env events].
  - exists ev3. by rewrite ?app_nil_r, <- ?app_assoc.
  - pose proof (calls_only_run (@not_video_call) H (activateFailed fu profile x) w3 e3
                  (proj1 (activateFailed_calls fu profile x))) as Hcatch.
    exists (ev3 ++ events (run H (activateFailed fu profile x) w3 e3))%list.
    rewrite forallb_app, Hev, Hcatch. by rewrite ?app_nil_r, <- ?app_assoc.
Qed.
(* ================================================================== *)
(** * Video upload: Supabase first, Firebase as the fallback *)
(* ================================================================== *)

Lemma no_firebase_upload_in_attempt (l : list Event) :
  forallb supabase_attempt_event l = true ->
  List.filter is_firebase_upload l = [].
Proof.
  induction l as [|ev l IH]; cbn; [done|].
  intros [Hev Hl]%andb_prop. rewrite IH by done.
  destruct ev as [x|R c o|R q r]; [done| |done]. by destruct c.
Qed.

Lemma no_firebase_upload_in_effects (l : list Event) :
  forallb is_effect l = true ->
  List.filter is_firebase_upload l = [].
Proof.
  induction l as [|ev l IH]; cbn; [done|].
  intros [Hev Hl]%andb_prop. rewrite IH by done. by destruct ev.
Qed.

(** The location step returned [loc]: the context has it, or
    [getCurrentLocation()] resolved to it. *)
Lemma location_result_found {E} (H : Handler E) ctx w e loc :
  result (run H (acquireLocation ctx) w e) = Resolved (Some loc) ->
  location_found H ctx e loc.
Proof.
  intros Hres. destruct (run_acquireLocation H ctx w e) as (_ & _ & Hloc).
  lazy zeta in Hloc. unfold location_found.
  destruct (ctx_location ctx) as [l|].
  - left. destruct Hloc as [Hr _]. congruence.
  - right. split; [done|]. destruct Hloc as (Hr & _). congruence.
Qed.

(** C1, as amended.  For a signed-in user whose location step has returned,
    an activation given a media stream goes on with the video step, which
    starts with the Supabase attempt ([uploadStreamToSupabase], whose first
    call records the stream for 15000 ms); nothing after the video step
    records or uploads.  When the attempt returns a URL the Firebase upload
    is not called anywhere in the activation and the video data is tagged
    "supabase"; when it throws or returns no URL, [uploadVideoAndGetURL] is
    called exactly once in the activation, after the attempt, and the video
    data is tagged "firebase" if it returns a URL and carries a null URL and
    a null tag otherwise.  When both fail and the location is not null, the
    activation goes on with a null video URL: in local mode the record
    stored has no video, when the stored list can be read; otherwise
    [createSOSAlert] is the next call and is given the alert without video,
    so that the alert is written if that call resolves. *)
Theorem activatePanic_video_fallback {E} (H : Handler E) ctx message s w e fu profile :
  signed_in ctx = Some (fu, profile) ->
  let w1 := with_panic (put_isProcessing true) (cleared w) in
  let s_loc := run H (acquireLocation ctx) w1 e in
  let supa := run H (uploadStreamToSupabase (Some s) (uid fu) panicUploadOptions)
                  w1 (env s_loc) in
  let fb := on_call H (UploadVideoAndGetURL s (uid fu)) (env supa) in
  let s_video := run H (captureVideo (Some s) (uid fu)) w1 (env s_loc) in
  let f := run H (activatePanic ctx message (Some s)) w e in
  is_resolved (result s_loc) = true ->
  (exists post,
     events f = (events s_loc ++ events s_video ++ post)%list
     /\ forallb (call_event (@not_video_call)) (events s_loc) = true
     /\ forallb (call_event (@not_video_call)) post = true)
  /\ (exists t o rest rest',
        events s_video = (Did (Toast t) :: events supa ++ rest)%list
        /\ events supa = Called (RecordStreamToBlob s 15000) o :: rest')
  /\ match supabase_url supa with
     | Some url =>
         result s_video = Resolved {| videoUrl := Some url; videoDuration := 0;
                                      uploadedTo := Some "supabase" |}
         /\ List.filter is_firebase_upload (events f) = []
     | None =>
         (exists t1 t2 t3 rest,
            events s_video
            = (Did t1 :: events supa
                 ++ [Did t2; Did t3; Called (UploadVideoAndGetURL s (uid fu)) fb.1]
                 ++ rest)%list
            /\ forallb is_effect rest = true)
         /\ List.filter is_firebase_upload (events f)
            = [Called (UploadVideoAndGetURL s (uid fu)) fb.1]
         /\ result s_video
            = Resolved match firebase_url fb.1 with
                       | Some url => {| videoUrl := Some url; videoDuration := 0;
                                        uploadedTo := Some "firebase" |}
                       | None => {| videoUrl := None; videoDuration := 0;
                                    uploadedTo := None |}
                       end
     end
  /\ (forall loc,
        result s_loc = Resolved (Some loc) ->
        supabase_url supa = None ->
        firebase_url fb.1 = None ->
        let d := sos_data (uid fu) message None loc in
        if isLocalMode fu profile then
          forall l, stored_alerts_read l w ->
            exists now timestamp,
              localStorage (window (world f)) !! "local_sos_alerts"
              = Some (StoredAlerts (local_record d now timestamp :: l))
              /\ alert_videoUrl (local_record d now timestamp) = None
        else
          exists rest,
            events f
            = (events s_loc ++ events s_video
                 ++ Called (CreateSOSAlert d) (on_call H (CreateSOSAlert d) (env s_video)).1
                 :: rest)%list).
Proof.
  intros Hin w1 s_loc supa fb s_video f Hres.
  pose proof (captureVideo_run H s (uid fu) w1 (env s_loc)) as Hvideo.
  lazy zeta in Hvideo. fold supa fb s_video in Hvideo.
  destruct (run_uploadStreamToSupabase H s (uid fu) panicUploadOptions w1 (env s_loc))
    as (_ & (o & rest' & Hfirst) & Hattempt).
  lazy zeta in Hfirst, Hattempt. fold supa in Hfirst, Hattempt.
  change (duration_or_default (opt_durationMs panicUploadOptions)) with 15000 in Hfirst.
  destruct (activatePanic_after_video H ctx message (Some s) w e fu profile Hin)
    as [Hloc Hafter].
  lazy zeta in Hloc, Hafter. fold w1 s_loc s_video f in Hloc, Hafter.
  destruct (Hafter Hres) as (post & Hev & Hpost).
  destruct (no_video_call_filter _ Hloc) as [Hloc_fb _].
  destruct (no_video_call_filter _ Hpost) as [Hpost_fb _].
  split; [eauto|].
  split.
  { destruct (supabase_url supa).
    - destruct Hvideo as (t1 & t2 & ->). cbn [events]. eauto 10.
    - destruct Hvideo as (t1 & c & t3 & rest & _ & _ & ->). cbn [events]. eauto 10. }
  split.
  { rewrite Hev, !List.filter_app, Hloc_fb, Hpost_fb, app_nil_r. cbn [app].
    destruct (supabase_url supa) as [url|].
    - destruct Hvideo as (t1 & t2 & ->). cbn [result events]. split; [done|].
      cbn [List.filter is_firebase_upload]. rewrite List.filter_app.
      by rewrite (no_firebase_upload_in_attempt _ Hattempt).
    - destruct Hvideo as (t1 & c & t3 & rest & Hrest & _ & ->). cbn [result events].
      split; [eauto 10|]. split; [|done].
      cbn [List.filter is_firebase_upload]. rewrite !List.filter_app.
      rewrite (no_firebase_upload_in_attempt _ Hattempt).
      rewrite (no_firebase_upload_in_effects _ Hrest). reflexivity. }
  intros loc Hr Hsupa Hfb d. rewrite Hsupa, Hfb in Hvideo.
  destruct Hvideo as (t1 & c & t3 & rest & _ & _ & Hvideo).
  pose proof (location_result_found H ctx w1 e loc Hr) as Hfound.
  destruct (isLocalMode fu profile) eqn:Hmode.
  - intros l Hl.
    destruct (local_mode_saves H ctx message (Some s) w e fu profile l loc Hin Hmode
                Hl Hfound)
      as (vd & now & timestamp & Hvd & _ & Hstore & _).
    lazy zeta in Hvd. fold w1 s_loc s_video in Hvd. rewrite Hvideo in Hvd.
    cbn [result] in Hvd. injection Hvd as <-. eauto.
  - destruct (activatePanic_outcome H ctx message (Some s) w e fu profile Hin) as [_ Hout].
    lazy zeta in Hout. fold w1 s_loc s_video f in Hout.
    rewrite Hr in Hout.
    assert (env s_video = fb.2) as Henv by (by rewrite Hvideo).
    rewrite Hvideo, Hmode in Hout. cbn [result world env events noVideo videoUrl] in Hout.
    fold d in Hout. rewrite Henv.
    destruct (run_saveAlertToFirestore H (uid fu) message d noVideo (Some loc) w1 fb.2)
      as (_ & Hsave).
    lazy zeta in Hsave.
    set (s_save := run H (saveAlertToFirestore (uid fu) message d noVideo (Some loc))
                       w1 fb.2) in *.
    assert (exists evs, events s_save
                        = Called (CreateSOSAlert d) (on_call H (CreateSOSAlert d) fb.2).1
                          :: evs) as (evs & Hs).
    { destruct (on_call H (CreateSOSAlert d) fb.2).1 as [alertId|x].
      - destruct Hsave as (_ & evs & oi & -> & _). eauto.
      - destruct Hsave as (_ & ->). eauto. }
    assert (forall front back : list Event,
              exists rest0,
                (events s_loc ++ front ++ events s_save ++ back)%list
                = (events s_loc ++ front
                     ++ Called (CreateSOSAlert d) (on_call H (CreateSOSAlert d) fb.2).1
                     :: rest0)%list) as Hshape.
    { intros front back. rewrite Hs. cbn [app]. eauto. }
    replace (events s_video) with (Did (Toast t1)
        :: events supa ++
           [Did (Console LogError "[Panic] Supabase upload FAILED:" c);
            Did (Toast t3); Called (UploadVideoAndGetURL s (uid fu)) fb.1] ++
           rest)%list by (by rewrite Hvideo).
    destruct (result s_save) as [alertId|x].
    + destruct (result (run H (sendPanicAlertToBackend _ _) _ _)) as [[]|x].
      * destruct Hout as [_ ->]. apply Hshape.
      * destruct Hout as [_ (logs & -> & _)]. rewrite <- !app_assoc. apply Hshape.
    + destruct Hout as [_ (logs & -> & _)]. rewrite <- !app_assoc.
      rewrite <- (app_nil_r (events s_save ++ _)), <- app_assoc. apply Hshape.
Qed.

Lemma activatePanic_video_fallback_witness :
  let H := failing (@is_video_upload) (scripted services_up) in
  let f := run H (activatePanic sample_ctx (Some "help") (Some sample_stream))
               fresh_world 0 in
  let s_video := run H (captureVideo (Some sample_stream) "uid-1")
                     (with_panic (put_isProcessing true) (cleared fresh_world)) 0 in
  result s_video = Resolved {| videoUrl := None; videoDuration := 0; uploadedTo := None |}
  /\ List.filter is_firebase_upload (events f)
     = [Called (UploadVideoAndGetURL sample_stream "uid-1")
               (Rejected (new_Error "network request failed"))]
  /\ exists rest,
       events f
       = (events s_video
            ++ Called (CreateSOSAlert (sos_data "uid-1" (Some "help") None sample_location))
                      (Resolved (Some "alert-1")) :: rest)%list.
Proof.
  destruct (activatePanic_video_fallback
              (failing (@is_video_upload) (scripted services_up))
              sample_ctx (Some "help") sample_stream fresh_world 0
              sample_user sample_profile eq_refl eq_refl)
    as (_ & _ & Hvideo & Hboth).
  destruct Hvideo as (_ & Hcalls & Hresult).
  split; [exact Hresult|]. split; [exact Hcalls|].
  apply (Hboth sample_location); reflexivity.
Defined.

(** C1, as stated, fails: a stream alone does not make the activation
    attempt an upload.  Without a signed-in user the activation only shows
    its toast.  And when the context has no location and
    [getCurrentLocation()] rejects, the activation of a signed-in user ends
    in its [catch] block before the video step: nothing is recorded or
    uploaded, and no alert is written. *)
Lemma activatePanic_stream_without_upload :
  let signed_out := {| ctx_firebaseUser := None; ctx_userProfile := None;
                       ctx_location := Some sample_location |} in
  let f := run (scripted services_up)
               (activatePanic signed_out (Some "help") (Some sample_stream))
               fresh_world 0 in
  let nowhere := {| ctx_firebaseUser := Some sample_user;
                    ctx_userProfile := Some sample_profile; ctx_location := None |} in
  let g := run (failing (@is_location_call) (scripted services_up))
               (activatePanic nowhere (Some "help") (Some sample_stream))
               fresh_world 0 in
  (filter is_call (events f) = [] /\ world f = fresh_world)
  /\ (forallb (call_event (@not_video_call)) (events g) = true
      /\ forallb (call_event (@not_alert_write)) (events g) = true
      /\ localStorage (window (world g)) = ∅
      /\ last (events g)
         = Some (Did (Toast (failure_toast (new_Error "network request failed"))))).
Proof. repeat split; vm_compute; reflexivity. Qed.
(* ================================================================== *)
(** * The alert is written to both backends *)
(* ================================================================== *)

(** An activation that ended in its [catch] block, entered with the handle
    cleared, did not complete: no reset is armed. *)
Lemma aborted_not_completed {E} (f : Final E unit) pre x wk :
  aborted_with f pre x wk ->
  panicButtonTimeout (window wk) = None ->
  ~ completed f.
Proof.
  intros [Hw _] Hnone (_ & _ & _ & (h & Hh & _) & _).
  rewrite Hw in Hh. world_simpl. cbn in Hh. congruence.
Qed.

Lemma processing_handle w :
  panicButtonTimeout (window (with_panic (put_isProcessing true) (cleared w))) = None.
Proof. world_simpl. apply cleared_handle. Qed.

(** The backend notification leaves [window.panicButtonTimeout] alone. *)
Lemma sendPanicAlertToBackend_handle {E} (H : Handler E) fu payload w e :
  panicButtonTimeout (window (world (run H (sendPanicAlertToBackend fu payload) w e)))
  = panicButtonTimeout (window w).
Proof.
  destruct (run_sendPanicAlertToBackend H fu payload w e) as (_ & Hsend).
  lazy zeta in Hsend.
  destruct (is_development _).
  - destruct Hsend as [_ ->]. by world_simpl.
  - destruct Hsend as [-> _]. done.
Qed.

(** The Firestore branch of the persistence step once [createSOSAlert]
    has resolved: the notification log (when there is an id), then the one
    insert into [sos_alerts], whose failure leaves a line on the console. *)
Lemma saveAlertToFirestore_writes {E} (H : Handler E) userId message d vd loc w e alertId :
  (on_call H (CreateSOSAlert d) e).1 = Resolved alertId ->
  exists logs o trace,
    events (run H (saveAlertToFirestore userId message d vd loc) w e)
    = (Called (CreateSOSAlert d) (Resolved alertId)
         :: logs ++ Called (SupabaseInsertAlert (insertPayload userId d vd)) o :: trace)%list
    /\ forallb (call_event (@not_alert_write)) logs = true
    /\ match o with
       | Resolved r =>
           match error r with
           | None => trace = []
           | Some err =>
               trace = [Did (Console LogWarn "[Panic] Supabase insert (firebase) error:"
                               (message_or_self err))]
           end
       | Rejected x =>
           trace = [Did (Console LogError "[Panic] Supabase insert (firebase) failed:"
                           (message_or_self x))]
       end.
Proof.
  intros Hcreated. unfold saveAlertToFirestore.
  rewrite run_bind, run_call. unfold and_then, after; cbn [result world env events].
  rewrite Hcreated. cbn [app]. rewrite run_bind.
  match goal with
  | |- context [and_then (run H ?logging w ?e1)] =>
      assert (calls_only (@not_alert_write) logging) as Hlog by calls_only_walk;
      pose proof (calls_only_run (@not_alert_write) H logging w e1 Hlog) as Hevs;
      assert (exists e2 evs,
                run H logging w e1
                = {| result := Resolved tt; world := w; env := e2; events := evs |})
        as (e2 & evs & Hrun)
  end.
  { destruct (truthy alertId); [|eexists _, _; reflexivity].
    answer. destruct o as [[]|x]; cbn; eexists _, _; reflexivity. }
  rewrite Hrun in Hevs |- *. cbn [events] in Hevs.
  unfold and_then, after; cbn [result world env events]. rewrite run_bind.
  destruct (run_insertSupabaseAlert H "firebase" userId d vd w e2)
    as (r & trace & -> & _ & Htrace).
  unfold and_then, after; cbn [result world env events run app]. rewrite app_nil_r.
  exists evs, (on_call H (SupabaseInsertAlert (insertPayload userId d vd)) e2).1, trace.
  split; [reflexivity|]. split; [exact Hevs|].
  destruct (on_call H (SupabaseInsertAlert (insertPayload userId d vd)) e2).1
    as [[dt [err|]]|x]; exact Htrace.
Qed.

Lemma effects_no_alert_write (l : list Event) :
  forallb is_effect l = true -> forallb (call_event (@not_alert_write)) l = true.
Proof.
  induction l as [|ev l IH]; [done|]. cbn [forallb].
  intros [Hev Hl]%andb_prop. rewrite (IH Hl), andb_true_r. by destruct ev.
Qed.

(** C2, as amended.  In Firebase (non-local) mode, an activation that
    completes has created the Firestore alert through [createSOSAlert],
    which resolved, and has afterwards sent to the Supabase table
    [sos_alerts] exactly one insert, of a row with the same user id,
    message, video URL and location as the Firestore record, the status
    ['pending'] and no other column: the analysis columns are not part of
    the row.  No other write of the alert is attempted.  Whether the row
    exists is up to Supabase: when the insert is rejected or answered with
    an error, this is written to the console, and the activation completes
    all the same. *)
Theorem activatePanic_writes_both_backends {E} (H : Handler E) ctx message stream w e
    fu profile :
  signed_in ctx = Some (fu, profile) ->
  isLocalMode fu profile = false ->
  let f := run H (activatePanic ctx message stream) w e in
  completed f ->
  exists loc video alertId o pre logs trace post,
    let d := sos_data (uid fu) message video loc in
    let row := [ ("user_id", JString (sos_userId d));
                 ("message", JString (sos_message d));
                 ("video_url", json_of_option (sos_videoUrl d));
                 ("location_latitude", JNumber (sos_latitude (sos_location d)));
                 ("location_longitude", JNumber (sos_longitude (sos_location d)));
                 ("location_address", JString (sos_address (sos_location d)));
                 ("status", JString "pending") ] in
    (ctx_location ctx = Some loc
     \/ In (Called GetCurrentLocation (Resolved (Some loc))) pre)
    /\ events f
       = (pre ++ Called (CreateSOSAlert d) (Resolved alertId)
            :: logs ++ Called (SupabaseInsertAlert row) o :: trace ++ post)%list
    /\ List.filter is_firestore_write (events f)
       = [Called (CreateSOSAlert d) (Resolved alertId)]
    /\ List.filter is_alert_insert (events f) = [Called (SupabaseInsertAlert row) o]
    /\ match o with
       | Resolved r =>
           match error r with
           | None => trace = []
           | Some err =>
               trace = [Did (Console LogWarn "[Panic] Supabase insert (firebase) error:"
                               (message_or_self err))]
           end
       | Rejected x =>
           trace = [Did (Console LogError "[Panic] Supabase insert (firebase) failed:"
                           (message_or_self x))]
       end.
Proof.
  intros Hin Hmode f Hdone.
  destruct (activatePanic_outcome H ctx message stream w e fu profile Hin) as [_ Hout].
  lazy zeta in Hout. fold f in Hout.
  set (w1 := with_panic (put_isProcessing true) (cleared w)) in *.
  pose proof (processing_handle w) as Hnone. fold w1 in Hnone.
  destruct (run_acquireLocation H ctx w1 e) as (_ & _ & Hloc). lazy zeta in Hloc.
  pose proof (calls_only_run (@not_alert_write) H (acquireLocation ctx) w1 e
                (proj2 (proj2 (acquireLocation_calls ctx)))) as Hquiet1.
  set (s_loc := run H (acquireLocation ctx) w1 e) in *.
  destruct (result s_loc) as [currentLocation|x] eqn:Hr1.
  2: { by destruct (aborted_not_completed f _ _ _ Hout Hnone). }
  pose proof (calls_only_run (@not_alert_write) H (captureVideo stream (uid fu)) w1
                (env s_loc) (proj2 (captureVideo_calls stream (uid fu)))) as Hquiet2.
  destruct (captureVideo_returns H stream (uid fu) w1 (env s_loc))
    as (vd & e2 & ev2 & Hvideo & _ & Hurl).
  rewrite Hvideo in Hout, Hquiet2. cbn [result world env events] in Hout, Hquiet2.
  destruct currentLocation as [loc|].
  2: { by destruct (aborted_not_completed f _ _ _ Hout Hnone). }
  rewrite Hmode in Hout.
  set (d := sos_data (uid fu) message (videoUrl vd) loc) in *.
  destruct (run_saveAlertToFirestore H (uid fu) message d vd (Some loc) w1 e2)
    as (Hw3 & Hsave).
  lazy zeta in Hsave.
  pose proof (saveAlertToFirestore_writes H (uid fu) message d vd (Some loc) w1 e2)
    as Hwrites.
  set (s_save := run H (saveAlertToFirestore (uid fu) message d vd (Some loc)) w1 e2) in *.
  destruct (on_call H (CreateSOSAlert d) e2).1 as [alertId|x].
  2: { destruct Hsave as [Hr3 _]. rewrite Hr3 in Hout.
       destruct (aborted_not_completed f _ _ _ Hout). { by rewrite Hw3. } done. }
  destruct Hsave as (Hr3 & _). rewrite Hr3 in Hout.
  destruct (Hwrites alertId eq_refl) as (logs & o & trace & Hev3 & Hlogs & Htrace).
  pose proof (sendPanicAlertToBackend_handle H fu
                {| bp_data := d; bp_alertId := alertId |} (world s_save) (env s_save))
    as Hh4.
  pose proof (calls_only_run (@not_alert_write) H
                (sendPanicAlertToBackend fu {| bp_data := d; bp_alertId := alertId |})
                (world s_save) (env s_save)
                (proj2 (proj2 (sendPanicAlertToBackend_calls fu _)))) as Hquiet4.
  set (s_send := run H (sendPanicAlertToBackend fu _) (world s_save) (env s_save)) in *.
  rewrite Hw3 in Hh4. rewrite Hnone in Hh4.
  destruct (result s_send) as [[]|x].
  2: { by destruct (aborted_not_completed f _ _ _ Hout Hh4). }
  destruct Hout as [_ Hev]. rewrite Hev3 in Hev.
  assert (forallb (call_event (@not_alert_write)) trace = true) as Hquiet3.
  { apply effects_no_alert_write.
    destruct o as [[dt [err|]]|x]; cbn in Htrace; rewrite Htrace; reflexivity. }
  destruct (no_alert_write_filter _ Hquiet1) as [Hf1 Hi1].
  destruct (no_alert_write_filter _ Hquiet2) as [Hf2 Hi2].
  destruct (no_alert_write_filter _ Hlogs) as [Hf3 Hi3].
  destruct (no_alert_write_filter _ Hquiet3) as [Hf4 Hi4].
  destruct (no_alert_write_filter _ Hquiet4) as [Hf5 Hi5].
  unfold insertPayload in Hev. rewrite Hurl in Hev.
  exists loc, (videoUrl vd), alertId, o, (events s_loc ++ ev2)%list, logs, trace.
  eexists. lazy zeta. fold d. split; [|split; [|split; [|split]]].
  - destruct (ctx_location ctx) as [l0|] eqn:Hc.
    + left. destruct Hloc as [Hloc _]. congruence.
    + right. destruct Hloc as (Hr & _ & Hloc). rewrite <- Hr in Hloc.
      apply in_or_app. by left.
  - rewrite Hev, <- !app_assoc. cbn [app]. rewrite <- !app_assoc. reflexivity.
  - rewrite Hev, !List.filter_app. cbn [List.filter is_firestore_write].
    rewrite !List.filter_app. cbn [List.filter is_firestore_write].
    rewrite Hf1, Hf2, Hf3, Hf4, Hf5. reflexivity.
  - rewrite Hev, !List.filter_app. cbn [List.filter is_alert_insert].
    rewrite !List.filter_app. cbn [List.filter is_alert_insert].
    rewrite Hi1, Hi2, Hi3, Hi4, Hi5. reflexivity.
  - exact Htrace.
Qed.

Lemma activatePanic_writes_both_backends_witness :
  let f := run (scripted services_up)
               (activatePanic sample_ctx (Some "help") (Some sample_stream))
               fresh_world 0 in
  exists loc video alertId o pre logs trace post,
    let d := sos_data "uid-1" (Some "help") video loc in
    let row := [ ("user_id", JString (sos_userId d));
                 ("message", JString (sos_message d));
                 ("video_url", json_of_option (sos_videoUrl d));
                 ("location_latitude", JNumber (sos_latitude (sos_location d)));
                 ("location_longitude", JNumber (sos_longitude (sos_location d)));
                 ("location_address", JString (sos_address (sos_location d)));
                 ("status", JString "pending") ] in
    (ctx_location sample_ctx = Some loc
     \/ In (Called GetCurrentLocation (Resolved (Some loc))) pre)
    /\ events f
       = (pre ++ Called (CreateSOSAlert d) (Resolved alertId)
            :: logs ++ Called (SupabaseInsertAlert row) o :: trace ++ post)%list
    /\ List.filter is_firestore_write (events f)
       = [Called (CreateSOSAlert d) (Resolved alertId)]
    /\ List.filter is_alert_insert (events f) = [Called (SupabaseInsertAlert row) o]
    /\ match o with
       | Resolved r =>
           match error r with
           | None => trace = []
           | Some err =>
               trace = [Did (Console LogWarn "[Panic] Supabase insert (firebase) error:"
                               (message_or_self err))]
           end
       | Rejected x =>
           trace = [Did (Console LogError "[Panic] Supabase insert (firebase) failed:"
                           (message_or_self x))]
       end.
Proof.
  apply (activatePanic_writes_both_backends (scripted services_up) sample_ctx (Some "help")
           (Some sample_stream) fresh_world 0 sample_user sample_profile).
  - reflexivity.
  - reflexivity.
  - split; [reflexivity|]. split; [reflexivity|]. split; [reflexivity|]. split.
    + exists 1%positive. split; [reflexivity|]. left. reflexivity.
    + eexists (removelast (events (run (scripted services_up)
                 (activatePanic sample_ctx (Some "help") (Some sample_stream))
                 fresh_world 0))), false, true.
      vm_compute. reflexivity.
Defined.

(** C2, as stated, fails: a successful activation need not insert a row.
    When the insert into [sos_alerts] is rejected, the Firestore alert has
    been created, the rejection is written to the console and the
    activation completes: button activated, reset armed, success toast.
    The same holds when Supabase answers the insert with an error. *)
Lemma activatePanic_completes_without_supabase_row :
  let row := [ ("user_id", JString "uid-1");
               ("message", JString "help");
               ("video_url", JString "https://cdn.example/clip.mp4");
               ("location_latitude", JNumber (285 # 10));
               ("location_longitude", JNumber (771 # 10));
               ("location_address", JString "28.5000, 77.1000");
               ("status", JString "pending") ] in
  let f := run (failing (@is_alert_insert_call) (scripted services_up))
               (activatePanic sample_ctx (Some "help") (Some sample_stream))
               fresh_world 0 in
  let g := run (scripted (insert_refused services_up))
               (activatePanic sample_ctx (Some "help") (Some sample_stream))
               fresh_world 0 in
  (completed f
   /\ List.filter is_alert_insert (events f)
      = [Called (SupabaseInsertAlert row) (Rejected (new_Error "network request failed"))]
   /\ existsb is_firestore_write (events f) = true
   /\ existsb is_destructive_toast (events f) = false)
  /\ (completed g
      /\ List.filter is_alert_insert (events g)
         = [Called (SupabaseInsertAlert row)
                   (Resolved (supa_error "new row violates row-level security policy"))]).
Proof.
  assert (forall E (f : Final E unit) localMode hasVideo,
            result f = Resolved tt ->
            isActivated (panic (world f)) = true ->
            isProcessing (panic (world f)) = false ->
            panicButtonTimeout (window (world f)) = Some 1%positive ->
            In (reset_timer 1) (timers (window (world f))) ->
            events f = (removelast (events f)
                          ++ [Did (Toast (success_toast localMode hasVideo))])%list ->
            completed f) as Hcompleted.
  { intros E f lm hv ? ? ? ? ? ?. repeat (split; [done|]). split; [eauto|]. eauto. }
  split; [split; [|split; [|split]]|split].
  - apply (Hcompleted _ _ false true); try reflexivity. vm_compute. auto.
  - vm_compute. reflexivity.
  - vm_compute. reflexivity.
  - vm_compute. reflexivity.
  - apply (Hcompleted _ _ false true); try reflexivity. vm_compute. auto.
  - vm_compute. reflexivity.
Qed.
(* ================================================================== *)
(** * Degradation under failures *)
(* ================================================================== *)









(* ================================================================== *)
(** * The "has active alerts" flag *)
(* ================================================================== *)

Lemma is_active_spec a : is_active a = true <-> active_status a.
Proof.
  unfold is_active, active_status. destruct (alert_status a) as [s|]; cbn.
  - rewrite orb_true_iff, !String.eqb_eq. split; intros [?|?]; simplify_eq; auto.
  - split; [discriminate | intros [?|?]; discriminate].
Qed.

Lemma found_find_active l :
  flag_agrees (found (List.find is_active l)) l.
Proof.
  unfold flag_agrees. induction l as [|a l IH]; cbn.
  - split; [discriminate | intros (a & [] & _)].
  - destruct (is_active a) eqn:Ha; cbn.
    + split; [intros _|done]. exists a. split; [by left|]. by apply is_active_spec.
    + rewrite IH. split; intros (b & Hb & Hact).
      * exists b. split; [by right | done].
      * destruct Hb as [->|Hb]; [|by exists b].
        apply is_active_spec in Hact. congruence.
Qed.

(** [normalize] always returns, leaves the client state alone and gives
    the alert the id of the row and its status, ['pending'] by default. *)
Lemma run_normalize {E} (H : Handler E) row w e :
  exists a e' evs,
    run H (normalize row) w e
    = {| result := Resolved a; world := w; env := e'; events := evs |}
    /\ alert_id a = row_id row
    /\ alert_status a = Some (or_else (row_status row) "pending").
Proof.
  unfold normalize. destruct (row_created_at row) as [t|]; cbn.
  - eexists _, _, _. split; [reflexivity|]. done.
  - destruct (on_ask H DateNow e) as [t e'] eqn:Hq. cbn.
    eexists _, _, _. split; [reflexivity|]. done.
Qed.

Lemma run_normalize_all {E} (H : Handler E) rows w e :
  exists l e' evs,
    run H (normalize_all rows) w e
    = {| result := Resolved l; world := w; env := e'; events := evs |}.
Proof.
  revert e; induction rows as [|r rows IH]; intros e; cbn [normalize_all].
  - by eexists _, _, _.
  - rewrite run_bind.
    destruct (run_normalize H r w e) as (a & e1 & ev1 & -> & _).
    unfold and_then, after; cbn [result world env events].
    rewrite run_bind.
    destruct (IH e1) as (l & e2 & ev2 & ->).
    unfold and_then, after; cbn. by eexists _, _, _.
Qed.

Lemma fetchInitialAlerts_consistent {E} (H : Handler E) w e r e' :
  on_call H SupabaseSelectAlerts e = (Resolved r, e') ->
  error r = None ->
  alerts_consistent (panic (world (run H (fetchInitialAlerts true) w e))).
Proof.
  intros Hcall Herr. unfold fetchInitialAlerts.
  rewrite run_try_catch, run_bind, run_call, Hcall.
  unfold and_then, after; cbn [result world env events fst snd]. rewrite Herr.
  rewrite run_bind.
  destruct (run_normalize_all H (default [] (data r)) w e') as (l & e2 & ev2 & ->).
  unfold and_then, or_catch, after; cbn.
  split; apply found_find_active.
Qed.

Lemma loadLocalAlerts_consistent {E} (H : Handler E) w e l :
  localStorage (window w) !! "local_sos_alerts" = Some (StoredAlerts l)
  \/ (localStorage (window w) !! "local_sos_alerts" = None /\ l = []) ->
  let s := panic (world (run H loadLocalAlerts w e)) in
  panicHistory s = l /\ realtimeAlerts s = l /\ alerts_consistent s.
Proof.
  intros Hst. unfold loadLocalAlerts, parse_alerts, localStorage_getItem. cbn.
  destruct Hst as [-> | [-> ->]]; cbn;
    (split; [done|]; split; [done|]; split;
     first [exact (found_find_active l) | exact (found_find_active [])]).
Qed.

Lemma onInsert_flag {E} (H : Handler E) w e row :
  let s := panic (world (run H (onInsert row) w e)) in
  hasActiveAlerts s = true
  /\ (or_else (row_status row) "pending" = "pending"
      \/ or_else (row_status row) "pending" = "active" ->
      alerts_consistent s).
Proof.
  unfold onInsert. rewrite run_bind.
  destruct (run_normalize H row w e) as (a & e1 & ev1 & -> & _ & Hst).
  unfold and_then, after; cbn. split; [done|]. intros Hact.
  assert (active_status a) as Ha.
  { unfold active_status. rewrite Hst. destruct Hact as [-> | ->]; auto. }
  split; (split; [intros _|done]); exists a; (split; [by left | done]).
Qed.

(** The UPDATE handler sets the flag to [true] whatever the list holds. *)
Lemma onUpdate_sets_flag {E} (H : Handler E) w e row :
  hasActiveAlerts (panic (world (run H (onUpdate row) w e))) = true.
Proof.
  unfold onUpdate. rewrite run_bind.
  destruct (run_normalize H row w e) as (a & e1 & ev1 & -> & _).
  reflexivity.
Qed.

(** C4, as amended.  After the initial Supabase fetch (when the query
    returns without error and the provider is still mounted) and after the
    loading of local-mode alerts, [hasActiveAlerts] is true if and only if
    some alert of the list has status ['pending'] or ['active'], and both
    lists hold the loaded alerts.  After a realtime INSERT event the flag is
    true, which agrees with the list whenever the status of the inserted
    row is missing, ['pending'] or ['active'].  Nothing is stated about
    UPDATE events. *)
Theorem hasActiveAlerts_after_loading_and_insert {E} (H : Handler E) (w : World) (e : E) :
  (forall r e',
      on_call H SupabaseSelectAlerts e = (Resolved r, e') ->
      error r = None ->
      alerts_consistent (panic (world (run H (fetchInitialAlerts true) w e))))
  /\ (forall l,
        localStorage (window w) !! "local_sos_alerts" = Some (StoredAlerts l)
        \/ (localStorage (window w) !! "local_sos_alerts" = None /\ l = []) ->
        let s := panic (world (run H loadLocalAlerts w e)) in
        panicHistory s = l /\ realtimeAlerts s = l /\ alerts_consistent s)
  /\ (forall row,
        let s := panic (world (run H (onInsert row) w e)) in
        hasActiveAlerts s = true
        /\ (or_else (row_status row) "pending" = "pending"
            \/ or_else (row_status row) "pending" = "active" ->
            alerts_consistent s)).
Proof.
  split; [|split].
  - intros r e'. apply fetchInitialAlerts_consistent.
  - intros l. apply loadLocalAlerts_consistent.
  - intros row. apply onInsert_flag.
Qed.

Lemma hasActiveAlerts_after_loading_and_insert_witness :
  alerts_consistent
    (panic (world (run (scripted services_up) (fetchInitialAlerts true) fresh_world 0)))
  /\ alerts_consistent
       (panic (world (run (scripted services_up) loadLocalAlerts fresh_world 0)))
  /\ alerts_consistent
       (panic (world (run (scripted services_up) (onInsert (sample_row "42" None))
                          fresh_world 0))).
Proof.
  destruct (hasActiveAlerts_after_loading_and_insert (scripted services_up) fresh_world 0)
    as (Hfetch & Hlocal & Hinsert).
  split; [|split].
  - apply (Hfetch (supa_ok []) 0); reflexivity.
  - apply (Hlocal []). right. split; reflexivity.
  - apply (Hinsert (sample_row "42" None)). left. reflexivity.
Defined.

(** C4, as stated, fails.  An INSERT event that delivers a row whose status
    is ['resolved'] leaves the flag true over a list without any pending or
    active alert; so does an UPDATE event that resolves the only pending
    alert of a consistent state. *)
Lemma hasActiveAlerts_inconsistent_after_realtime_event :
  ~ alerts_consistent
      (panic (world (run (scripted services_up)
                         (onInsert (sample_row "42" (Some "resolved"))) fresh_world 0)))
  /\ alerts_consistent (panic one_pending_world)
  /\ ~ alerts_consistent
         (panic (world (run (scripted services_up)
                            (onUpdate (sample_row "41" (Some "resolved")))
                            one_pending_world 0))).
Proof.
  split; [|split].
  - intros [[Hflag _] _]. vm_compute in Hflag.
    destruct (Hflag eq_refl) as (a & [<-|[]] & [Hs|Hs]); discriminate Hs.
  - split; (split; [intros _ | reflexivity]);
      (eexists; split; [left; reflexivity | left; reflexivity]).
  - intros [[Hflag _] _]. vm_compute in Hflag.
    destruct (Hflag eq_refl) as (a & [<-|[]] & [Hs|Hs]); discriminate Hs.
Qed.
(* ================================================================== *)
(** * The recording lasts a fixed time *)
(* ================================================================== *)

Lemma deliver_snoc h evs ev r : deliver h (evs ++ [ev])%list r = h ev (deliver h evs r).
Proof. unfold deliver. by rewrite fold_left_app. Qed.

Lemma deliver_app h evs evs' r :
  deliver h (evs ++ evs')%list r = deliver h evs' (deliver h evs r).
Proof. unfold deliver. by rewrite fold_left_app. Qed.

Lemma received_app evs evs' : received (evs ++ evs')%list = (received evs ++ received evs')%list.
Proof.
  induction evs as [|ev evs IH]; [done|]. destruct ev; cbn; by rewrite ?IH.
Qed.

(** Setting up the recorder either rejects the promise at once, with
    nothing armed, or starts the recorder and arms the one timer. *)
Lemma start_recording_cases v m now stream d :
  let r0 := start_recording v m now stream d in
  (exists mime x, r0 = rejected_at_setup now mime x)
  \/ (exists mime, r0 = armed now mime (durationMs_or_default d)).
Proof.
  destruct v; cbn [start_recording]; unfold recordStreamToBlob, recordStreamToBlob_v1.
  - destruct (videoTracks stream) as [|videoTrack ?]; [left; eauto|].
    destruct (negb _); [left; eauto|]. lazy zeta.
    destruct (negb _); [left; eauto|].
    destruct (start_error m); [left|right]; eauto.
  - lazy zeta. destruct (start_error m); [left|right]; eauto.
Qed.

Lemma start_recording_armed v m now stream d :
  set_up_succeeds v m stream ->
  start_recording v m now stream d
  = armed now (recorded_type v m) (durationMs_or_default d).
Proof.
  destruct v; cbn [start_recording set_up_succeeds recorded_type];
    unfold recordStreamToBlob, recordStreamToBlob_v1.
  - intros ((videoTrack & rest & -> & ->) & -> & ->). reflexivity.
  - intros ->. reflexivity.
Qed.

(** Case analysis on what a handler does. *)
Ltac handler_cases :=
  cbn [handler_of handle handle_v1];
  unfold timer_fires, timeout_callback;
  repeat match goal with
         | |- context [if ?c then _ else _] => destruct c eqn:?
         | |- context [match rec_timeout ?r with _ => _ end] =>
             destruct (rec_timeout r) eqn:?
         | |- context [match rec_state ?r with _ => _ end] => destruct (rec_state r) eqn:?
         end.

(** What no handler changes: the number of timers armed, the start time
    and the type of the recording. *)
Lemma handler_keeps v ev r :
  rec_timersArmed (handler_of v ev r) = rec_timersArmed r
  /\ rec_startedAt (handler_of v ev r) = rec_startedAt r
  /\ rec_mimeType (handler_of v ev r) = rec_mimeType r.
Proof. destruct v, ev; handler_cases; cbn; auto. Qed.

Lemma deliver_keeps v evs r :
  rec_timersArmed (deliver (handler_of v) evs r) = rec_timersArmed r
  /\ rec_startedAt (deliver (handler_of v) evs r) = rec_startedAt r
  /\ rec_mimeType (deliver (handler_of v) evs r) = rec_mimeType r.
Proof.
  induction evs as [|ev evs IH] using rev_ind; [done|].
  rewrite deliver_snoc. destruct (handler_keeps v ev (deliver (handler_of v) evs r))
    as (-> & -> & ->). exact IH.
Qed.

(** The timer is the one armed at the set-up, and this code stops the
    recorder only when that timer fires, which is not before its due
    time. *)
Lemma handler_stop_time v ev r due :
  (rec_timeout r = None \/ rec_timeout r = Some due) ->
  (forall t, rec_stopCalledAt r = Some t -> due <= t) ->
  (rec_timeout (handler_of v ev r) = None \/ rec_timeout (handler_of v ev r) = Some due)
  /\ (forall t, rec_stopCalledAt (handler_of v ev r) = Some t -> due <= t).
Proof.
  intros Ht Hs.
  destruct v, ev; handler_cases; cbn; auto.
  all: repeat match goal with Hr : rec_timeout _ = _ |- _ => rewrite Hr in * end.
  all: try (split; [exact Ht | exact Hs]).
  all: split; [by left|]; intros t [= <-].
  all: destruct Ht as [Ht | Ht]; [congruence|].
  all: injection Ht as ->.
  all: match goal with Hc : (_ <? _) = false |- _ => apply Z.ltb_ge in Hc; exact Hc end.
Qed.

Lemma deliver_stop_time v evs r due :
  (rec_timeout r = None \/ rec_timeout r = Some due) ->
  (forall t, rec_stopCalledAt r = Some t -> due <= t) ->
  (rec_timeout (deliver (handler_of v) evs r) = None
   \/ rec_timeout (deliver (handler_of v) evs r) = Some due)
  /\ (forall t, rec_stopCalledAt (deliver (handler_of v) evs r) = Some t -> due <= t).
Proof.
  intros Ht Hs. induction evs as [|ev evs IH] using rev_ind; [done|].
  rewrite deliver_snoc. destruct IH as [IHt IHs]. by apply handler_stop_time.
Qed.

(** Without a pending timer this code never stops the recorder. *)
Lemma handler_never_stopped v ev r :
  rec_timeout r = None -> rec_stopCalledAt r = None ->
  rec_timeout (handler_of v ev r) = None /\ rec_stopCalledAt (handler_of v ev r) = None.
Proof.
  intros Ht Hs. destruct v, ev; handler_cases; cbn; auto; congruence.
Qed.

Lemma deliver_never_stopped v evs r :
  rec_timeout r = None -> rec_stopCalledAt r = None ->
  rec_timeout (deliver (handler_of v) evs r) = None
  /\ rec_stopCalledAt (deliver (handler_of v) evs r) = None.
Proof.
  intros Ht Hs. induction evs as [|ev evs IH] using rev_ind; [done|].
  rewrite deliver_snoc. destruct IH as [IHt IHs]. by apply handler_never_stopped.
Qed.

(** A settled promise stays as it is. *)
Lemma handler_settled v ev r :
  rec_promise r <> Pending -> rec_promise (handler_of v ev r) = rec_promise r.
Proof.
  intros Hp. destruct v, ev; handler_cases; cbn; auto.
  all: by destruct (rec_promise r).
Qed.

Lemma deliver_settled v evs r :
  rec_promise r <> Pending -> rec_promise (deliver (handler_of v) evs r) = rec_promise r.
Proof.
  intros Hp. induction evs as [|ev evs IH] using rev_ind; [done|].
  rewrite deliver_snoc, handler_settled; [done|]. by rewrite IH.
Qed.

(** Only the [stop] and [error] events settle the promise. *)
Lemma deliver_pending v evs r :
  rec_promise r = Pending ->
  forallb not_settling evs = true ->
  rec_promise (deliver (handler_of v) evs r) = Pending.
Proof.
  intros Hp. induction evs as [|ev evs IH] using rev_ind; [done|].
  rewrite forallb_app. intros [Hevs Hev]%andb_prop. cbn in Hev.
  rewrite deliver_snoc. specialize (IH Hevs).
  destruct v, ev; try done; handler_cases; cbn; auto.
Qed.

Lemma bytes_of_nonempty (l : list Blob) :
  concat (map blob_bytes (List.filter (fun d => 0 <? blob_size d) l))
  = concat (map blob_bytes l).
Proof.
  induction l as [|d l IH]; [done|]. cbn.
  destruct (0 <? blob_size d) eqn:Hd; cbn; rewrite IH; [done|].
  unfold blob_size in Hd. destruct (blob_bytes d); [done|].
    apply Z.ltb_ge in Hd. cbn [length] in Hd. lia.
Qed.

(** While the promise is pending no [stop] event has come, and [chunks]
    holds the bytes received so far. *)
Lemma pending_chunks v evs r :
  rec_promise (deliver (handler_of v) evs r) = Pending ->
  ~ In OnStop evs
  /\ concat (map blob_bytes (rec_chunks (deliver (handler_of v) evs r)))
     = (concat (map blob_bytes (rec_chunks r)) ++ concat (map blob_bytes (received evs)))%list.
Proof.
  induction evs as [|ev evs IH] using rev_ind.
  { intros _. split; [by intros []|]. cbn. by rewrite app_nil_r. }
  rewrite deliver_snoc. intros Hp.
  assert (rec_promise (deliver (handler_of v) evs r) = Pending) as Hq.
  { destruct (rec_promise (deliver (handler_of v) evs r)) eqn:Hq; [done| |];
      rewrite handler_settled in Hp by (rewrite Hq; done); congruence. }
  destruct (IH Hq) as [Hno Hch]. rewrite received_app, in_app_iff.
  set (r' := deliver (handler_of v) evs r) in *.
  destruct v, ev; cbn [handler_of handle handle_v1 received In] in *.
  all: try (split; [intros [?|[?|[]]]; done|]).
  all: try (revert Hp; unfold settle_promise;
            repeat match goal with
                   | |- context [if ?c then _ else _] => destruct c
                   end; cbn; rewrite Hq; done).
  all: unfold timer_fires, timeout_callback;
    repeat match goal with
           | |- context [if ?c then _ else _] => destruct c eqn:?
           | |- context [match rec_timeout ?r with _ => _ end] =>
               destruct (rec_timeout r) eqn:?
           | |- context [match rec_state ?r with _ => _ end] => destruct (rec_state r) eqn:?
           end;
    cbn [rec_chunks push_chunk mark_started mark_stop_called drop_timeout clock_reaches
         map concat];
    rewrite ?map_app, ?concat_app, ?Hch, ?app_nil_r; cbn [map concat];
    rewrite ?app_nil_r, <- ?app_assoc; try done.
  unfold blob_size in *. destruct (blob_bytes d); [by rewrite !app_nil_r|].
  match goal with Hd : (0 <? _) = false |- _ => apply Z.ltb_ge in Hd; cbn [length] in Hd; lia end.
Qed.

(** The promise is fulfilled by the first [stop] event, with the bytes
    received until then. *)
Lemma fulfilled_after_stop v evs r b :
  rec_promise r = Pending ->
  rec_chunks r = [] ->
  rec_promise (deliver (handler_of v) evs r) = Fulfilled b ->
  exists pre post,
    evs = (pre ++ OnStop :: post)%list
    /\ ~ In OnStop pre
    /\ blob_bytes b = concat (map blob_bytes (received pre)).
Proof.
  intros Hp0 Hc0. induction evs as [|ev evs IH] using rev_ind.
  { cbn. congruence. }
  rewrite deliver_snoc. intros Hb.
  destruct (rec_promise (deliver (handler_of v) evs r)) as [|b'|x] eqn:Hq.
  - destruct (pending_chunks v evs r Hq) as [Hno Hch]. rewrite Hc0 in Hch. cbn in Hch.
    set (r' := deliver (handler_of v) evs r) in *.
    assert (ev = OnStop) as ->.
    { destruct v, ev; cbn [handler_of handle handle_v1] in Hb; try done.
      all: revert Hb; unfold timer_fires, timeout_callback, settle_promise;
        repeat match goal with
               | |- context [if ?c then _ else _] => destruct c
               | |- context [match rec_timeout ?r with _ => _ end] => destruct (rec_timeout r)
               | |- context [match rec_state ?r with _ => _ end] => destruct (rec_state r)
               end; cbn; rewrite ?Hq; done. }
    exists evs, []. split; [done|]. split; [done|].
    destruct v; cbn [handler_of handle handle_v1] in Hb; revert Hb.
    + cbn [drop_timeout set_state rec_chunks rec_mimeType].
      destruct (_ =? 0); unfold settle_promise; cbn; rewrite Hq; [done|].
      intros [= <-]. cbn. by rewrite Hch.
    + unfold settle_promise; cbn; rewrite Hq. intros [= <-]. cbn.
      by rewrite Hch.
  - rewrite handler_settled in Hb by (rewrite Hq; done). rewrite Hq in Hb.
    injection Hb as ->. destruct (IH eq_refl) as (pre & post & -> & Hrest).
    exists pre, (post ++ [ev])%list. split; [|exact Hrest].
    by rewrite <- app_assoc.
  - rewrite handler_settled in Hb by (rewrite Hq; done). congruence.
Qed.

(** While the timer is not due the recorder records, the timer stays
    armed and the clock has not reached the due time, unless the due time
    is the time of the set-up. *)
Lemma recording_before_due v pre now mime dur :
  let due := now + timer_delay_of dur in
  forallb (before_due due) pre = true ->
  let r := deliver (handler_of v) pre (armed now mime dur) in
  rec_state r = Recording /\ rec_timeout r = Some due
  /\ rec_promise r = Pending /\ rec_stopCalledAt r = None
  /\ rec_clock r <= due.
Proof.
  intros due. induction pre as [|ev pre IH] using rev_ind.
  { intros _. unfold deliver.
    cbn [fold_left armed rec_state rec_timeout rec_promise rec_stopCalledAt rec_clock].
    subst due. unfold timer_delay_of. repeat split; lia. }
  rewrite forallb_app. intros [Hpre Hev]%andb_prop. cbn in Hev. lazy zeta.
  rewrite deliver_snoc. specialize (IH Hpre). lazy zeta in IH.
  destruct v, ev; try done; cbn [handler_of handle handle_v1];
    repeat match goal with
           | |- context [if ?c then _ else _] => destruct c
           end; cbn; try exact IH.
  all: destruct IH as (? & ? & ? & ? & ?); repeat split; try done.
  all: rewrite andb_true_r in Hev; cbn [before_due] in Hev; apply Z.ltb_lt in Hev.
  all: cbn [handler_of] in *; lia.
Qed.

Lemma while_recording_before_due due pre :
  forallb while_recording pre = true -> forallb (before_due due) pre = true.
Proof.
  induction pre as [|ev pre IH]; [done|]. cbn [forallb].
  intros [Hev Hpre]%andb_prop. rewrite (IH Hpre), andb_true_r. by destruct ev.
Qed.

(** While only [start] and data events come, the recorder records and the
    timer stays armed. *)
Lemma still_recording v pre now mime dur :
  forallb while_recording pre = true ->
  let r := deliver (handler_of v) pre (armed now mime dur) in
  rec_state r = Recording /\ rec_timeout r = Some (now + timer_delay_of dur)
  /\ rec_promise r = Pending /\ rec_stopCalledAt r = None.
Proof.
  intros Hpre r.
  destruct (recording_before_due v pre now mime dur
              (while_recording_before_due _ pre Hpre)) as (? & ? & ? & ? & _).
  done.
Qed.

(** Between the call of [stop()] and the [stop] event nothing changes but
    the chunks and the clock. *)
Lemma stopping v post r t :
  forallb while_stopping post = true ->
  rec_state r = Inactive -> rec_timeout r = None -> rec_promise r = Pending ->
  rec_stopCalledAt r = Some t ->
  let r' := deliver (handler_of v) post r in
  rec_state r' = Inactive /\ rec_timeout r' = None /\ rec_promise r' = Pending
  /\ rec_stopCalledAt r' = Some t.
Proof.
  intros Hpost Hst Ht Hp Hs. induction post as [|ev post IH] using rev_ind; [done|].
  revert Hpost. rewrite forallb_app. intros [Hpost Hev]%andb_prop. cbn in Hev. lazy zeta.
  rewrite deliver_snoc. specialize (IH Hpost). lazy zeta in IH.
  destruct v, ev; try done; cbn [handler_of handle handle_v1];
    repeat match goal with
           | |- context [if ?c then _ else _] => destruct c
           end; cbn; exact IH.
Qed.

(** The chunks that the first copy keeps: all of them. *)
Lemma chunks_first_version evs r :
  forallb not_settling evs = true ->
  rec_chunks (deliver handle_v1 evs r) = (rec_chunks r ++ received evs)%list.
Proof.
  induction evs as [|ev evs IH] using rev_ind; [by rewrite app_nil_r|].
  rewrite forallb_app. intros [Hevs Hev]%andb_prop. cbn in Hev.
  rewrite deliver_snoc, received_app. specialize (IH Hevs).
  destruct ev; try done; cbn [handle_v1 received push_chunk rec_chunks clock_reaches].
  - by rewrite IH, app_nil_r.
  - by rewrite IH, app_assoc.
  - unfold timer_fires, timeout_callback.
    repeat match goal with
           | |- context [if ?c then _ else _] => destruct c
           | |- context [match rec_timeout ?r with _ => _ end] => destruct (rec_timeout r)
           | |- context [match rec_state ?r with _ => _ end] => destruct (rec_state r)
           end; cbn; by rewrite IH, app_nil_r.
  - by rewrite IH, app_nil_r.
Qed.

Lemma before_due_not_settling due evs :
  forallb (before_due due) evs = true -> forallb not_settling evs = true.
Proof.
  induction evs as [|ev evs IH]; [done|]. cbn [forallb].
  intros [Hev Hevs]%andb_prop. rewrite (IH Hevs), andb_true_r. by destruct ev.
Qed.

Lemma while_stopping_not_settling evs :
  forallb while_stopping evs = true -> forallb not_settling evs = true.
Proof.
  induction evs as [|ev evs IH]; [done|]. cbn [forallb].
  intros [Hev Hevs]%andb_prop. rewrite (IH Hevs), andb_true_r. by destruct ev.
Qed.

(** What the [stop] event makes of a pending promise. *)
Lemma settled_at_stop v r :
  rec_promise r = Pending ->
  let r' := handler_of v OnStop r in
  rec_stopCalledAt r' = rec_stopCalledAt r
  /\ rec_timeout r' = None
  /\ match v with
     | CurrentVersion =>
         if blob_size (new_Blob (rec_chunks r) (rec_mimeType r)) =? 0
         then rec_promise r' = Failed (new_Error "Video recording produced empty blob")
         else rec_promise r' = Fulfilled (new_Blob (rec_chunks r) (rec_mimeType r))
     | FirstVersion => rec_promise r' = Fulfilled (new_Blob (rec_chunks r) "video/mp4")
     end.
Proof.
  intros Hp. destruct v; cbn [handler_of handle handle_v1 drop_timeout set_state
                              rec_chunks rec_mimeType].
  - destruct (_ =? 0); unfold settle_promise; cbn; by rewrite Hp.
  - unfold settle_promise; cbn; by rewrite Hp.
Qed.

Lemma timer_delay_in_range d : 0 <= d < 2147483648 -> timer_delay_of d = d.
Proof.
  intros Hd. unfold timer_delay_of, to_int32.
  rewrite Z.mod_small by lia. lia.
Qed.

(** C5, as amended.  [activatePanic] asks for a recording of 15000 ms:
    this is the first call of its Supabase attempt.  In both copies of
    [recordStreamToBlob], when nothing makes the set-up throw, the recorder
    is started and one timer is armed with the delay [durationMs] (15000
    when no duration is given) as the browser reads it, which is
    [durationMs] itself between 0 and 2^31 - 1; no handler arms another
    timer.  This code calls [stop()] from the callback of that timer only:
    never before the due time, and at the time [t] at which the browser
    fires the timer, the recorder still recording; this is exactly
    [durationMs] ms after the start when the timer fires on time.  The
    promise stays pending until a [stop] or an [error] event.  At the [stop]
    event that follows, the first copy resolves with a ['video/mp4'] blob of
    all the chunks received; the current copy resolves with a blob of the
    chosen type made of the bytes received, and rejects when there is no
    byte. *)
Theorem recordStreamToBlob_fixed_duration {E} (H : Handler E) s userId w e
    v m now stream durationMs :
  set_up_succeeds v m stream ->
  let requested := run H (uploadStreamToSupabase (Some s) userId panicUploadOptions) w e in
  let duration := default 15000 durationMs in
  let due := now + timer_delay_of duration in
  let r0 := start_recording v m now stream durationMs in
  (exists o rest, events requested = Called (RecordStreamToBlob s 15000) o :: rest)
  /\ (rec_state r0 = Recording /\ rec_startedAt r0 = now
      /\ rec_timersArmed r0 = 1%nat /\ rec_timeout r0 = Some due
      /\ rec_promise r0 = Pending /\ rec_stopCalledAt r0 = None)
  /\ (0 <= duration < 2147483648 -> due = now + duration)
  /\ (forall evs,
        let r := deliver (handler_of v) evs r0 in
        rec_timersArmed r = 1%nat
        /\ (forall t, rec_stopCalledAt r = Some t -> due <= t)
        /\ (forallb not_settling evs = true -> rec_promise r = Pending)
        /\ forall b,
             rec_promise r = Fulfilled b ->
             exists pre post,
               evs = (pre ++ OnStop :: post)%list
               /\ ~ In OnStop pre
               /\ blob_bytes b = concat (map blob_bytes (received pre)))
  /\ (forall pre t post,
        forallb (before_due due) pre = true ->
        due <= t ->
        forallb while_stopping post = true ->
        let r1 := deliver (handler_of v) (pre ++ [ClockReaches t; TimeoutFires]) r0 in
        let r2 := deliver (handler_of v) (post ++ [OnStop]) r1 in
        let chunks := received (pre ++ post) in
        (rec_stopCalledAt r1 = Some t /\ rec_state r1 = Inactive
         /\ rec_timeout r1 = None /\ rec_promise r1 = Pending)
        /\ rec_stopCalledAt r2 = Some t
        /\ match v with
           | FirstVersion => rec_promise r2 = Fulfilled (new_Blob chunks "video/mp4")
           | CurrentVersion =>
               if blob_size (new_Blob chunks (choose_mimeType m)) =? 0
               then rec_promise r2
                    = Failed (new_Error "Video recording produced empty blob")
               else exists b,
                      rec_promise r2 = Fulfilled b
                      /\ blob_bytes b = concat (map blob_bytes chunks)
                      /\ blob_type b = choose_mimeType m
           end).
Proof.
  intros Hset requested duration due r0.
  split.
  { destruct (run_uploadStreamToSupabase H s userId panicUploadOptions w e)
      as (_ & Hfirst & _). exact Hfirst. }
  pose proof (start_recording_armed v m now stream durationMs Hset) as Hr0.
  fold r0 in Hr0. unfold durationMs_or_default in Hr0. fold duration in Hr0.
  split; [by rewrite Hr0|].
  split; [intros Hd; subst due; by rewrite timer_delay_in_range|].
  split.
  { intros evs r. subst r.
    destruct (deliver_keeps v evs r0) as (-> & _ & _).
    destruct (deliver_stop_time v evs r0 due) as (_ & Hstop);
      [rewrite Hr0; by right | rewrite Hr0; done |].
    split; [by rewrite Hr0|]. split; [exact Hstop|]. split.
    - apply deliver_pending. by rewrite Hr0.
    - intros b Hb.
      apply (fulfilled_after_stop v evs r0 b); [by rewrite Hr0 | by rewrite Hr0 | exact Hb]. }
  intros pre t post Hpre Ht Hpost r1 r2 chunks.
  destruct (recording_before_due v pre now (recorded_type v m) duration Hpre)
    as (Hst & Hto & Hp & Hs & Hclock).
  fold due in Hto, Hclock. rewrite <- Hr0 in Hst, Hto, Hp, Hs, Hclock.
  assert (rec_stopCalledAt r1 = Some t /\ rec_state r1 = Inactive
          /\ rec_timeout r1 = None /\ rec_promise r1 = Pending) as Hr1.
  { subst r1. rewrite deliver_app.
    set (r' := deliver (handler_of v) pre r0) in *.
    assert (Z.max (rec_clock r') t = t) as Hmax by lia.
    assert ((t <? due) = false) as Hdue by (apply Z.ltb_ge; lia).
    destruct v; unfold deliver; cbn [fold_left handler_of handle handle_v1];
      unfold timer_fires, timeout_callback;
      cbn [clock_reaches rec_timeout rec_clock rec_state drop_timeout];
      rewrite Hto, Hmax, Hdue, Hst; cbn; by rewrite Hp. }
  split; [exact Hr1|]. destruct Hr1 as (Hs1 & Hst1 & Hto1 & Hp1).
  subst r2. rewrite deliver_snoc.
  destruct (stopping v post r1 t Hpost Hst1 Hto1 Hp1 Hs1) as (_ & _ & Hp2 & Hs2).
  set (R := deliver (handler_of v) post r1) in *.
  destruct (settled_at_stop v R Hp2) as (Hs3 & _ & Hsettled).
  split; [by rewrite Hs3|].
  assert (forallb not_settling (pre ++ [ClockReaches t; TimeoutFires] ++ post) = true)
    as Hquiet.
  { rewrite !forallb_app, (before_due_not_settling due pre Hpre),
      (while_stopping_not_settling post Hpost). done. }
  assert (R = deliver (handler_of v) (pre ++ [ClockReaches t; TimeoutFires] ++ post)
                (armed now (recorded_type v m) duration)) as HR.
  { subst R r1. by rewrite <- Hr0, app_assoc, (deliver_app _ (pre ++ _)). }
  assert (received (pre ++ [ClockReaches t; TimeoutFires] ++ post) = chunks) as Hrec.
  { subst chunks. rewrite !received_app. reflexivity. }
  assert (rec_mimeType R = recorded_type v m) as Hty.
  { rewrite HR. by destruct (deliver_keeps v (pre ++ [ClockReaches t; TimeoutFires] ++ post)
                               (armed now (recorded_type v m) duration)) as (_ & _ & ->). }
  assert (concat (map blob_bytes (rec_chunks R)) = concat (map blob_bytes chunks)) as Hbytes.
  { rewrite HR in Hp2 |- *.
    destruct (pending_chunks v _ _ Hp2) as [_ ->]. by rewrite Hrec. }
  assert (v = FirstVersion -> rec_chunks R = chunks) as Hchunks.
  { intros ->. rewrite HR. cbn [handler_of].
    rewrite (chunks_first_version _ _ Hquiet), Hrec. reflexivity. }
  clearbody R. clear HR.
  destruct v; cbn [recorded_type handler_of] in *.
  - rewrite Hty in Hsettled.
    unfold blob_size, new_Blob in *. cbn [blob_bytes] in *. rewrite Hbytes in Hsettled.
    destruct (_ =? 0); [exact Hsettled|].
    eexists. split; [exact Hsettled|]. done.
  - by rewrite (Hchunks eq_refl) in Hsettled.
Qed.

Lemma recordStreamToBlob_fixed_duration_witness :
  let r0 := start_recording CurrentVersion every_type_supported 1000 sample_stream None in
  let r1 := deliver handle ([OnStart; OnDataAvailable sample_chunk; ClockReaches 9000]
                            ++ [ClockReaches 16000; TimeoutFires]) r0 in
  let r2 := deliver handle ([OnDataAvailable sample_chunk] ++ [OnStop]) r1 in
  (rec_state r0 = Recording /\ rec_startedAt r0 = 1000
   /\ rec_timersArmed r0 = 1%nat /\ rec_timeout r0 = Some 16000
   /\ rec_promise r0 = Pending /\ rec_stopCalledAt r0 = None)
  /\ (rec_stopCalledAt r1 = Some 16000 /\ rec_state r1 = Inactive
      /\ rec_timeout r1 = None /\ rec_promise r1 = Pending)
  /\ exists b,
       rec_promise r2 = Fulfilled b
       /\ blob_bytes b = (blob_bytes sample_chunk ++ blob_bytes sample_chunk)%list
       /\ blob_type b = "video/webm;codecs=vp8,opus".
Proof.
  assert (set_up_succeeds CurrentVersion every_type_supported sample_stream) as Hset.
  { split; [|split; reflexivity]. eexists _, _. split; reflexivity. }
  destruct (recordStreamToBlob_fixed_duration (scripted services_up) sample_stream "uid-1"
              fresh_world 0 CurrentVersion every_type_supported 1000 sample_stream None Hset)
    as (_ & Harmed & _ & _ & Hfires).
  split; [exact Harmed|].
  destruct (Hfires [OnStart; OnDataAvailable sample_chunk; ClockReaches 9000] 16000
              [OnDataAvailable sample_chunk]) as (Hstop & _ & Hblob).
  - reflexivity.
  - vm_compute. discriminate.
  - reflexivity.
  - split; [exact Hstop|]. exact Hblob.
Defined.

(** C5, as stated, fails on three counts.  A stream whose first video
    track has ended is refused before any recorder is made: nothing is
    started and no timer is armed.  A recording during which no byte
    arrives ends with the promise rejected, not resolved.  And the stop is
    not always [durationMs] ms after the start: with the duration -5 the
    timer is due at once and [stop()] is called at the start, not 5 ms
    before it; and a timer that the browser fires 40 ms late stops the
    recorder 15040 ms after the start. *)
Lemma recordStreamToBlob_refusals_and_late_stops :
  let ended := {| audioTracks := []; videoTracks := [ {| readyState := "ended" |} ] |} in
  let refused := recordStreamToBlob every_type_supported 1000 ended None in
  let silent := deliver handle [OnStart; ClockReaches 16000; TimeoutFires; OnStop]
                  (recordStreamToBlob every_type_supported 1000 sample_stream None) in
  let negative := deliver handle [OnStart; TimeoutFires]
                    (recordStreamToBlob every_type_supported 1000 sample_stream
                       (Some (-5))) in
  let late := deliver handle [OnStart; ClockReaches 16040; TimeoutFires]
                (recordStreamToBlob every_type_supported 1000 sample_stream None) in
  (rec_state refused = Inactive /\ rec_timersArmed refused = 0%nat
   /\ rec_promise refused = Failed (new_Error "Video track not live, state: ended"))
  /\ (rec_stopCalledAt silent = Some 16000
      /\ rec_promise silent = Failed (new_Error "Video recording produced empty blob"))
  /\ (rec_startedAt negative = 1000 /\ rec_stopCalledAt negative = Some 1000)
  /\ (rec_startedAt late = 1000 /\ rec_stopCalledAt late = Some 16040).
Proof. repeat split; vm_compute; reflexivity. Qed.

(* ================================================================== *)
(** * Local mode *)
(* ================================================================== *)

Lemma storage_after_abort (w : World) :
  let w' := with_panic (put_isProcessing false)
              (with_panic (put_isProcessing true) (cleared w)) in
  localStorage (window w') = localStorage (window w)
  /\ panicHistory (panic w') = panicHistory (panic w)
  /\ realtimeAlerts (panic w') = realtimeAlerts (panic w).
Proof. unfold cleared. destruct (panicButtonTimeout (window w)); done. Qed.

(** In local mode, an activation that finds no location, or cannot use
    the stored value as a list, ends in the [catch] block with nothing
    stored. *)
Lemma local_mode_stores_nothing {E} (H : Handler E) ctx message stream w e fu profile :
  signed_in ctx = Some (fu, profile) ->
  isLocalMode fu profile = true ->
  (forall loc, ~ location_found H ctx e loc) \/ stored_alerts_unreadable w ->
  let f := run H (activatePanic ctx message stream) w e in
  localStorage (window (world f)) = localStorage (window w)
  /\ panicHistory (panic (world f)) = panicHistory (panic w)
  /\ realtimeAlerts (panic (world f)) = realtimeAlerts (panic w)
  /\ exists pre x, events f = (pre ++ [Did (Toast (failure_toast x))])%list.
Proof.
  intros Hin Hmode Hno f.
  destruct (activatePanic_outcome H ctx message stream w e fu profile Hin) as [_ Hout].
  lazy zeta in Hout. fold f in Hout.
  set (w1 := with_panic (put_isProcessing true) (cleared w)) in *.
  assert (forall pre x, aborted_with f pre x w1 ->
            localStorage (window (world f)) = localStorage (window w)
            /\ panicHistory (panic (world f)) = panicHistory (panic w)
            /\ realtimeAlerts (panic (world f)) = realtimeAlerts (panic w)
            /\ exists pre x, events f = (pre ++ [Did (Toast (failure_toast x))])%list)
    as Habort.
  { intros pre x (Hw & logs & Hev & _). rewrite Hw. unfold w1.
    destruct (storage_after_abort w) as (-> & -> & ->). repeat (split; [done|]).
    exists (pre ++ logs)%list, x. by rewrite <- app_assoc. }
  destruct (run_acquireLocation H ctx w1 e) as (_ & _ & Hloc). lazy zeta in Hloc.
  destruct (result (run H (acquireLocation ctx) w1 e)) as [currentLocation|x] eqn:Hr1;
    [|eapply Habort; exact Hout].
  destruct (captureVideo_returns H stream (uid fu) w1
              (env (run H (acquireLocation ctx) w1 e)))
    as (vd & e2 & ev2 & Hvideo & _).
  rewrite Hvideo in Hout. cbn [result world env events] in Hout.
  destruct currentLocation as [loc|]; [|eapply Habort; exact Hout].
  rewrite Hmode in Hout.
  destruct Hno as [Hnowhere | Hunreadable].
  { destruct (Hnowhere loc). unfold location_found.
    destruct (ctx_location ctx) as [l0|].
    - left. destruct Hloc as [Hloc _]. congruence.
    - right. split; [done|]. destruct Hloc as (<- & _). done. }
  destruct (run_saveAlertLocally_unreadable H (uid fu)
              (sos_data (uid fu) message (videoUrl vd) loc) vd w1 e2) as [x Hsave].
  { intros l Hl. apply (stored_alerts_unreadable_spec w l Hunreadable).
    unfold stored_alerts_read, local_alerts_are in *. subst w1. unfold cleared in Hl.
    destruct (panicButtonTimeout (window w)); exact Hl. }
  rewrite Hsave in Hout. cbn [result world env events] in Hout.
  eapply Habort; exact Hout.
Qed.

(** C6, as amended.  For every local-mode user ([userProfile.isLocalUser]
    true, or a uid that begins with ['local_']), [activatePanic] never takes
    the Firestore write path: neither [createSOSAlert] nor
    [createNotificationLog] is called.  When the location of the activation
    is known (from the context, or from [getCurrentLocation()]) and the
    value stored under ['local_sos_alerts'] can be read (a list, nothing, or
    the empty text), the alert record is prepended to that list in
    [localStorage], with an id ['local_sos_<timestamp>'] made from a reading
    of the clock, and [panicHistory] and [realtimeAlerts] are set to the new
    list.  When no location is obtained, or the stored value is an object
    or a text in which [JSON.parse] finds no array, nothing is stored, the
    two lists are left as they were and the failure toast is shown. *)
Theorem activatePanic_local_mode {E} (H : Handler E) ctx message stream w e fu profile :
  signed_in ctx = Some (fu, profile) ->
  user_isLocalUser profile = true \/ startsWith (uid fu) "local_" = true ->
  let f := run H (activatePanic ctx message stream) w e in
  forallb (call_event (@not_firestore_call)) (events f) = true
  /\ (forall l loc,
        stored_alerts_read l w ->
        location_found H ctx e loc ->
        exists now timestamp video,
          let record := local_record (sos_data (uid fu) message video loc) now timestamp in
          In (Asked DateNow now) (events f)
          /\ alert_id record = "local_sos_" ++ pretty now
          /\ localStorage (window (world f)) !! "local_sos_alerts"
             = Some (StoredAlerts (record :: l))
          /\ panicHistory (panic (world f)) = record :: l
          /\ realtimeAlerts (panic (world f)) = record :: l)
  /\ ((forall loc, ~ location_found H ctx e loc) \/ stored_alerts_unreadable w ->
      localStorage (window (world f)) = localStorage (window w)
      /\ panicHistory (panic (world f)) = panicHistory (panic w)
      /\ realtimeAlerts (panic (world f)) = realtimeAlerts (panic w)
      /\ exists pre x, events f = (pre ++ [Did (Toast (failure_toast x))])%list).
Proof.
  intros Hin Hlocal f.
  assert (isLocalMode fu profile = true) as Hmode.
  { unfold isLocalMode. destruct Hlocal as [-> | ->]; [done | by rewrite orb_true_r]. }
  split; [|split].
  - apply calls_only_run. by eapply activatePanic_local_calls.
  - intros l loc Hl Hloc.
    destruct (local_mode_saves H ctx message stream w e fu profile l loc Hin Hmode Hl Hloc)
      as (vd & now & timestamp & _ & Hnow & Hstore & Hhist & Hreal & _).
    exists now, timestamp, (videoUrl vd). cbn zeta. auto 10.
  - intros Hno. by eapply local_mode_stores_nothing.
Qed.

Lemma activatePanic_local_mode_witness :
  let f := run (scripted services_up)
               (activatePanic sample_local_ctx (Some "help") (Some sample_stream))
               fresh_world 1700000000000 in
  forallb (call_event (@not_firestore_call)) (events f) = true
  /\ exists now timestamp video,
       let record := local_record (sos_data "local_1700000000000" (Some "help") video
                                            sample_location) now timestamp in
       In (Asked DateNow now) (events f)
       /\ alert_id record = "local_sos_" ++ pretty now
       /\ localStorage (window (world f)) !! "local_sos_alerts"
          = Some (StoredAlerts (record :: []))
       /\ panicHistory (panic (world f)) = record :: []
       /\ realtimeAlerts (panic (world f)) = record :: [].
Proof.
  destruct (activatePanic_local_mode (scripted services_up) sample_local_ctx (Some "help")
              (Some sample_stream) fresh_world 1700000000000
              sample_local_user sample_local_profile eq_refl (or_introl eq_refl))
    as (Hquiet & Hstored & _).
  split; [exact Hquiet|].
  apply (Hstored [] sample_location).
  - left. right. split; reflexivity.
  - left. reflexivity.
Defined.

(** C6, as stated, fails: a local-mode activation does not always store
    the alert.  When the context has no location and
    [getCurrentLocation()] rejects, and likewise when the value stored
    under ['local_sos_alerts'] is not a list, the activation ends in its
    [catch] block: [localStorage], [panicHistory] and [realtimeAlerts] are
    what they were and the failure toast is shown. *)
Lemma activatePanic_local_mode_without_record :
  let f := run (failing (@is_location_call) (scripted services_up))
               (activatePanic sample_local_ctx_nowhere (Some "help") (Some sample_stream))
               fresh_world 1700000000000 in
  let unreadable :=
    with_window (map_localStorage <["local_sos_alerts" := StoredText "{"]>) fresh_world in
  let g := run (scripted services_up)
               (activatePanic sample_local_ctx (Some "help") (Some sample_stream))
               unreadable 1700000000000 in
  (localStorage (window (world f)) !! "local_sos_alerts" = None
   /\ panicHistory (panic (world f)) = []
   /\ realtimeAlerts (panic (world f)) = []
   /\ isActivated (panic (world f)) = false
   /\ last (events f)
      = Some (Did (Toast (failure_toast (new_Error "network request failed")))))
  /\ (localStorage (window (world g)) !! "local_sos_alerts" = Some (StoredText "{")
      /\ panicHistory (panic (world g)) = []
      /\ realtimeAlerts (panic (world g)) = []
      /\ isActivated (panic (world g)) = false
      /\ existsb is_destructive_toast (events g) = true).
Proof. repeat split; vm_compute; reflexivity. Qed.
(* ================================================================== *)
(** * login *)
(* ================================================================== *)

(** The first-login sync inside its [try]/[catch] never throws and leaves
    the client state alone. *)
Lemma run_first_login_sync {E} (H : Handler E) u text w e :
  exists e' evs,
    run H (try_catch (_ ← ensureSupabaseUser u; Ret tt)
             (fun x => console_error text (err_message x))) w e
    = {| result := Resolved tt; world := w; env := e'; events := evs |}.
Proof.
  unfold ensureSupabaseUser. destruct u as [u|]; [|cbn; eauto].
  destruct (negb (truthy (su_user_id u))); [cbn; eauto|].
  destruct (_ || _); [cbn; eauto|].
  answer. answer. destruct o as [[d err]|x]; expose; [|cbn; eauto].
  destruct err as [selectErr|]; expose.
  all: destruct d as [d|]; expose; [cbn; eauto|].
  all: answer; destruct o as [[d' [err|]]|x]; cbn; eauto.
Qed.

Lemma run_signInOrFallback {E} (H : Handler E) p w e :
  let signIn := on_call H SignInAnonymously e in
  match signIn.1 with
  | Resolved userId =>
      exists e' evs,
        run H (signInOrFallback p) w e
        = {| result := Resolved (firebase_profile p userId, false,
                                 Some {| uid := userId; isAnonymous := true;
                                         hasGetIdToken := true |});
             world := w; env := e';
             events := Called SignInAnonymously (Resolved userId) :: evs |}
  | Rejected x =>
      run H (signInOrFallback p) w e
      = {| result := Resolved (local_profile p (on_ask H DateNow signIn.2).1, true, None);
           world := w; env := (on_ask H DateNow signIn.2).2;
           events := [Called SignInAnonymously (Rejected x);
                      Did (Console LogWarn "Firebase Auth failed:" (err_message x));
                      Asked DateNow (on_ask H DateNow signIn.2).1] |}
  end.
Proof.
  lazy zeta. unfold signInOrFallback. expose.
  destruct (on_call H SignInAnonymously e) as [[userId|x] e1]; cbn [fst snd]; expose.
  2: { destruct (on_ask H DateNow e1) as [now e2]. reflexivity. }
  fold (firebase_profile p userId).
  destruct (on_call H (CreateOrUpdateUser userId (firebase_profile p userId)) e1)
    as [[[]|x] e2]; cbn [then_event].
  - rewrite run_try_catch.
    match goal with
    | |- context [run H (bind ?a ?b) w e2] =>
        change (run H (bind a b) w e2) with (run H (a ≫= b) w e2)
    end.
    rewrite run_bind, run_try_catch. cbn [bind].
    destruct (run_first_login_sync H (Some (supabasePayload (firebase_profile p userId)))
                "[Supabase] First-login sync failed (Firebase branch):" w e2)
      as (e3 & evs & Hsync).
    rewrite Hsync. cbn. eauto.
  - cbn. eauto.
Qed.

Lemma validateLogin_valid input :
  valid_login input ->
  validateLogin input
  = Ret (default "" (in_name input), default "" (in_email input),
         default "" (in_phone input)).
Proof.
  intros (Hn & He & Hp & Hemail & Hphone). unfold validateLogin.
  by rewrite Hn, He, Hp, Hemail, Hphone.
Qed.

Lemma read_firebaseUser {A} (v : A) :
  read_identifier scopes_at_success_branch "firebaseUser" v
  = Raise (ReferenceError "firebaseUser is not defined").
Proof. reflexivity. Qed.

Lemma last_two (x : Event) l a b : last (x :: l ++ [a; b]) = Some b.
Proof.
  change (x :: l ++ [a; b])%list with ((x :: l) ++ [a] ++ [b])%list.
  by rewrite app_assoc, last_snoc.
Qed.

(** [login] up to the sign-in, for a valid input: the clock is read three
    times, then the sign-in block runs with [loading] set. *)
Lemma run_login_valid {E} (H : Handler E) input w e t1 e1 t2 e2 t3 e3 :
  valid_login input ->
  on_ask H DateNow e = (t1, e1) ->
  on_ask H DateNow e1 = (t2, e2) ->
  on_ask H DateNow e2 = (t3, e3) ->
  forall signed,
    run H (signInOrFallback (processed_profile input t1 t2 t3))
        (with_auth (put_loading true) w) e3 = signed ->
    run H (login input) w e
    = and_finally
        (or_catch
           (after [Asked DateNow t1; Asked DateNow t2; Asked DateNow t3]
              (and_then signed
                 (fun signed w' e' =>
                    run H
                      (let '(finalUserData, shouldUseFallback, signedIn) := signed in
                       (if shouldUseFallback : bool then
                          localStorage_setItem "safeguard_user_session"
                            (StoredUser finalUserData);;
                          setUser (Some {| uid := user_id finalUserData;
                                           isAnonymous := true;
                                           hasGetIdToken := false |});;
                          setUserProfile (Some finalUserData);;
                          setIsAuthenticated true;;
                          toast "Welcome to SafeGuard!"
                                ("Hello " ++ user_name finalUserData
                                 ++ "! Running in local mode - Firebase needs configuration.")
                                false (Some 6000)
                        else
                          firebaseUser ← read_identifier scopes_at_success_branch
                                           "firebaseUser" signedIn;
                          setUser firebaseUser;;
                          setUserProfile (Some finalUserData);;
                          setIsAuthenticated true;;
                          toast "Welcome to SafeGuard!"
                                ("Hello " ++ user_name finalUserData
                                 ++ "! Your account is connected to Firebase.")
                                false (Some 4000));;
                       try_catch
                         (_ ← ensureSupabaseUser (Some (supabasePayload finalUserData));
                          Ret tt)
                         (fun e =>
                            console_error "[Supabase] Final first-login sync failed:"
                                          (err_message e));;
                       Ret finalUserData) w' e')))
           (fun error w' e' =>
              run H (console_error "Login error:" (err_message error);;
                     toast "Login Failed"
                           (if String.eqb (err_message error) ""
                            then "Please check your information and try again."
                            else err_message error)
                           true (Some 5000);;
                     Raise error) w' e'))
        (fun w' e' => run H (setLoading false) w' e').
Proof.
  intros Hvalid H1 H2 H3 signed Hsigned. unfold login, loginBody.
  rewrite (validateLogin_valid input Hvalid).
  rewrite run_bind. unfold setLoading at 1. rewrite run_modify.
  unfold and_then at 1, after at 1; cbn [result world env events app].
  rewrite run_try_finally, run_try_catch.
  cbn [mbind Proc_bind bind ask]. cbn [run]. rewrite H1. cbn [fst snd].
  cbn [run]. rewrite H2. cbn [run]. rewrite H3.
  fold (processed_profile input t1 t2 t3).
  rewrite run_bind, Hsigned. reflexivity.
Qed.

(** C7.  For an input that passes the three checks, [login] first signs
    in.  When the sign-in is rejected it stores the fallback record, with
    the id ['local_<timestamp>'], under ['safeguard_user_session'], sets
    the user, the profile and [isAuthenticated], and returns the record.
    When the sign-in succeeds, the statement [setUser(firebaseUser.user)]
    reads a name that is declared in another block: [login] shows the
    toast "Login Failed" and throws a [ReferenceError], with the user, the
    profile, [isAuthenticated] and the local storage as they were.  In
    both cases [loading] ends false. *)
Theorem login_valid_input {E} (H : Handler E) input w e :
  valid_login input ->
  let f := run H (login input) w e in
  let c1 := on_ask H DateNow e in
  let c2 := on_ask H DateNow c1.2 in
  let c3 := on_ask H DateNow c2.2 in
  let p := processed_profile input c1.1 c2.1 c3.1 in
  let signIn := on_call H SignInAnonymously c3.2 in
  loading (auth (world f)) = false
  /\ match signIn.1 with
     | Resolved userId =>
         result f = Rejected (ReferenceError "firebaseUser is not defined")
         /\ user (auth (world f)) = user (auth w)
         /\ userProfile (auth (world f)) = userProfile (auth w)
         /\ isAuthenticated (auth (world f)) = isAuthenticated (auth w)
         /\ localStorage (window (world f)) = localStorage (window w)
         /\ last (events f)
            = Some (Did (Toast (login_failed_toast
                                  (ReferenceError "firebaseUser is not defined"))))
     | Rejected x =>
         let now := (on_ask H DateNow signIn.2).1 in
         let profile := local_profile p now in
         result f = Resolved profile
         /\ user_id profile = "local_" ++ pretty now
         /\ localStorage (window (world f)) !! "safeguard_user_session"
            = Some (StoredUser profile)
         /\ user (auth (world f))
            = Some {| uid := user_id profile; isAnonymous := true; hasGetIdToken := false |}
         /\ userProfile (auth (world f)) = Some profile
         /\ isAuthenticated (auth (world f)) = true
     end.
Proof.
  intros Hvalid f. cbv zeta.
  destruct (on_ask H DateNow e) as [t1 e1] eqn:H1. cbn [fst snd].
  destruct (on_ask H DateNow e1) as [t2 e2] eqn:H2. cbn [fst snd].
  destruct (on_ask H DateNow e2) as [t3 e3] eqn:H3. cbn [fst snd].
  set (p := processed_profile input t1 t2 t3).
  pose proof (run_login_valid H input w e t1 e1 t2 e2 t3 e3 Hvalid H1 H2 H3 _ eq_refl)
    as Hf.
  fold f p in Hf. clearbody f.
  pose proof (run_signInOrFallback H p (with_auth (put_loading true) w) e3) as Hsign.
  lazy zeta in Hsign.
  set (signIn := on_call H SignInAnonymously e3) in *.
  destruct signIn as [[userId|x] e4]; cbn [fst snd] in *.
  - destruct Hsign as (e5 & evs & Hsign). rewrite Hsign in Hf.
    cbn [and_then result world env events] in Hf.
    rewrite read_firebaseUser in Hf.
    cbn [run mbind Proc_bind bind] in Hf.
    unfold and_finally, finish, after, or_catch in Hf.
    cbn in Hf. rewrite Hf. cbn [result world env events].
    cbn. rewrite !app_nil_r. repeat (split; [reflexivity|]). apply last_two.
  - destruct (on_ask H DateNow e4) as [now e5]. cbn [fst snd] in Hsign.
    rewrite Hsign in Hf. cbn [and_then result world env events] in Hf.
    rewrite run_bind in Hf.
    match type of Hf with
    | context [and_then (run H ?blk ?w0 e5) _] =>
        let v := eval cbn in (run H blk w0 e5) in
        change (run H blk w0 e5) with v in Hf
    end.
    unfold then_event in Hf. cbn [and_then result world env events] in Hf.
    rewrite run_bind in Hf.
    match type of Hf with
    | context [run H (try_catch (ensureSupabaseUser ?u ≫= _) _) ?w5 e5] =>
        destruct (run_first_login_sync H u "[Supabase] Final first-login sync failed:"
                    w5 e5) as (e6 & evs & Hsync)
    end.
    rewrite Hsync in Hf.
    cbn [and_then result world env events run] in Hf.
    unfold and_finally, finish, after, or_catch in Hf. cbn in Hf.
    rewrite Hf. cbn.
    repeat (split; [reflexivity|]). split; [by rewrite lookup_insert_eq|done].
Qed.

Lemma login_valid_input_witness :
  let f := run (scripted services_up) (login sample_login) fresh_world 0 in
  result f = Rejected (ReferenceError "firebaseUser is not defined")
  /\ isAuthenticated (auth (world f)) = false.
Proof.
  assert (valid_login sample_login) as Hvalid.
  { repeat split; reflexivity. }
  destruct (login_valid_input (scripted services_up) sample_login fresh_world 0 Hvalid)
    as (_ & Hresult & _ & _ & Hauth & _).
  split; [exact Hresult | exact Hauth].
Defined.

(* ================================================================== *)
(** * Google sign-in: PKCE *)
(* ================================================================== *)

(** ** base64url *)

Lemma digits_ok : forallb digit_ok (map Z.of_nat (seq 0 64)) = true.
Proof. vm_compute. reflexivity. Qed.

Lemma digit_ok_spec n :
  0 <= n < 64 ->
  url_char (b64_char n) = b64url_char n /\ Ascii.eqb (b64url_char n) "="%char = false.
Proof.
  intros Hn. pose proof digits_ok as Hall. rewrite forallb_forall in Hall.
  assert (In n (map Z.of_nat (seq 0 64))) as Hin.
  { apply in_map_iff. exists (Z.to_nat n). split; [lia|]. apply in_seq. lia. }
  apply Hall in Hin. unfold digit_ok in Hin. apply andb_prop in Hin as [Heq Hpad].
  apply Ascii.eqb_eq in Heq. split; [exact Heq|]. by apply negb_true_iff.
Qed.

Lemma code_range c : 0 <= code c < 256.
Proof.
  unfold code. pose proof (Ascii.N_ascii_bounded c). lia.
Qed.

Lemma replace_twice c s :
  replace_char "/" "_" (replace_char "+" "-" (String c s))
  = String (url_char c) (replace_char "/" "_" (replace_char "+" "-" s)).
Proof. reflexivity. Qed.

Lemma strip_padding_cons c s :
  Ascii.eqb c "="%char = false ->
  strip_padding (String c s) = String c (strip_padding s).
Proof. intros Hc. cbn. rewrite Hc. by destruct (strip_padding s). Qed.

Ltac digit n :=
  let Hd := fresh "Hd" in let Hp := fresh "Hp" in
  destruct (digit_ok_spec n) as [Hd Hp];
  [ | rewrite Hd, (strip_padding_cons _ _ Hp) ].

Lemma base64UrlEncode_string (fuel : nat) (str : string) :
  (String.length str <= fuel)%nat ->
  strip_padding (replace_char "/" "_" (replace_char "+" "-" (btoa str)))
  = base64url_unpadded str.
Proof.
  revert str. induction fuel as [fuel IH] using lt_wf_ind. intros str Hlen.
  destruct str as [|a [|b [|c rest]]]; [reflexivity| | |].
  - pose proof (code_range a).
    cbn [btoa base64url_unpadded]. rewrite !replace_twice.
    digit (code a / 4); [split; [apply Z.div_pos; lia | apply Z.div_lt_upper_bound; lia]|].
    digit (code a mod 4 * 16); [pose proof (Z.mod_pos_bound (code a) 4); lia|].
    reflexivity.
  - pose proof (code_range a). pose proof (code_range b).
    cbn [btoa base64url_unpadded]. rewrite !replace_twice.
    digit (code a / 4); [split; [apply Z.div_pos; lia | apply Z.div_lt_upper_bound; lia]|].
    digit (code a mod 4 * 16 + code b / 16).
    { pose proof (Z.mod_pos_bound (code a) 4).
      assert (0 <= code b / 16 < 16)
        by (split; [apply Z.div_pos; lia | apply Z.div_lt_upper_bound; lia]). lia. }
    digit (code b mod 16 * 4); [pose proof (Z.mod_pos_bound (code b) 16); lia|].
    reflexivity.
  - pose proof (code_range a). pose proof (code_range b). pose proof (code_range c).
    cbn [btoa base64url_unpadded]. rewrite !replace_twice.
    digit (code a / 4); [split; [apply Z.div_pos; lia | apply Z.div_lt_upper_bound; lia]|].
    digit (code a mod 4 * 16 + code b / 16).
    { pose proof (Z.mod_pos_bound (code a) 4).
      assert (0 <= code b / 16 < 16)
        by (split; [apply Z.div_pos; lia | apply Z.div_lt_upper_bound; lia]). lia. }
    digit (code b mod 16 * 4 + code c / 64).
    { pose proof (Z.mod_pos_bound (code b) 16).
      assert (0 <= code c / 64 < 4)
        by (split; [apply Z.div_pos; lia | apply Z.div_lt_upper_bound; lia]). lia. }
    digit (code c mod 64); [pose proof (Z.mod_pos_bound (code c) 64); lia|].
    cbn [String.length] in Hlen.
    rewrite (IH (String.length rest)); [reflexivity | lia | lia].
Qed.

Lemma base64UrlEncode_spec bytes :
  base64UrlEncode bytes = base64url_unpadded (binary_string bytes).
Proof. unfold base64UrlEncode. by apply (base64UrlEncode_string _ _ (le_n _)). Qed.

(** ** The code verifier *)




(** ** startAuth and the callback *)






(* ================================================================== *)
(** * The button-reset timer *)
(* ================================================================== *)

Lemma single_handle_cleared w : single_handle w -> no_timer (cleared w).
Proof.
  unfold single_handle, no_timer, cleared.
  intros [Hnil | (h & Hh & Ht)].
  - destruct (panicButtonTimeout (window w)) eqn:Hh; world_simpl; rewrite ?Hnil; done.
  - rewrite Hh. world_simpl. rewrite Ht. cbn. split; [|done].
    rewrite decide_False; [done|]. intros Hne. by apply Hne.
Qed.

Lemma no_timer_processing b w : no_timer w -> no_timer (with_panic (put_isProcessing b) w).
Proof. unfold no_timer. by world_simpl. Qed.

Lemma no_timer_single w : no_timer w -> single_handle w.
Proof. intros [Ht _]. by left. Qed.

Lemma no_timer_delayed w : no_timer w -> no_timer (delayed w).
Proof.
  unfold no_timer. intros [Ht Hh]. world_simpl. rewrite Ht, Hh. cbn. split; [|done].
  rewrite decide_False; [done|]. intros Hne. by apply Hne.
Qed.

Lemma single_handle_armed w : no_timer w -> single_handle (button_armed w).
Proof.
  unfold no_timer. intros [Ht Hh]. right. exists (nextTimerId (window w)).
  world_simpl. by rewrite Ht.
Qed.

(** The local save does not touch the timers. *)
Lemma saveAlertLocally_timers {E} (H : Handler E) userId d vd w e :
  no_timer w -> no_timer (world (run H (saveAlertLocally userId d vd) w e)).
Proof.
  intros Hq. destruct (stored_alerts_read_dec w) as [[l Hl] | Hno].
  - destruct (run_saveAlertLocally H userId d vd w e l Hl)
      as (now & e1 & timestamp & e2 & logs & _ & _ & _ & ->).
    unfold no_timer in *. by world_simpl.
  - destruct (run_saveAlertLocally_unreadable H userId d vd w e Hno) as [x ->]. exact Hq.
Qed.

Lemma sendPanicAlertToBackend_timers {E} (H : Handler E) fu payload w e :
  no_timer w -> no_timer (world (run H (sendPanicAlertToBackend fu payload) w e)).
Proof.
  intros Hq. destruct (run_sendPanicAlertToBackend H fu payload w e) as (_ & Hsend).
  lazy zeta in Hsend. destruct (is_development _).
  - destruct Hsend as [_ ->]. by apply no_timer_delayed.
  - by destruct Hsend as [-> _].
Qed.

(** An activation that starts under the discipline ends under it. *)
Lemma activatePanic_single_handle {E} (H : Handler E) ctx message stream w e :
  single_handle w ->
  single_handle (world (run H (activatePanic ctx message stream) w e)).
Proof.
  intros Hw. destruct (signed_in ctx) as [[fu profile]|] eqn:Hin.
  2: { unfold activatePanic. rewrite Hin. exact Hw. }
  destruct (activatePanic_outcome H ctx message stream w e fu profile Hin) as [_ Hout].
  lazy zeta in Hout.
  set (f := run H (activatePanic ctx message stream) w e) in *.
  pose proof (no_timer_processing true _ (single_handle_cleared w Hw)) as Hq.
  set (w1 := with_panic (put_isProcessing true) (cleared w)) in *.
  assert (forall pre x wk, aborted_with f pre x wk -> no_timer wk -> single_handle (world f))
    as Habort.
  { intros pre x wk [-> _] Hk. apply no_timer_single. by apply no_timer_processing. }
  destruct (result (run H (acquireLocation ctx) w1 e)) as [currentLocation|x]; [|eauto].
  destruct (result (run H (captureVideo stream (uid fu)) w1 _)) as [vd|x]; [|done].
  destruct currentLocation as [loc|]; [|eauto].
  set (d := sos_data (uid fu) message (videoUrl vd) loc) in *.
  match type of Hout with
  | context [run H (if _ then _ else _) w1 ?e2] =>
      assert (no_timer (world (run H (if isLocalMode fu profile
                                      then saveAlertLocally (uid fu) d vd
                                      else saveAlertToFirestore (uid fu) message d vd
                                             (Some loc)) w1 e2))) as Hq3
  end.
  { destruct (isLocalMode fu profile).
    - by apply saveAlertLocally_timers.
    - match goal with
      | |- context [run H (saveAlertToFirestore ?u ?m d vd ?l) w1 ?e2] =>
          destruct (run_saveAlertToFirestore H u m d vd l w1 e2) as [-> _]
      end. exact Hq. }
  set (s_save := run H (if isLocalMode fu profile then _ else _) w1 _) in *.
  destruct (result s_save) as [alertId|x]; [|eauto].
  pose proof (sendPanicAlertToBackend_timers H fu {| bp_data := d; bp_alertId := alertId |}
                (world s_save) (env s_save) Hq3) as Hq4.
  set (s_send := run H (sendPanicAlertToBackend fu _) (world s_save) (env s_save)) in *.
  destruct (result s_send) as [[]|x]; [|eauto].
  destruct Hout as [-> _].
  destruct (single_handle_armed _ Hq4) as [Hnil | (h & Hh & Ht)]; [by left|].
  right. exists h. by world_simpl.
Qed.

Lemma clearPanicButtonTimeout_then {E} (H : Handler E) b w e :
  run H (clearPanicButtonTimeout;; setIsActivated b) w e
  = {| result := Resolved tt; world := with_panic (put_isActivated b) (cleared w);
       env := e; events := [] |}.
Proof.
  rewrite run_bind, run_clearPanicButtonTimeout.
  unfold and_then, after; cbn [result world env events]. by rewrite run_setIsActivated.
Qed.

Lemma fireTimer_single_handle {E} (H : Handler E) h w e :
  single_handle w -> single_handle (world (run H (fireTimer h) w e)).
Proof.
  intros Hw. unfold fireTimer. expose.
  destruct Hw as [Hnil | (h0 & Hh & Ht)].
  { rewrite Hnil. cbn. by left. }
  rewrite Ht. cbn [List.find reset_timer timer_id].
  destruct (Pos.eqb_spec h0 h) as [->|Hne]; [|cbn; right; eauto].
  left. cbn. rewrite Ht. cbn. rewrite decide_False; [done|]. intros Hne. by apply Hne.
Qed.

Lemma perform_single_handle {E} (H : Handler E) op w e :
  single_handle w -> single_handle (world (run H (perform op) w e)).
Proof.
  intros Hw. destruct op as [ctx message stream| | |h]; cbn [perform].
  - by apply activatePanic_single_handle.
  - unfold deactivatePanic. rewrite clearPanicButtonTimeout_then. cbn [world].
    apply no_timer_single. pose proof (single_handle_cleared w Hw) as Hq.
    unfold no_timer in *. by world_simpl.
  - unfold resetButtonState. rewrite clearPanicButtonTimeout_then. cbn [world].
    apply no_timer_single. pose proof (single_handle_cleared w Hw) as Hq.
    unfold no_timer in *. by world_simpl.
  - by apply fireTimer_single_handle.
Qed.

Lemma single_handle_pending w : single_handle w -> (length (pending_resets w) <= 1)%nat.
Proof.
  unfold pending_resets. intros [-> | (h & _ & ->)]; cbn; lia.
Qed.

(** C9, amended.  When the operations of the panic flow run one after the
    other (activations included: none starts while another one is
    suspended), then from a state with no pending timer, or only the button
    reset whose handle is in [window.panicButtonTimeout], every state
    reached is of that kind: at most one button-reset timer is pending and
    no other timer is.  [deactivatePanic] and [resetButtonState] leave no
    timer pending and the handle null. *)
Theorem one_reset_timer_between_operations {E} (H : Handler E) ops w e :
  single_handle w ->
  let w' := (perform_all H ops w e).1 in
  single_handle w'
  /\ (length (pending_resets w') <= 1)%nat
  /\ (forall op, op = Deactivate \/ op = ResetButtonState ->
        no_timer (world (run H (perform op) w' (perform_all H ops w e).2))).
Proof.
  intros Hw w'.
  assert (single_handle w') as Hw'.
  { subst w'. revert w e Hw. induction ops as [|op ops IH]; intros w e Hw; [done|].
    cbn [perform_all]. apply IH. by apply perform_single_handle. }
  split; [exact Hw'|]. split; [by apply single_handle_pending|].
  intros op [-> | ->]; cbn [perform]; unfold deactivatePanic, resetButtonState;
    rewrite clearPanicButtonTimeout_then; cbn [world];
    pose proof (single_handle_cleared w' Hw') as Hq;
    unfold no_timer in *; by world_simpl.
Qed.

Lemma one_reset_timer_between_operations_witness :
  let w' := (perform_all (scripted services_up)
               [Activate sample_ctx (Some "help") None; TimerFires 5;
                Activate sample_ctx None None; Deactivate;
                Activate sample_ctx None (Some sample_stream)]
               fresh_world 0).1 in
  single_handle w' /\ (length (pending_resets w') <= 1)%nat.
Proof.
  destruct (one_reset_timer_between_operations (scripted services_up)
              [Activate sample_ctx (Some "help") None; TimerFires 5;
               Activate sample_ctx None None; Deactivate;
               Activate sample_ctx None (Some sample_stream)]
              fresh_world 0) as (Hs & Hp & _).
  - left. reflexivity.
  - split; [exact Hs | exact Hp].
Defined.

(** C9 as stated fails: the reset armed after a success is stored without
    clearing the handle found there.  Two activations that overlap both
    finish with success and leave two button resets pending, of which only
    the second has its handle kept. *)
Lemma overlapping_activations_two_reset_timers :
  single_handle fresh_world
  /\ is_finished overlapping_activations.1.1 = true
  /\ is_finished overlapping_activations.1.2 = true
  /\ pending_resets overlapping_activations.2 = [reset_timer 2; reset_timer 1]
  /\ panicButtonTimeout (window overlapping_activations.2) = Some 2%positive
  /\ ~ single_handle overlapping_activations.2.
Proof.
  split; [by left|]. split; [vm_compute; reflexivity|]. split; [vm_compute; reflexivity|].
  split; [vm_compute; reflexivity|]. split; [vm_compute; reflexivity|].
  intros [Hnil | (h & _ & Ht)]; vm_compute in *; discriminate.
Qed.


(* ================================================================== *)
(** * ensureSupabaseUser *)
(* ================================================================== *)

Lemma ensure_missing_user_id {E} (H : Handler E) w e (user : option SupabaseUser) :
  (user = None \/ exists u, user = Some u /\ truthy (su_user_id u) = false) ->
  let f := run H (ensureSupabaseUser user) w e in
  result f = Rejected (new_Error "user_id is required")
  /\ filter is_call (events f) = [].
Proof.
  intros [->|(u & -> & Hu)]; cbn; [done|]. rewrite Hu. cbn. done.
Qed.

Lemma ensure_missing_field {E} (H : Handler E) w e u :
  truthy (su_user_id u) = true ->
  truthy (su_name u) = false \/ truthy (su_email u) = false \/ truthy (su_phone u) = false ->
  let f := run H (ensureSupabaseUser (Some u)) w e in
  result f = Rejected (new_Error "name, email, phone are required")
  /\ filter is_call (events f) = [].
Proof.
  intros Hid Hf. cbn. rewrite Hid. cbn [negb].
  assert (negb (truthy (su_name u)) || negb (truthy (su_email u))
          || negb (truthy (su_phone u)) = true) as ->.
  { destruct Hf as [-> | [-> | ->]]; cbn; rewrite ?orb_true_r; done. }
  cbn. done.
Qed.

Lemma ensure_valid_run {E} (H : Handler E) w e u :
  valid_user u ->
  let joined := (on_ask H DateNow e).1 in
  let e1 := (on_ask H DateNow e).2 in
  let row := user_row u joined in
  let sel := on_call H (SupabaseSelectUser (ur_user_id row)) e1 in
  let f := run H (ensureSupabaseUser (Some u)) w e in
  world f = w /\
  match sel.1 with
  | Rejected x =>
      result f = Rejected x /\ filter is_insert_user (events f) = []
  | Resolved r =>
      match data r with
      | Some _ =>
          result f = Resolved {| ens_status := "exists"; ens_user_id := ur_user_id row |}
          /\ filter is_insert_user (events f) = []
          /\ env f = sel.2
      | None =>
          let ins := on_call H (SupabaseInsertUser row) sel.2 in
          filter is_insert_user (events f) = [Called (SupabaseInsertUser row) ins.1]
          /\ env f = ins.2
          /\ match ins.1 with
             | Rejected x => result f = Rejected x
             | Resolved i =>
                 match error i with
                 | Some err => result f = Rejected err
                 | None => result f = Resolved {| ens_status := "inserted";
                                                  ens_user_id := ur_user_id row |}
                 end
             end
      end
  end.
Proof.
  intros (Hid & Hn & Hm & Hp). cbn zeta.
  unfold ensureSupabaseUser. rewrite Hid, Hn, Hm, Hp. cbn [negb orb].
  cbn [run mbind Proc_bind bind ask].
  destruct (on_ask H DateNow e) as [joined e1]. cbn [fst snd].
  fold (user_row u joined).
  cbn [run mbind Proc_bind bind call then_event].
  destruct (on_call H (SupabaseSelectUser (ur_user_id (user_row u joined))) e1)
    as [[r|x] e2]; cbn [fst snd].
  2: { cbn. done. }
  destruct r as [d err]. cbn [data error].
  destruct err as [selectErr|]; destruct d as [found|]; cbn; try done.
  all: destruct (on_call H (SupabaseInsertUser (user_row u joined)) e2)
        as [[i|x] e3]; cbn; try done.
  all: destruct i as [di [ierr|]]; cbn; done.
Qed.

Lemma has_row_app user_id rows row :
  ur_user_id row = user_id -> has_row user_id (rows ++ [row]) = true.
Proof.
  intros <-. unfold has_row. induction rows as [|r rows IH]; cbn.
  - by rewrite String.eqb_refl.
  - destruct (String.eqb (ur_user_id r) (ur_user_id row)); [done | apply IH].
Qed.

Lemma ensure_on_users_db w db u :
  valid_user u ->
  let uid := default "" (su_user_id u) in
  let f := run users_db (ensureSupabaseUser (Some u)) w db in
  db_select_faults (env f) = tail (db_select_faults db)
  /\ (db_rows (env f) = db_rows db
      \/ db_rows (env f) = (db_rows db ++ [user_row u (db_clock db)])%list)
  /\ (select_works 0 db -> has_row uid (db_rows db) = true ->
      db_rows (env f) = db_rows db
      /\ result f = Resolved {| ens_status := "exists"; ens_user_id := uid |}).
Proof.
  intros (Hid & Hn & Hm & Hp). cbn zeta.
  unfold ensureSupabaseUser. rewrite Hid, Hn, Hm, Hp. cbn [negb orb].
  cbn [run mbind Proc_bind bind ask on_ask users_db users_db_ask].
  fold (user_row u (db_clock db)).
  cbn [run mbind Proc_bind bind call then_event on_call users_db users_db_call
       user_row ur_user_id].
  unfold db_select, select_works, has_row. cbn [db_select_faults db_rows].
  destruct (db_select_faults db) as [|[fault|] faults]; cbn [tail lookup list_lookup].
  all: destruct (List.find _ (db_rows db)) as [r|]; cbn.
  all: unfold db_insert; cbn.
  all: destruct (db_insert_faults db) as [|[ifault|] ifaults]; cbn.
  all: repeat split; auto; try done.
Qed.

Lemma two_calls_insert_at_most_one w db u u' :
  valid_user u ->
  valid_user u' ->
  su_user_id u' = su_user_id u ->
  select_works 1 db ->
  let f1 := run users_db (ensureSupabaseUser (Some u)) w db in
  let f2 := run users_db (ensureSupabaseUser (Some u')) (world f1) (env f1) in
  (length (db_rows (env f2)) <= S (length (db_rows db)))%nat.
Proof.
  intros Hu Hu' Hsame Hsel. cbn zeta.
  destruct (ensure_on_users_db w db u Hu) as (Hfaults & Hrows & _).
  set (f1 := run users_db (ensureSupabaseUser (Some u)) w db) in *.
  destruct (ensure_on_users_db (world f1) (env f1) u' Hu') as (_ & Hrows2 & Hexists).
  set (f2 := run users_db (ensureSupabaseUser (Some u')) (world f1) (env f1)) in *.
  assert (select_works 0 (env f1)) as Hsel0.
  { unfold select_works in *. rewrite Hfaults.
    destruct (db_select_faults db) as [|o faults]; cbn in *; done. }
  destruct Hrows as [Hsame1 | Hadded].
  - destruct Hrows2 as [-> | ->]; rewrite Hsame1, ?length_app; cbn; lia.
  - destruct (Hexists Hsel0) as [-> _].
    + rewrite Hadded. apply has_row_app. cbn. by rewrite Hsame.
    + rewrite Hadded, length_app. cbn. lia.
Qed.

(** C10, as amended.  [ensureSupabaseUser] throws when [user_id] is
    missing and when one of [name], [email], [phone] is missing, before any
    call.  For a valid argument (its name, email and phone being ASCII text,
    on which trimming and lower case are modelled) it first queries [users]
    by [user_id]; when the query returns a row it returns
    [{status: 'exists'}] and issues no insert; when the query returns no
    row, also when it fails (which is only logged), it issues exactly one
    insert, of a row whose email is lowercased and trimmed and whose role
    defaults to ['citizen'], and returns [{status: 'inserted'}] unless the
    insert reports an error, which it throws.  Against a users table, two
    successive calls with the same [user_id], whatever their other fields,
    insert at most one row provided the existence query of the second call
    does not fail. *)
Theorem ensureSupabaseUser_contract {E} (H : Handler E) (w : World) (e : E)
    (u : SupabaseUser) :
  (truthy (su_user_id u) = false ->
   result (run H (ensureSupabaseUser (Some u)) w e)
   = Rejected (new_Error "user_id is required")
   /\ result (run H (ensureSupabaseUser None) w e)
      = Rejected (new_Error "user_id is required")
   /\ filter is_call (events (run H (ensureSupabaseUser (Some u)) w e)) = [])
  /\ (truthy (su_user_id u) = true ->
      truthy (su_name u) = false \/ truthy (su_email u) = false
      \/ truthy (su_phone u) = false ->
      result (run H (ensureSupabaseUser (Some u)) w e)
      = Rejected (new_Error "name, email, phone are required")
      /\ filter is_call (events (run H (ensureSupabaseUser (Some u)) w e)) = [])
  /\ (valid_user u ->
      ascii_user u ->
      let row := user_row u (on_ask H DateNow e).1 in
      let sel := on_call H (SupabaseSelectUser (ur_user_id row)) (on_ask H DateNow e).2 in
      let f := run H (ensureSupabaseUser (Some u)) w e in
      ur_user_id row = default "" (su_user_id u)
      /\ ur_email row = trim (toLowerCase (default "" (su_email u)))
      /\ ur_role row = or_else (su_role u) "citizen"
      /\ match sel.1 with
         | Rejected x =>
             result f = Rejected x /\ filter is_insert_user (events f) = []
         | Resolved r =>
             match data r with
             | Some _ =>
                 result f = Resolved {| ens_status := "exists";
                                        ens_user_id := ur_user_id row |}
                 /\ filter is_insert_user (events f) = []
             | None =>
                 let ins := on_call H (SupabaseInsertUser row) sel.2 in
                 filter is_insert_user (events f)
                 = [Called (SupabaseInsertUser row) ins.1]
                 /\ match ins.1 with
                    | Rejected x => result f = Rejected x
                    | Resolved i =>
                        match error i with
                        | Some err => result f = Rejected err
                        | None =>
                            result f = Resolved {| ens_status := "inserted";
                                                   ens_user_id := ur_user_id row |}
                        end
                    end
             end
         end)
  /\ (forall (db : UsersDb) (u' : SupabaseUser),
        valid_user u ->
        valid_user u' ->
        su_user_id u' = su_user_id u ->
        select_works 1 db ->
        let f1 := run users_db (ensureSupabaseUser (Some u)) w db in
        let f2 := run users_db (ensureSupabaseUser (Some u')) (world f1) (env f1) in
        (length (db_rows (env f2)) <= S (length (db_rows db)))%nat).
Proof.
  split; [|split; [|split]].
  - intros Hid. split; [|split].
    + apply (ensure_missing_user_id H w e (Some u)). right. by exists u.
    + apply (ensure_missing_user_id H w e None). by left.
    + apply (ensure_missing_user_id H w e (Some u)). right. by exists u.
  - intros Hid Hf. by apply ensure_missing_field.
  - intros Hu _. cbn zeta. split; [done|]. split; [done|]. split; [done|].
    pose proof (ensure_valid_run H w e u Hu) as [_ Hrun]. cbn zeta in Hrun.
    destruct (on_call H (SupabaseSelectUser _) _) as [[r|x] e2]; cbn [fst snd] in *.
    + destruct (data r); [by destruct Hrun as (? & ? & _) |].
      destruct Hrun as (? & _ & ?). done.
    + done.
  - intros db u' Hu Hu' Hsame Hsel. by apply two_calls_insert_at_most_one.
Qed.

Lemma ensureSupabaseUser_contract_witness :
  result (run users_db (ensureSupabaseUser
                          (Some {| su_user_id := None; su_name := Some "Asha";
                                   su_email := None; su_phone := None; su_role := None |}))
              fresh_world empty_users_db)
  = Rejected (new_Error "user_id is required")
  /\ result (run users_db (ensureSupabaseUser
                             (Some {| su_user_id := Some "uid-1"; su_name := Some "Asha";
                                      su_email := None; su_phone := None;
                                      su_role := None |}))
                 fresh_world empty_users_db)
     = Rejected (new_Error "name, email, phone are required")
  /\ result (run users_db (ensureSupabaseUser (Some sample_supabase_user))
                 fresh_world empty_users_db)
     = Resolved {| ens_status := "inserted"; ens_user_id := "uid-1" |}
  /\ (length (db_rows (env
        (run users_db (ensureSupabaseUser (Some sample_supabase_renamed)) fresh_world
           (env (run users_db (ensureSupabaseUser (Some sample_supabase_user))
                     fresh_world empty_users_db))))) <= 1)%nat.
Proof.
  split; [|split; [|split]].
  - apply (ensureSupabaseUser_contract users_db fresh_world empty_users_db
             {| su_user_id := None; su_name := Some "Asha";
                su_email := None; su_phone := None; su_role := None |}).
    reflexivity.
  - apply (ensureSupabaseUser_contract users_db fresh_world empty_users_db
             {| su_user_id := Some "uid-1"; su_name := Some "Asha";
                su_email := None; su_phone := None; su_role := None |});
      [reflexivity | right; left; reflexivity].
  - destruct (ensureSupabaseUser_contract users_db fresh_world empty_users_db
                sample_supabase_user) as (_ & _ & Hvalid & _).
    assert (valid_user sample_supabase_user) as Hu by (repeat split).
    assert (ascii_user sample_supabase_user) as Ha by (repeat split).
    destruct (Hvalid Hu Ha) as (_ & _ & _ & Hrun). exact (proj2 Hrun).
  - destruct (ensureSupabaseUser_contract users_db fresh_world empty_users_db
                sample_supabase_user) as (_ & _ & _ & Htwice).
    apply (Htwice empty_users_db sample_supabase_renamed);
      [repeat split | repeat split | reflexivity | exact I].
Defined.

(** C10, as stated, fails.  When the existence query fails, an insert is
    issued for a user whose row is already in the table: the row is
    inserted again and the call returns ['inserted']; and two successive
    calls insert two rows when the query of the second one fails. *)
Lemma ensureSupabaseUser_inserts_again_when_query_fails :
  (has_row "uid-1" (db_rows users_db_select_down) = true
   /\ existsb is_insert_user
        (events (run users_db (ensureSupabaseUser (Some sample_supabase_user))
                     fresh_world users_db_select_down)) = true
   /\ result (run users_db (ensureSupabaseUser (Some sample_supabase_user))
                  fresh_world users_db_select_down)
      = Resolved {| ens_status := "inserted"; ens_user_id := "uid-1" |}
   /\ length (rows_of "uid-1"
                (env (run users_db (ensureSupabaseUser (Some sample_supabase_user))
                          fresh_world users_db_select_down))) = 2%nat)
  /\ length (rows_of "uid-1"
       (env (run users_db (ensureSupabaseUser (Some sample_supabase_user)) fresh_world
          (env (run users_db (ensureSupabaseUser (Some sample_supabase_user))
                    fresh_world users_db_second_select_down))))) = 2%nat.
Proof. repeat split; vm_compute; reflexivity. Qed.

(* ================================================================== *)
(** * Further properties of the panic provider *)
(* ================================================================== *)

(** ** activatePanic: who may send, and what is always restored *)

(** X1.  Without a Firebase user, with a user whose uid is empty, or
    without a user profile, [activatePanic] shows the destructive toast
    ['Authentication Required'] (5000 ms) and does nothing else: the state
    is left as it was, no service is called, and the call resolves. *)
Theorem activatePanic_requires_sign_in {E} (H : Handler E) ctx message stream w e :
  ctx_firebaseUser ctx = None
  \/ (exists fu, ctx_firebaseUser ctx = Some fu /\ uid fu = "")
  \/ ctx_userProfile ctx = None ->
  run H (activatePanic ctx message stream) w e
  = {| result := Resolved tt; world := w; env := e;
       events := [Did (Toast {| toast_title := "Authentication Required";
                                toast_description := "Please log in to send SOS alerts.";
                                toast_destructive := true;
                                toast_duration := Some 5000 |})] |}.
Proof.
  intros Hout. unfold activatePanic.
  assert (signed_in ctx = None) as ->; [|reflexivity].
  unfold signed_in. destruct Hout as [-> | [(fu & -> & Hu) | Hp]]; [done | |].
  - rewrite Hu. by destruct (ctx_userProfile ctx).
  - rewrite Hp. by destruct (ctx_firebaseUser ctx).
Qed.

Lemma activatePanic_requires_sign_in_witness :
  world (run (scripted services_up)
             (activatePanic {| ctx_firebaseUser := Some sample_user;
                               ctx_userProfile := None;
                               ctx_location := Some sample_location |}
                            (Some "help") (Some sample_stream)) fresh_world 0)
  = fresh_world.
Proof.
  rewrite (activatePanic_requires_sign_in (scripted services_up)
             {| ctx_firebaseUser := Some sample_user; ctx_userProfile := None;
                ctx_location := Some sample_location |}
             (Some "help") (Some sample_stream) fresh_world 0).
  - reflexivity.
  - right. right. reflexivity.
Defined.

Lemma untouched_refl w : untouched w w.
Proof. done. Qed.

Lemma untouched_trans w1 w2 w3 : untouched w1 w2 -> untouched w2 w3 -> untouched w1 w3.
Proof. intros [H1 H2] [H3 H4]. split; congruence. Qed.

Lemma untouched_cleared w : untouched w (cleared w).
Proof. unfold untouched, cleared. by destruct (panicButtonTimeout (window w)). Qed.

Lemma untouched_saveAlertLocally {E} (H : Handler E) userId d vd w e :
  untouched w (world (run H (saveAlertLocally userId d vd) w e)).
Proof.
  destruct (stored_alerts_read_dec w) as [[l Hl] | Hno].
  - destruct (run_saveAlertLocally H userId d vd w e l Hl)
      as (now & e1 & timestamp & e2 & logs & _ & _ & _ & ->). done.
  - destruct (run_saveAlertLocally_unreadable H userId d vd w e Hno) as [x ->]. done.
Qed.

Lemma untouched_sendPanicAlertToBackend {E} (H : Handler E) fu payload w e :
  untouched w (world (run H (sendPanicAlertToBackend fu payload) w e)).
Proof.
  destruct (run_sendPanicAlertToBackend H fu payload w e) as (_ & Hsend).
  lazy zeta in Hsend. destruct (is_development _).
  - destruct Hsend as [_ ->]. done.
  - by destruct Hsend as [-> _].
Qed.

(** X2.  [activatePanic] never rejects: whatever the services answer, the
    promise resolves.  For a signed-in user [isProcessing] is false when
    it returns (the [finally] block), and no path through it changes
    [hasActiveAlerts] or the state of the auth context. *)
Theorem activatePanic_settles {E} (H : Handler E) ctx message stream w e :
  let f := run H (activatePanic ctx message stream) w e in
  result f = Resolved tt
  /\ (signed_in ctx <> None -> isProcessing (panic (world f)) = false)
  /\ hasActiveAlerts (panic (world f)) = hasActiveAlerts (panic w)
  /\ auth (world f) = auth w.
Proof.
  intros f. destruct (signed_in ctx) as [[fu profile]|] eqn:Hin.
  2: { subst f. unfold activatePanic. rewrite Hin. done. }
  destruct (activatePanic_outcome H ctx message stream w e fu profile Hin) as [Hres Hout].
  lazy zeta in Hout. fold f in Hres, Hout. split; [exact Hres|].
  set (w1 := with_panic (put_isProcessing true) (cleared w)) in *.
  assert (untouched w w1) as H1.
  { destruct (untouched_cleared w) as [Ha Hb]. split; [exact Ha | exact Hb]. }
  assert (forall wk, untouched w wk ->
            world f = with_panic (put_isProcessing false) wk ->
            (Some (fu, profile) <> None -> isProcessing (panic (world f)) = false)
            /\ hasActiveAlerts (panic (world f)) = hasActiveAlerts (panic w)
            /\ auth (world f) = auth w) as Hend.
  { intros wk [Ha Hb] ->. done. }
  destruct (result (run H (acquireLocation ctx) w1 e)) as [currentLocation|x].
  2: { destruct Hout as [Hw _]. by apply (Hend w1). }
  destruct (result (run H (captureVideo stream (uid fu)) w1 _)) as [vd|x]; [|done].
  destruct currentLocation as [loc|].
  2: { destruct Hout as [Hw _]. by apply (Hend w1). }
  set (d := sos_data (uid fu) message (videoUrl vd) loc) in *.
  match type of Hout with
  | context [run H (if _ then _ else _) w1 ?e2] =>
      assert (untouched w1 (world (run H (if isLocalMode fu profile
                                          then saveAlertLocally (uid fu) d vd
                                          else saveAlertToFirestore (uid fu) message d vd
                                                 (Some loc)) w1 e2))) as H3
  end.
  { destruct (isLocalMode fu profile).
    - apply untouched_saveAlertLocally.
    - match goal with
      | |- context [run H (saveAlertToFirestore ?u ?m d vd ?l) w1 ?e2] =>
          destruct (run_saveAlertToFirestore H u m d vd l w1 e2) as [-> _]
      end. done. }
  set (s_save := run H (if isLocalMode fu profile then _ else _) w1 _) in *.
  destruct (result s_save) as [alertId|x].
  2: { destruct Hout as [Hw _]. apply (Hend (world s_save)); [|exact Hw].
       by apply (untouched_trans w w1). }
  pose proof (untouched_sendPanicAlertToBackend H fu
                {| bp_data := d; bp_alertId := alertId |} (world s_save) (env s_save)) as H4.
  set (s_send := run H (sendPanicAlertToBackend fu _) (world s_save) (env s_save)) in *.
  assert (untouched w (world s_send)) as H5.
  { apply (untouched_trans w w1); [done|]. by apply (untouched_trans w1 (world s_save)). }
  destruct (result s_send) as [[]|x].
  - destruct Hout as [Hw _]. apply (Hend (button_armed (world s_send))); [|exact Hw].
    destruct H5 as [Ha Hb]. done.
  - destruct Hout as [Hw _]. by apply (Hend (world s_send)).
Qed.

(** ** activatePanic without a location *)

Lemma run_activateFailed_events {E} (H : Handler E) fu profile error w e :
  exists e' evs,
    run H (activateFailed fu profile error) w e
    = {| result := Resolved tt; world := w; env := e';
         events := (evs ++ [Did (Toast (failure_toast error))])%list |}
    /\ forallb failure_log_event evs = true.
Proof.
  unfold activateFailed. destruct (isLocalMode fu profile); cbn [negb].
  - eexists e, [_]. split; reflexivity.
  - answer. answer.
    destruct o as [[]|x];
      first [ eexists _, [_; _; _]; split; reflexivity
            | eexists _, [_; _; _; _]; split; reflexivity ].
Qed.

Lemma failure_log_no_writes evs :
  forallb failure_log_event evs = true ->
  existsb is_video_call evs = false
  /\ existsb is_firestore_write evs = false
  /\ existsb is_alert_insert evs = false.
Proof.
  induction evs as [|ev evs IH]; [done|]. cbn [forallb existsb].
  intros [Hev Hevs]%andb_prop. destruct (IH Hevs) as (-> & -> & ->).
  destruct ev as [x|R c o|R q r]; [by destruct x | by destruct c | by destruct q].
Qed.

(** X3.  When the context has no location and [getCurrentLocation]
    rejects, the activation of a signed-in user stops there: no video is
    recorded or uploaded, no alert is written to Firestore or to Supabase,
    the local storage and [isActivated] are unchanged, no reset is
    pending, and the last thing shown is the failure toast built from the
    error. *)
Theorem activatePanic_location_rejected {E} (H : Handler E) ctx message stream w e
    fu profile x :
  signed_in ctx = Some (fu, profile) ->
  ctx_location ctx = None ->
  (on_call H GetCurrentLocation e).1 = Rejected x ->
  let f := run H (activatePanic ctx message stream) w e in
  existsb is_video_call (events f) = false
  /\ existsb is_firestore_write (events f) = false
  /\ existsb is_alert_insert (events f) = false
  /\ localStorage (window (world f)) = localStorage (window w)
  /\ isActivated (panic (world f)) = isActivated (panic w)
  /\ panicButtonTimeout (window (world f)) = None
  /\ last (events f) = Some (Did (Toast (failure_toast x))).
Proof.
  intros Hin Hloc Hrej f. subst f.
  rewrite (run_activatePanic H ctx message stream w e fu profile Hin).
  unfold activateBody. rewrite run_bind. unfold acquireLocation. rewrite Hloc.
  rewrite run_bind, run_toast. cbn [and_then result world env events].
  rewrite run_call. destruct (on_call H GetCurrentLocation e) as [o e1].
  cbn [fst snd] in Hrej. subst o. unfold after.
  cbn [fst snd and_then or_catch result world env events app].
  set (w1 := with_panic (put_isProcessing true) (cleared w)).
  destruct (run_activateFailed_events H fu profile x w1 e1) as (e2 & evs & -> & Hevs).
  unfold and_finally, finish, after. cbn [result world env events].
  rewrite run_setIsProcessing. cbn [result world env events app].
  destruct (failure_log_no_writes evs Hevs) as (Hv & Hf & Ha).
  rewrite !app_nil_r. cbn [existsb is_video_call is_firestore_write is_alert_insert orb].
  rewrite !existsb_app, Hv, Hf, Ha. cbn [existsb is_video_call is_firestore_write
    is_alert_insert orb].
  repeat (split; [reflexivity|]).
  subst w1. unfold cleared.
  split; [destruct (panicButtonTimeout (window w)); by world_simpl|].
  split; [destruct (panicButtonTimeout (window w)); by world_simpl|].
  split; [destruct (panicButtonTimeout (window w)) eqn:Hh; world_simpl; done|].
  change (?a :: ?b :: evs ++ [?t])%list with ((a :: b :: evs) ++ [t])%list.
  apply last_snoc.
Qed.

Lemma activatePanic_location_rejected_witness :
  let H := failing (fun R c => match c with GetCurrentLocation => true | _ => false end)
                   (scripted services_up) in
  let ctx := {| ctx_firebaseUser := Some sample_user;
                ctx_userProfile := Some sample_profile; ctx_location := None |} in
  let f := run H (activatePanic ctx (Some "help") (Some sample_stream)) fresh_world 0 in
  existsb is_video_call (events f) = false
  /\ existsb is_firestore_write (events f) = false.
Proof.
  destruct (activatePanic_location_rejected
              (failing (fun R c => match c with GetCurrentLocation => true | _ => false end)
                       (scripted services_up))
              {| ctx_firebaseUser := Some sample_user;
                 ctx_userProfile := Some sample_profile; ctx_location := None |}
              (Some "help") (Some sample_stream) fresh_world 0 sample_user sample_profile
              (new_Error "network request failed"))
    as (Hv & Hf & _).
  - reflexivity.
  - reflexivity.
  - reflexivity.
  - split; [exact Hv | exact Hf].
Defined.

(** ** sendPanicAlertToBackend *)

(** X4.  On a development host [sendPanicAlertToBackend] never contacts
    the backend: it asks for no token and sends no request, waits for its
    delay (whose timer is gone on return), shows the ['Development Mode']
    toast and resolves. *)
Theorem sendPanicAlertToBackend_development {E} (H : Handler E) fu payload w e :
  is_development (hostname (window w)) = true ->
  let f := run H (sendPanicAlertToBackend fu payload) w e in
  result f = Resolved tt
  /\ existsb is_backend_call (events f) = false
  /\ last (events f)
     = Some (Did (Toast {| toast_title := "Development Mode";
                           toast_description :=
                             "SOS alert saved to Firebase. In production, emergency services would be notified.";
                           toast_destructive := false;
                           toast_duration := Some 5000 |}))
  /\ timers (window (world f))
     = filter (fun t => timer_id t <> nextTimerId (window w)) (timers (window w)).
Proof.
  intros Hdev. lazy zeta.
  unfold sendPanicAlertToBackend, read_hostname, delay, setTimeout. expose.
  rewrite Hdev. answer. cbn.
  repeat (split; [reflexivity|]).
  rewrite decide_False; [done|]. intros Hne. by apply Hne.
Qed.

Lemma sendPanicAlertToBackend_development_witness :
  existsb is_backend_call
    (events (run (failing (@is_backend_fetch) (scripted services_up))
                 (sendPanicAlertToBackend sample_user
                    {| bp_data := sos_data "uid-1" None None sample_location;
                       bp_alertId := Some "alert-1" |})
                 fresh_dev_world 0)) = false.
Proof.
  apply (sendPanicAlertToBackend_development
           (failing (@is_backend_fetch) (scripted services_up)) sample_user
           {| bp_data := sos_data "uid-1" None None sample_location;
              bp_alertId := Some "alert-1" |} fresh_dev_world 0).
  reflexivity.
Defined.

(** X5.  On a production host, when the backend answers with a status that
    is not ok, [sendPanicAlertToBackend] rejects with ['Server Error:
    <status> - <detail>'], where the detail is the [message] of the JSON
    body (['undefined'] when the body has none) or ['Server returned an
    error'] when the body cannot be parsed; the error is written to the
    console and the state is unchanged. *)
Theorem sendPanicAlertToBackend_server_error {E} (H : Handler E) fu payload w e
    token response :
  is_development (hostname (window w)) = false ->
  hasGetIdToken fu = true ->
  let tok := on_call H (GetIdToken (uid fu)) e in
  let sent := on_call H (Fetch "/api/sos/alert" token payload) tok.2 in
  let body := on_call H (ResponseJson response) sent.2 in
  tok.1 = Resolved token ->
  sent.1 = Resolved response ->
  ok response = false ->
  let f := run H (sendPanicAlertToBackend fu payload) w e in
  let detail := match body.1 with
                | Resolved b => default "undefined" (json_message b)
                | Rejected _ => "Server returned an error"
                end in
  let message := "Server Error: " ++ pretty (status response) ++ " - " ++ detail in
  result f = Rejected (new_Error message)
  /\ world f = w
  /\ last (events f)
     = Some (Did (Console LogError "Backend SOS alert failed:" message)).
Proof.
  intros Hdev Htok. lazy zeta.
  unfold sendPanicAlertToBackend, read_hostname, getIdToken. expose.
  rewrite Hdev, Htok. expose.
  destruct (on_call H (GetIdToken (uid fu)) e) as [o1 e1]. cbn [fst snd].
  intros ->. expose.
  destruct (on_call H (Fetch "/api/sos/alert" token payload) e1) as [o2 e2]. cbn [fst snd].
  intros -> Hok. expose. rewrite Hok. cbn [negb]. expose.
  destruct (on_call H (ResponseJson response) e2) as [[b|x] e3]; cbn [fst snd]; expose;
    rewrite Hdev; cbn; done.
Qed.

Lemma sendPanicAlertToBackend_server_error_witness :
  let H := scripted
             {| sc_location := sc_location services_up;
                sc_record := sc_record services_up;
                sc_storage_upload := sc_storage_upload services_up;
                sc_public_url := sc_public_url services_up;
                sc_firebase_upload := sc_firebase_upload services_up;
                sc_create_alert := sc_create_alert services_up;
                sc_notification_log := sc_notification_log services_up;
                sc_insert_alert := sc_insert_alert services_up;
                sc_select_alerts := sc_select_alerts services_up;
                sc_select_user := sc_select_user services_up;
                sc_insert_user := sc_insert_user services_up;
                sc_sign_in := sc_sign_in services_up;
                sc_save_user := sc_save_user services_up;
                sc_id_token := sc_id_token services_up;
                sc_fetch := Resolved {| ok := false; status := 503 |};
                sc_response_json := Rejected (new_Error "Unexpected token");
                sc_post_form := sc_post_form services_up;
                sc_token_json := sc_token_json services_up;
                sc_digest := sc_digest services_up;
                sc_random := sc_random services_up;
                sc_jwt := sc_jwt services_up |} in
  result (run H (sendPanicAlertToBackend sample_user
                   {| bp_data := sos_data "uid-1" None None sample_location;
                      bp_alertId := Some "alert-1" |}) fresh_world 0)
  = Rejected (new_Error "Server Error: 503 - Server returned an error").
Proof.
  lazy zeta.
  match goal with
  | |- result (run ?H _ _ _) = _ =>
      apply (sendPanicAlertToBackend_server_error H sample_user
               {| bp_data := sos_data "uid-1" None None sample_location;
                  bp_alertId := Some "alert-1" |} fresh_world 0 "token"
               {| ok := false; status := 503 |})
  end; reflexivity.
Defined.

(** ** deactivatePanic and resetButtonState *)

Lemma cleared_idem w : cleared (with_panic (put_isActivated false) (cleared w))
                       = with_panic (put_isActivated false) (cleared w).
Proof.
  unfold cleared at 1.
  change (panicButtonTimeout (window (with_panic (put_isActivated false) (cleared w))))
    with (panicButtonTimeout (window (cleared w))).
  by rewrite cleared_handle.
Qed.

(** X6.  [deactivatePanic] and [resetButtonState] do the same thing: the
    pending reset timer, if any, is cancelled and its handle cleared,
    [isActivated] becomes false, no other timer and no other field of the
    panic state is touched, no toast is shown and no service is called.
    Doing it a second time changes nothing. *)
Theorem deactivatePanic_cancels_reset {E} (H : Handler E) w e :
  let f := run H deactivatePanic w e in
  run H resetButtonState w e = f
  /\ result f = Resolved tt /\ events f = []
  /\ isActivated (panic (world f)) = false
  /\ panicButtonTimeout (window (world f)) = None
  /\ (forall h, panicButtonTimeout (window w) = Some h ->
        timers (window (world f)) = filter (fun t => timer_id t <> h) (timers (window w)))
  /\ (panicButtonTimeout (window w) = None ->
        timers (window (world f)) = timers (window w))
  /\ hasActiveAlerts (panic (world f)) = hasActiveAlerts (panic w)
  /\ panicHistory (panic (world f)) = panicHistory (panic w)
  /\ isProcessing (panic (world f)) = isProcessing (panic w)
  /\ run H deactivatePanic (world f) (env f) = f.
Proof.
  lazy zeta. unfold resetButtonState, deactivatePanic.
  rewrite !clearPanicButtonTimeout_then. cbn [result world env events].
  rewrite cleared_idem. split; [done|]. split; [done|]. split; [done|]. split; [done|].
  split; [world_simpl; apply cleared_handle|].
  unfold cleared.
  split; [intros h ->; by world_simpl|].
  split; [intros ->; done|].
  destruct (panicButtonTimeout (window w)); by world_simpl.
Qed.

(** ** The automatic reset of the button *)

(** X7.  After an activation that completes, exactly one timer is pending,
    the button reset whose handle is in [window.panicButtonTimeout], and
    the button is activated; when that timer fires the button is
    deactivated and no timer is left, while the handle stays in
    [window.panicButtonTimeout]. *)
Theorem button_resets_after_success {E} (H : Handler E) ctx message stream w e :
  single_handle w ->
  let f := run H (activatePanic ctx message stream) w e in
  completed f ->
  exists h,
    panicButtonTimeout (window (world f)) = Some h
    /\ timers (window (world f)) = [reset_timer h]
    /\ isActivated (panic (world f)) = true
    /\ let g := run H (fireTimer h) (world f) (env f) in
       isActivated (panic (world g)) = false
       /\ timers (window (world g)) = []
       /\ panicButtonTimeout (window (world g)) = Some h
       /\ events g = [].
Proof.
  intros Hw f (_ & Hact & _ & (h & Hh & Hin) & _).
  pose proof (activatePanic_single_handle H ctx message stream w e Hw) as Hs. fold f in Hs.
  destruct Hs as [Hnil | (h' & Hh' & Ht)]; [by rewrite Hnil in Hin|].
  exists h'. split; [done|]. split; [done|]. split; [done|].
  unfold fireTimer. expose. rewrite Ht. cbn [List.find reset_timer timer_id].
  rewrite Pos.eqb_refl. cbn. rewrite Ht, Hh'. cbn.
  rewrite decide_False; [done|]. intros Hne. by apply Hne.
Qed.

Lemma button_resets_after_success_witness :
  let f := run (scripted services_up)
               (activatePanic sample_ctx (Some "help") None) fresh_world 0 in
  exists h,
    panicButtonTimeout (window (world f)) = Some h
    /\ timers (window (world f)) = [reset_timer h]
    /\ isActivated (panic (world f)) = true
    /\ let g := run (scripted services_up) (fireTimer h) (world f) (env f) in
       isActivated (panic (world g)) = false
       /\ timers (window (world g)) = []
       /\ panicButtonTimeout (window (world g)) = Some h
       /\ events g = [].
Proof.
  apply (button_resets_after_success (scripted services_up) sample_ctx (Some "help") None
           fresh_world 0).
  - left. reflexivity.
  - split; [reflexivity|]. split; [reflexivity|]. split; [reflexivity|]. split.
    + exists 1%positive. split; [reflexivity|]. left. reflexivity.
    + eexists (removelast (events (run (scripted services_up)
                 (activatePanic sample_ctx (Some "help") None) fresh_world 0))), false, false.
      vm_compute. reflexivity.
Defined.

(** ** Realtime UPDATE events *)

Lemma map_replace_unknown (updated : Alert) (l : list Alert) :
  Forall (fun a => alert_id a <> alert_id updated) l ->
  map (fun p => if String.eqb (alert_id p) (alert_id updated) then updated else p) l = l.
Proof.
  induction 1 as [|a l Ha _ IH]; [done|]. cbn. rewrite IH.
  destruct (String.eqb_spec (alert_id a) (alert_id updated)); done.
Qed.

(** X8.  A realtime UPDATE event replaces the alerts that carry the id of
    the row, in place, in [panicHistory] and in [realtimeAlerts] alike: each
    list keeps its length and the id at every position, the alerts with
    another id are untouched, and a replaced alert has the status of the row
    (['pending'] when the row has none) and its message.  An id that is not
    in a list leaves the list as it was. *)
Theorem onUpdate_replaces_in_place {E} (H : Handler E) w e row :
  let f := run H (onUpdate row) w e in
  let replaced (before after : list Alert) :=
    length after = length before
    /\ (forall i a,
          before !! i = Some a ->
          exists a',
            after !! i = Some a'
            /\ alert_id a' = alert_id a
            /\ (alert_id a <> row_id row -> a' = a)
            /\ (alert_id a = row_id row ->
                alert_status a' = Some (or_else (row_status row) "pending")
                /\ alert_message a' = row_message row))
    /\ (Forall (fun a => alert_id a <> row_id row) before -> after = before) in
  replaced (panicHistory (panic w)) (panicHistory (panic (world f)))
  /\ replaced (realtimeAlerts (panic w)) (realtimeAlerts (panic (world f))).
Proof.
  lazy zeta. unfold onUpdate. rewrite run_bind.
  assert (exists a e' evs,
            run H (normalize row) w e
            = {| result := Resolved a; world := w; env := e'; events := evs |}
            /\ alert_id a = row_id row
            /\ alert_status a = Some (or_else (row_status row) "pending")
            /\ alert_message a = row_message row) as (u & e1 & ev1 & -> & Hid & Hst & Hmsg).
  { unfold normalize. destruct (row_created_at row) as [t|]; cbn.
    - eexists _, _, _. split; [reflexivity|]. done.
    - destruct (on_ask H DateNow e) as [t e']. cbn.
      eexists _, _, _. split; [reflexivity|]. done. }
  cbn. rewrite !length_map, <- Hid.
  assert (forall l : list Alert,
            forall i a,
              l !! i = Some a ->
              exists a',
                map (fun p => if String.eqb (alert_id p) (alert_id u) then u else p) l !! i
                = Some a'
                /\ alert_id a' = alert_id a
                /\ (alert_id a <> alert_id u -> a' = a)
                /\ (alert_id a = alert_id u ->
                    alert_status a' = Some (or_else (row_status row) "pending")
                    /\ alert_message a' = row_message row)) as Hpos.
  { intros l i a Hi. rewrite list_lookup_fmap, Hi. cbn. eexists. split; [reflexivity|].
    destruct (String.eqb_spec (alert_id a) (alert_id u)) as [Heq|Hne]; done. }
  split; (split; [done|]); (split; [apply Hpos | apply map_replace_unknown]).
Qed.

(** ** clearHistory *)

(** X9.  For a user with a uid, [clearHistory] empties both lists before
    it writes the log entry, so they are empty also when the log fails;
    the flag [hasActiveAlerts] and the window are left as they were.  The
    call resolves, and its last toast is ['Local History Cleared'] when
    the log entry was written and the destructive ['Clear Failed'] when it
    was not. *)
Theorem clearHistory_clears_before_logging {E} (H : Handler E) ctx w e fu :
  ctx_firebaseUser ctx = Some fu ->
  uid fu <> "" ->
  let f := run H (clearHistory ctx) w e in
  let now := (on_ask H DateNow e).1 in
  let logged := (on_call H (CreateNotificationLog
                              {| nl_reportId := "history_clear_" ++ pretty now;
                                 nl_userId := uid fu;
                                 nl_type := "history_cleared";
                                 nl_message := "User cleared SOS alert history from local view";
                                 nl_metadata := MetaNone |}) (on_ask H DateNow e).2).1 in
  result f = Resolved tt
  /\ panicHistory (panic (world f)) = []
  /\ realtimeAlerts (panic (world f)) = []
  /\ hasActiveAlerts (panic (world f)) = hasActiveAlerts (panic w)
  /\ window (world f) = window w
  /\ exists t,
       last (events f) = Some (Did (Toast t))
       /\ toast_destructive t = negb (is_resolved logged)
       /\ toast_title t = if is_resolved logged then "Local History Cleared"
                          else "Clear Failed".
Proof.
  intros Hfu Hu. lazy zeta. unfold clearHistory. rewrite Hfu.
  destruct (String.eqb_spec (uid fu) "") as [Heq|_]; [done|].
  unfold setPanicHistory, setRealtimeAlerts. expose.
  destruct (on_ask H DateNow e) as [now e1]. cbn [fst snd]. expose.
  destruct (on_call H (CreateNotificationLog _) e1) as [[[]|x] e2]; cbn;
    repeat (split; [reflexivity|]); eexists; done.
Qed.

Lemma clearHistory_clears_before_logging_witness :
  let f := run (failing (fun R c => match c with CreateNotificationLog _ => true
                                              | _ => false end)
                        (scripted services_up))
               (clearHistory sample_ctx) one_pending_world 0 in
  panicHistory (panic (world f)) = []
  /\ hasActiveAlerts (panic (world f)) = true.
Proof.
  destruct (clearHistory_clears_before_logging
              (failing (fun R c => match c with CreateNotificationLog _ => true
                                            | _ => false end)
                       (scripted services_up))
              sample_ctx one_pending_world 0 sample_user)
    as (_ & Hh & _ & Hflag & _).
  - reflexivity.
  - discriminate.
  - split; [exact Hh | exact Hflag].
Defined.

(** ** Local alerts: saved, then loaded *)

(** X10.  Round trip of a local-mode alert: after [activatePanic] of a
    local-mode user whose location is known, loading the alerts of that
    user yields the new record in front of the alerts stored before, in
    both lists; the record carries the uid and no status, so
    [hasActiveAlerts] is true exactly when one of the older alerts is
    pending or active. *)
Theorem local_alert_saved_then_loaded {E} (H : Handler E) ctx message stream w e
    fu profile l loc :
  signed_in ctx = Some (fu, profile) ->
  isLocalMode fu profile = true ->
  local_alerts_are l w ->
  location_found H ctx e loc ->
  let f := run H (activatePanic ctx message stream) w e in
  let g := run H (loadAlerts ctx true) (world f) (env f) in
  exists record,
    panicHistory (panic (world g)) = record :: l
    /\ realtimeAlerts (panic (world g)) = record :: l
    /\ alert_userId record = Some (uid fu)
    /\ alert_status record = None
    /\ (hasActiveAlerts (panic (world g)) = true <-> exists a, In a l /\ active_status a).
Proof.
  intros Hin Hmode Hl Hloc f g.
  destruct (local_mode_saves H ctx message stream w e fu profile l loc Hin Hmode
              (or_introl Hl) Hloc)
    as (vd & now & timestamp & _ & _ & Hstore & _).
  fold f in Hstore.
  set (record := local_record (sos_data (uid fu) message (videoUrl vd) loc) now timestamp)
    in *.
  subst g. unfold loadAlerts. rewrite Hin, Hmode.
  destruct (loadLocalAlerts_consistent H (world f) (env f) (record :: l)) as (Hh & Hr & Hc).
  { by left. }
  lazy zeta in Hh, Hr, Hc. exists record. split; [exact Hh|]. split; [exact Hr|].
  split; [done|]. split; [done|].
  destruct Hc as [Hflag _]. unfold flag_agrees in Hflag. rewrite Hh in Hflag.
  rewrite Hflag. split.
  - intros (a & [<-|Ha] & Hact); [|eauto]. destruct Hact as [Hs|Hs]; discriminate Hs.
  - intros (a & Ha & Hact). exists a. split; [by right|done].
Qed.

Lemma local_alert_saved_then_loaded_witness :
  let f := run (scripted services_up)
               (activatePanic sample_local_ctx (Some "help") None) fresh_world 0 in
  let g := run (scripted services_up) (loadAlerts sample_local_ctx true)
               (world f) (env f) in
  exists record,
    panicHistory (panic (world g)) = record :: []
    /\ realtimeAlerts (panic (world g)) = record :: []
    /\ alert_userId record = Some "local_1700000000000"
    /\ alert_status record = None
    /\ (hasActiveAlerts (panic (world g)) = true
        <-> exists a, In a [] /\ active_status a).
Proof.
  apply (local_alert_saved_then_loaded (scripted services_up) sample_local_ctx (Some "help")
           None fresh_world 0 sample_local_user sample_local_profile [] sample_location).
  - reflexivity.
  - reflexivity.
  - right. split; reflexivity.
  - left. reflexivity.
Defined.

(** ** The mock user of local mode on a production host *)

Lemma run_sendPanicAlertToBackend_mock_user {E} (H : Handler E) fu payload w e :
  is_development (hostname (window w)) = false ->
  hasGetIdToken fu = false ->
  run H (sendPanicAlertToBackend fu payload) w e
  = {| result := Rejected (TypeError "firebaseUser.getIdToken is not a function");
       world := w; env := e;
       events := [Did (Console LogError "Backend SOS alert failed:"
                         "firebaseUser.getIdToken is not a function")] |}.
Proof.
  intros Hdev Htok. unfold sendPanicAlertToBackend, read_hostname, getIdToken. expose.
  rewrite Hdev, Htok. expose. rewrite Hdev. reflexivity.
Qed.

(** X11.  A local-mode user without [getIdToken] (the mock user of the
    fallback login) on a production host, the location of the activation
    being known and the stored list readable: the alert is stored locally
    and added to the history, then [sendPanicAlertToBackend] throws the
    TypeError ['firebaseUser.getIdToken is not a function'], so the
    activation ends with the failure toast and the button not activated;
    [window.panicButtonTimeout] is null and no timer was armed: the timers
    pending are those of before, but for the reset cleared at entry. *)
Theorem mock_user_activation_reports_failure {E} (H : Handler E) ctx message stream w e
    fu profile l loc :
  signed_in ctx = Some (fu, profile) ->
  isLocalMode fu profile = true ->
  hasGetIdToken fu = false ->
  is_development (hostname (window w)) = false ->
  stored_alerts_read l w ->
  location_found H ctx e loc ->
  let f := run H (activatePanic ctx message stream) w e in
  (exists record,
      localStorage (window (world f)) !! "local_sos_alerts"
      = Some (StoredAlerts (record :: l))
      /\ panicHistory (panic (world f)) = record :: l)
  /\ isActivated (panic (world f)) = isActivated (panic w)
  /\ panicButtonTimeout (window (world f)) = None
  /\ timers (window (world f)) = timers (window (cleared w))
  /\ In (Did (Console LogError "Backend SOS alert failed:"
                      "firebaseUser.getIdToken is not a function")) (events f)
  /\ last (events f)
     = Some (Did (Toast (failure_toast
                           (TypeError "firebaseUser.getIdToken is not a function")))).
Proof.
  intros Hin Hmode Htok Hdev Hl Hloc f.
  destruct (local_mode_saves H ctx message stream w e fu profile l loc Hin Hmode Hl Hloc)
    as (vd & now & timestamp & Hvd & _ & Hstore & Hhist & _).
  lazy zeta in Hvd. fold f in Hstore, Hhist.
  split; [eauto|].
  destruct (activatePanic_outcome H ctx message stream w e fu profile Hin) as [_ Hout].
  lazy zeta in Hout. fold f in Hout.
  set (w1 := with_panic (put_isProcessing true) (cleared w)) in *.
  pose proof (location_found_result H ctx w1 e loc Hloc) as Hr.
  destruct (run_acquireLocation H ctx w1 e) as (_ & _ & Hev1). lazy zeta in Hev1.
  set (s_loc := run H (acquireLocation ctx) w1 e) in *.
  rewrite Hr, Hvd, Hmode in Hout.
  set (d := sos_data (uid fu) message (videoUrl vd) loc) in *.
  apply stored_alerts_read_cleared in Hl. fold w1 in Hl.
  match type of Hout with
  | context [run H (saveAlertLocally (uid fu) d vd) w1 ?e2] =>
      destruct (run_saveAlertLocally H (uid fu) d vd w1 e2 l Hl)
        as (now' & e3 & timestamp' & e4 & logs & _ & _ & Hlogs & Hsave)
  end.
  rewrite Hsave in Hout. cbn [result world env events] in Hout.
  rewrite run_sendPanicAlertToBackend_mock_user in Hout.
  2: { unfold stored_locally, w1, cleared.
       destruct (panicButtonTimeout (window w)); world_simpl; exact Hdev. }
  2: exact Htok.
  cbn [result world env events] in Hout.
  destruct Hout as [Hw (logs' & Hev & Hlogs')]. rewrite Hw, Hev.
  split.
  { unfold stored_locally, w1, cleared.
    destruct (panicButtonTimeout (window w)); by world_simpl. }
  split.
  { unfold stored_locally, w1. world_simpl. apply cleared_handle. }
  split.
  { unfold stored_locally, w1. by world_simpl. }
  split; [|by rewrite !app_assoc, last_snoc].
  rewrite !in_app_iff. cbn [In]. auto 10.
Qed.

Lemma mock_user_activation_reports_failure_witness :
  let f := run (scripted services_up)
               (activatePanic sample_local_ctx (Some "help") None) fresh_world 0 in
  isActivated (panic (world f)) = false
  /\ last (events f)
     = Some (Did (Toast (failure_toast
                           (TypeError "firebaseUser.getIdToken is not a function")))).
Proof.
  destruct (mock_user_activation_reports_failure (scripted services_up) sample_local_ctx
              (Some "help") None fresh_world 0 sample_local_user sample_local_profile []
              sample_location) as (_ & Hact & _ & _ & _ & Hlast).
  - reflexivity.
  - reflexivity.
  - reflexivity.
  - reflexivity.
  - left. right. split; reflexivity.
  - left. reflexivity.
  - split; [exact Hact | exact Hlast].
Defined.


(* ================================================================== *)
(** * Further properties of login *)
(* ================================================================== *)

(** ** login: input that fails a check *)

(** X12.  [login] with input made of ASCII characters that fails a check
    rejects with one of the three validation messages, before any service
    or the clock is used: the error is written to the console and shown in
    the ['Login Failed'] toast, [loading] is false on return, and the user,
    the profile, [isAuthenticated] and the window are unchanged. *)
Theorem login_rejects_invalid_input {E} (H : Handler E) input w e :
  ascii_login input ->
  ~ valid_login input ->
  let f := run H (login input) w e in
  exists msg,
    In msg login_messages
    /\ result f = Rejected (new_Error msg)
    /\ events f = [Did (Console LogError "Login error:" msg);
                   Did (Toast (login_failed_toast (new_Error msg)))]
    /\ env f = e
    /\ loading (auth (world f)) = false
    /\ user (auth (world f)) = user (auth w)
    /\ userProfile (auth (world f)) = userProfile (auth w)
    /\ isAuthenticated (auth (world f)) = isAuthenticated (auth w)
    /\ window (world f) = window w.
Proof.
  intros _ Hinvalid. lazy zeta. unfold login, loginBody, validateLogin, valid_login in *.
  destruct (truthy (in_name input)) eqn:Hn; cbn [negb orb].
  2: { eexists. split; [left; reflexivity|]. cbn. done. }
  destruct (truthy (in_email input)) eqn:He; cbn [negb orb].
  2: { eexists. split; [left; reflexivity|]. cbn. done. }
  destruct (truthy (in_phone input)) eqn:Hp; cbn [negb orb].
  2: { eexists. split; [left; reflexivity|]. cbn. done. }
  destruct (emailRegex_test (default "" (in_email input))) eqn:Hemail; cbn [negb].
  2: { eexists. split; [right; left; reflexivity|]. cbn. done. }
  destruct (phoneRegex_test (strip_phone_punctuation (default "" (in_phone input))))
    eqn:Hphone; cbn [negb].
  2: { eexists. split; [right; right; left; reflexivity|]. cbn. done. }
  destruct Hinvalid. done.
Qed.

Lemma login_rejects_invalid_input_witness :
  exists msg,
    In msg login_messages
    /\ result (run (scripted services_up)
                   (login {| in_name := Some "Asha"; in_email := Some "asha@example";
                             in_phone := Some "+919876543210" |}) fresh_world 0)
       = Rejected (new_Error msg).
Proof.
  destruct (login_rejects_invalid_input (scripted services_up)
              {| in_name := Some "Asha"; in_email := Some "asha@example";
                 in_phone := Some "+919876543210" |} fresh_world 0)
    as (msg & Hin & Hres & _).
  - repeat split; reflexivity.
  - intros (_ & _ & _ & Hemail & _). vm_compute in Hemail. discriminate Hemail.
  - exists msg. split; [exact Hin | exact Hres].
Defined.

(** ** The email check *)

Lemma email_char_facts s :
  string_forallb is_email_char s = true ->
  count_char "@" s = O /\ string_forallb (fun c => negb (is_space c)) s = true.
Proof.
  induction s as [|c s IH]; [done|]. cbn [string_forallb count_char].
  intros [Hc Hs]%andb_prop. destruct (IH Hs) as [-> ->].
  unfold is_email_char in Hc. apply andb_prop in Hc as [Hsp Hat].
  rewrite Hsp. apply negb_true_iff in Hat. by rewrite Hat.
Qed.

Lemma split_at_sign_spec s l r :
  split_at_sign s = Some (l, r) ->
  s = l ++ String "@" r /\ count_char "@" l = O.
Proof.
  revert l. induction s as [|c s IH]; intros l; [done|]. cbn [split_at_sign].
  destruct (Ascii.eqb_spec c "@") as [->|Hne].
  - intros [= <- <-]. done.
  - destruct (split_at_sign s) as [[l' r']|]; [|done]. intros [= <- <-].
    destruct (IH l' eq_refl) as [-> Hl]. cbn [count_char]. split; [done|].
    rewrite Hl. by destruct (Ascii.eqb_spec c "@").
Qed.

Lemma count_char_app c a b : count_char c (a ++ b) = (count_char c a + count_char c b)%nat.
Proof. induction a as [|x a IH]; [done|]. simpl. rewrite IH. lia. Qed.

Lemma string_forallb_app f a b :
  string_forallb f (a ++ b) = string_forallb f a && string_forallb f b.
Proof. induction a as [|x a IH]; [done|]. simpl. rewrite IH. by rewrite andb_assoc. Qed.

(** X13.  An email accepted by the check of [login] contains exactly one
    ['@'] and no white space, a non-empty part before the ['@'], and after
    it a part of at least three characters that contains a dot. *)
Theorem emailRegex_accepts_one_at_sign s :
  emailRegex_test s = true ->
  count_char "@" s = 1%nat
  /\ string_forallb (fun c => negb (is_space c)) s = true
  /\ exists name domain,
       s = name ++ String "@" domain
       /\ name <> ""
       /\ (3 <= String.length domain)%nat
       /\ count_char "." domain <> O.
Proof.
  unfold emailRegex_test. destruct (split_at_sign s) as [[l r]|] eqn:Hsplit; [|done].
  intros [[Hl Hlc]%andb_prop Hr]%andb_prop.
  unfold matches_domain in Hr. apply andb_prop in Hr as [Hrc Hdot].
  destruct (split_at_sign_spec s l r Hsplit) as [-> _].
  destruct (email_char_facts l Hlc) as [Hl0 Hls].
  destruct (email_char_facts r Hrc) as [Hr0 Hrs].
  split; [|split].
  - rewrite count_char_app. cbn [count_char]. rewrite Hl0, Hr0. reflexivity.
  - rewrite string_forallb_app. cbn [string_forallb]. by rewrite Hls, Hrs.
  - exists l, r. split; [done|]. split.
    { intros ->. done. }
    clear -Hdot. split.
    + destruct r as [|a [|b [|c r]]]; [done|done|done|]. simpl String.length. lia.
    + induction r as [|a r IH]; [done|].
      destruct r as [|b [|c r]]; [done|done|].
      change (has_inner_dot (String a (String b (String c r))))
        with (Ascii.eqb b "." || has_inner_dot (String b (String c r))) in Hdot.
      cbn [count_char].
      destruct (Ascii.eqb b ".") eqn:Hb; [destruct (Ascii.eqb a "."); cbn; lia|].
      cbn [orb] in Hdot. specialize (IH Hdot). cbn [count_char] in IH. rewrite Hb in IH.
      destruct (Ascii.eqb a "."); cbn in *; lia.
Qed.

Lemma emailRegex_accepts_one_at_sign_witness :
  count_char "@" "asha@example.org" = 1%nat.
Proof. apply (emailRegex_accepts_one_at_sign "asha@example.org"). reflexivity. Defined.

(** ** From the fallback login to local-mode alerts *)

Lemma login_fallback_auth {E} (H : Handler E) input w e t1 e1 t2 e2 t3 e3 x e4 now e5 :
  valid_login input ->
  on_ask H DateNow e = (t1, e1) ->
  on_ask H DateNow e1 = (t2, e2) ->
  on_ask H DateNow e2 = (t3, e3) ->
  on_call H SignInAnonymously e3 = (Rejected x, e4) ->
  on_ask H DateNow e4 = (now, e5) ->
  let f := run H (login input) w e in
  let profile := local_profile (processed_profile input t1 t2 t3) now in
  result f = Resolved profile
  /\ user (auth (world f))
     = Some {| uid := "local_" ++ pretty now; isAnonymous := true; hasGetIdToken := false |}
  /\ userProfile (auth (world f)) = Some profile
  /\ isAuthenticated (auth (world f)) = true.
Proof.
  intros Hvalid H1 H2 H3 Hsign Hnow f profile.
  pose proof (run_login_valid H input w e t1 e1 t2 e2 t3 e3 Hvalid H1 H2 H3 _ eq_refl)
    as Hf.
  fold f in Hf. clearbody f.
  set (p := processed_profile input t1 t2 t3) in *.
  pose proof (run_signInOrFallback H p (with_auth (put_loading true) w) e3) as Hs.
  lazy zeta in Hs. rewrite Hsign in Hs. cbn [fst snd] in Hs. rewrite Hnow in Hs.
  cbn [fst snd] in Hs. rewrite Hs in Hf. cbn [and_then result world env events] in Hf.
  rewrite run_bind in Hf.
  match type of Hf with
  | context [and_then (run H ?blk ?w0 e5) _] =>
      let v := eval cbn in (run H blk w0 e5) in
      change (run H blk w0 e5) with v in Hf
  end.
  unfold then_event in Hf. cbn [and_then result world env events] in Hf.
  rewrite run_bind in Hf.
  match type of Hf with
  | context [run H (try_catch (ensureSupabaseUser ?u ≫= _) _) ?w5 e5] =>
      destruct (run_first_login_sync H u "[Supabase] Final first-login sync failed:"
                  w5 e5) as (e6 & evs & Hsync)
  end.
  rewrite Hsync in Hf.
  cbn [and_then result world env events run] in Hf.
  unfold and_finally, finish, after, or_catch in Hf. cbn in Hf.
  rewrite Hf. cbn. done.
Qed.

Lemma startsWith_append p s : startsWith (p ++ s) p = true.
Proof.
  unfold startsWith. induction p as [|c p IH]; [by destruct s|]. simpl.
  destruct (ascii_dec c c); [exact IH | congruence].
Qed.

(** X14.  When the anonymous sign-in fails, [login] with valid input made
    of ASCII characters still resolves, with a local profile; the user it
    leaves in the auth state is signed in for the panic provider, is in
    local mode, has no [getIdToken], and its uid is the id of the profile,
    whose email is the input's, trimmed and in lower case. *)
Theorem fallback_login_gives_local_mode {E} (H : Handler E) input w e location :
  ascii_login input ->
  valid_login input ->
  let c1 := on_ask H DateNow e in
  let c2 := on_ask H DateNow c1.2 in
  let c3 := on_ask H DateNow c2.2 in
  is_resolved (on_call H SignInAnonymously c3.2).1 = false ->
  let f := run H (login input) w e in
  exists fu profile,
    result f = Resolved profile
    /\ signed_in (ctx_of_auth (auth (world f)) location) = Some (fu, profile)
    /\ isLocalMode fu profile = true
    /\ hasGetIdToken fu = false
    /\ uid fu = user_id profile
    /\ user_email profile = trim (toLowerCase (default "" (in_email input))).
Proof.
  intros _ Hvalid c1 c2 c3 Hrej f. subst c1 c2 c3.
  destruct (on_ask H DateNow e) as [t1 e1] eqn:H1. cbn [fst snd] in Hrej.
  destruct (on_ask H DateNow e1) as [t2 e2] eqn:H2. cbn [fst snd] in Hrej.
  destruct (on_ask H DateNow e2) as [t3 e3] eqn:H3. cbn [fst snd] in Hrej.
  destruct (on_call H SignInAnonymously e3) as [[userId|x] e4] eqn:Hsign; [done|].
  destruct (on_ask H DateNow e4) as [now e5] eqn:Hnow.
  destruct (login_fallback_auth H input w e t1 e1 t2 e2 t3 e3 x e4 now e5
              Hvalid H1 H2 H3 Hsign Hnow) as (Hres & Huser & Hprofile & _).
  fold f in Hres, Huser, Hprofile.
  eexists _, _. split; [exact Hres|].
  unfold ctx_of_auth, signed_in. cbn [ctx_firebaseUser ctx_userProfile].
  rewrite Huser, Hprofile. cbn [uid].
  split; [reflexivity|]. split; [|done].
  unfold isLocalMode. cbn [uid]. by rewrite startsWith_append, orb_true_r.
Qed.

Lemma fallback_login_gives_local_mode_witness :
  let f := run (failing (@is_sign_in) (scripted services_up)) (login sample_login)
               fresh_world 0 in
  exists fu profile,
    result f = Resolved profile
    /\ signed_in (ctx_of_auth (auth (world f)) None) = Some (fu, profile)
    /\ isLocalMode fu profile = true
    /\ hasGetIdToken fu = false
    /\ uid fu = user_id profile
    /\ user_email profile = trim (toLowerCase (default "" (in_email sample_login))).
Proof.
  apply (fallback_login_gives_local_mode (failing (@is_sign_in) (scripted services_up))
           sample_login fresh_world 0 None).
  - repeat split; reflexivity.
  - repeat split; reflexivity.
  - reflexivity.
Defined.


(* ================================================================== *)
(** * Further properties of the Google sign-in *)
(* ================================================================== *)

(** ** The callback page, whatever the services answer *)

(** X15.  The callback page never rejects and always ends with a
    navigation: to ['/login'] with the state unchanged, or to ['/welcome']
    after the token endpoint answered ok to a request that carried the
    verifier kept in the session storage, with the Google user stored
    under ['google_user']. *)
Theorem authCallback_settles {E} (H : Handler E) w e :
  let f := run H authCallback w e in
  result f = Resolved tt
  /\ ((last (events f) = Some (Did (Navigate "/login")) /\ world f = w)
      \/ (last (events f) = Some (Did (Navigate "/welcome"))
          /\ exists g body,
               world f = with_window
                           (map_localStorage (insert "google_user" (StoredGoogleUser g))) w
               /\ In (Called (PostForm "https://oauth2.googleapis.com/token" body)
                             (Resolved true)) (events f)
               /\ params_get body "code_verifier"
                  = sessionStorage (window w) !! "google_code_verifier")).
Proof.
  lazy zeta. unfold authCallback, read_search, sessionStorage_getItem, read_origin,
    localStorage_setItem.
  expose.
  destruct (truthy (params_get (search (window w)) "error")); expose.
  { cbn. split; [done|]. by left. }
  destruct (truthy (params_get (search (window w)) "code")) eqn:Hcode; cbn [negb]; expose.
  2: { cbn. split; [done|]. by left. }
  destruct (sessionStorage (window w) !! "google_code_verifier") as [verifier|] eqn:Hver.
  2: { cbn. split; [done|]. by left. }
  destruct (truthy (Some verifier)) eqn:Hv; cbn [negb]; expose.
  2: { cbn. split; [done|]. by left. }
  answer. destruct o as [tokenRes_ok|x]; expose.
  2: { cbn. split; [done|]. by left. }
  answer. destruct o as [tokenJson|x]; expose.
  2: { cbn. split; [done|]. by left. }
  destruct tokenRes_ok; cbn [negb]; expose.
  2: { cbn. split; [done|]. by left. }
  answer. cbn. split; [done|]. right. split; [done|].
  eexists _, _. split; [reflexivity|]. split; [left; reflexivity|]. reflexivity.
Qed.

(** ** The callback page when the provider refused, or sent no code *)

(** X16.  When the callback URL carries an [error] parameter, or carries
    no [code], the callback page calls no service, leaves the state
    unchanged and navigates to ['/login']. *)
Theorem authCallback_refused {E} (H : Handler E) w e :
  truthy (params_get (search (window w)) "error") = true
  \/ truthy (params_get (search (window w)) "code") = false ->
  let f := run H authCallback w e in
  filter is_call (events f) = []
  /\ world f = w /\ env f = e
  /\ last (events f) = Some (Did (Navigate "/login")).
Proof.
  intros Hc. lazy zeta. unfold authCallback, read_search. expose.
  destruct (truthy (params_get (search (window w)) "error")) eqn:Herr; expose; [done|].
  destruct Hc as [Hc|Hc]; [congruence|]. rewrite Hc. done.
Qed.

Lemma authCallback_refused_witness :
  filter is_call
    (events (run (scripted services_up) authCallback
                 (returned_with [("error", "access_denied"); ("code", "4/0AX")] fresh_world)
                 0)) = [].
Proof.
  apply (authCallback_refused (scripted services_up)
           (returned_with [("error", "access_denied"); ("code", "4/0AX")] fresh_world) 0).
  left. reflexivity.
Defined.

(** ** startAuth when the digest fails *)

(** X17.  When the SHA-256 digest rejects, [startAuth] stores no verifier
    (the state is unchanged), does not leave the page, and ends with the
    alert ['Failed to start Google sign-in. See console for details.'];
    the call resolves. *)
Theorem startAuth_digest_fails {E} (H : Handler E) w e x :
  let random := on_ask H (GetRandomValues 28) e in
  (on_call H (SubtleDigest "SHA-256" (encode_text (verifier_of random.1))) random.2).1
  = Rejected x ->
  let f := run H startAuth w e in
  result f = Resolved tt
  /\ world f = w
  /\ existsb is_navigation (events f) = false
  /\ last (events f)
     = Some (Did (WindowAlert "Failed to start Google sign-in. See console for details.")).
Proof.
  lazy zeta. unfold startAuth, generateCodeVerifier, sha256. expose.
  destruct (on_ask H (GetRandomValues 28) e) as [vals e1]. cbn [fst snd].
  fold (verifier_of vals). expose.
  destruct (on_call H (SubtleDigest "SHA-256" (encode_text (verifier_of vals))) e1)
    as [o e2]. cbn [fst snd]. intros ->. done.
Qed.

Lemma startAuth_digest_fails_witness :
  let H := failing (fun R c => match c with SubtleDigest _ _ => true | _ => false end)
                   (scripted services_up) in
  world (run H startAuth fresh_world 0) = fresh_world.
Proof.
  apply (startAuth_digest_fails
           (failing (fun R c => match c with SubtleDigest _ _ => true | _ => false end)
                    (scripted services_up)) fresh_world 0
           (new_Error "network request failed")).
  reflexivity.
Defined.

(** ** The code verifier *)

Lemma hex_digits_lower : forallb hex_is_lower (map Z.of_nat (seq 0 16)) = true.
Proof. vm_compute. reflexivity. Qed.

Lemma hex_digit_lower n : 0 <= n < 16 -> is_lower_hex (hex_digit n) = true.
Proof.
  intros Hn. pose proof hex_digits_lower as Hall. rewrite forallb_forall in Hall.
  apply (Hall n). apply in_map_iff. exists (Z.to_nat n). split; [lia|]. apply in_seq. lia.
Qed.

Lemma append_cons x (a b : string) : String x a ++ b = String x (a ++ b).
Proof. reflexivity. Qed.

Lemma append_assoc (a b c : string) : (a ++ b) ++ c = a ++ (b ++ c).
Proof. induction a as [|x a IH]; [done|]. by rewrite !append_cons, IH. Qed.

Lemma length_append (a b : string) :
  String.length (a ++ b) = (String.length a + String.length b)%nat.
Proof. induction a as [|x a IH]; [done|]. rewrite append_cons. cbn. by rewrite IH. Qed.

Lemma toString16_S fuel n :
  toString16 (S fuel) n
  = if n <? 16 then String (hex_digit n) ""
    else toString16 fuel (n / 16) ++ String (hex_digit (n mod 16)) "".
Proof. reflexivity. Qed.

Lemma toString16_last fuel n :
  0 <= n ->
  exists pre, toString16 (S fuel) n = pre ++ String (hex_digit (n mod 16)) "".
Proof.
  intros Hn. rewrite toString16_S. destruct (Z.ltb_spec n 16).
  - exists "". by rewrite Z.mod_small by lia.
  - eexists. reflexivity.
Qed.

Lemma substr_last2_end s a b :
  substr_last2 (s ++ String a (String b "")) = String a (String b "").
Proof.
  induction s as [|x s IH]; [done|].
  change (String x s ++ String a (String b "")) with (String x (s ++ String a (String b ""))).
  destruct s as [|y s']; [done|].
  change (String y s' ++ String a (String b ""))
    with (String y (s' ++ String a (String b ""))) in *.
  destruct (s' ++ String a (String b "")) eqn:Hs.
  - by destruct s'.
  - exact IH.
Qed.

Lemma last_two_hex_digits fuel n :
  0 <= n ->
  substr_last2 ("0" ++ toString16 (S (S fuel)) n) = low_byte_hex n.
Proof.
  intros Hn. unfold low_byte_hex. rewrite toString16_S. destruct (Z.ltb_spec n 16).
  - rewrite Z.div_small, Z.mod_small by lia. rewrite Z.mod_small by lia. reflexivity.
  - destruct (toString16_last fuel (n / 16)) as [pre ->]; [apply Z.div_pos; lia|].
    rewrite append_assoc.
    change ("0" ++ pre ++ ?t) with (("0" ++ pre) ++ t).
    apply substr_last2_end.
Qed.

Lemma concat_pairs_length (l : list string) :
  Forall (fun s => String.length s = 2%nat) l ->
  String.length (String.concat "" l) = (2 * length l)%nat.
Proof.
  induction 1 as [|s l Hs _ IH]; [done|].
  destruct l as [|s' l']; [cbn; lia|].
  change (String.concat "" (s :: s' :: l')) with (s ++ "" ++ String.concat "" (s' :: l')).
  rewrite length_append. change ("" ++ ?t) with t. rewrite IH, Hs. cbn [length]. lia.
Qed.

Lemma concat_forallb f (l : list string) :
  Forall (fun s => string_forallb f s = true) l ->
  string_forallb f (String.concat "" l) = true.
Proof.
  induction 1 as [|s l Hs _ IH]; [done|].
  destruct l as [|s' l']; [done|].
  change (String.concat "" (s :: s' :: l')) with (s ++ "" ++ String.concat "" (s' :: l')).
  rewrite string_forallb_app. change ("" ++ ?t) with t. by rewrite Hs, IH.
Qed.

Lemma low_digit_mod k v : 0 < k -> (v mod (16 * k)) mod 16 = v mod 16.
Proof. intros Hk. apply Z.mod_mod_divide. by exists k; lia. Qed.

Lemma high_digit_mod k v : 0 < k -> ((v mod (16 * (16 * k))) / 16) mod 16 = (v / 16) mod 16.
Proof.
  intros Hk. rewrite Z.rem_mul_r by lia.
  rewrite Z.add_comm, Z.mul_comm, Z.div_add_l by lia.
  rewrite (Z.div_small (v mod 16) 16) by (apply Z.mod_pos_bound; lia).
  rewrite Z.add_0_r. apply low_digit_mod. exact Hk.
Qed.

Lemma low_byte_hex_mod k v : 0 < k -> low_byte_hex (v mod (16 * (16 * k))) = low_byte_hex v.
Proof.
  intros Hk. unfold low_byte_hex. rewrite high_digit_mod by done.
  by rewrite (low_digit_mod (16 * k)) by lia.
Qed.

Lemma verifier_of_low_bytes vals :
  verifier_of vals
  = String.concat "" (map low_byte_hex (take 28 (vals ++ repeat 0 28))).
Proof.
  unfold verifier_of, uint32_array. f_equal. rewrite map_map.
  apply map_ext. intros v.
  rewrite (last_two_hex_digits 6 (v mod 4294967296)) by (apply Z.mod_pos_bound; lia).
  apply (low_byte_hex_mod 16777216). lia.
Qed.

(** X18.  [generateCodeVerifier] returns 56 characters, all of them lower-
    case hexadecimal digits, and the result depends only on the low byte
    of each of the 28 values drawn; the state is unchanged.  (56
    characters is within the 43..128 that PKCE asks for.) *)
Theorem generateCodeVerifier_shape {E} (H : Handler E) w e :
  let vals := (on_ask H (GetRandomValues 28) e).1 in
  let f := run H generateCodeVerifier w e in
  result f = Resolved (verifier_of vals)
  /\ world f = w
  /\ String.length (verifier_of vals) = 56%nat
  /\ string_forallb is_lower_hex (verifier_of vals) = true
  /\ verifier_of vals = verifier_of (map (fun v => v mod 256) vals).
Proof.
  lazy zeta. unfold generateCodeVerifier. expose.
  destruct (on_ask H (GetRandomValues 28) e) as [vals e1]. cbn [fst snd then_event result world].
  fold (verifier_of vals). split; [done|]. split; [done|].
  rewrite !verifier_of_low_bytes.
  assert (length (take 28 (vals ++ repeat 0 28)) = 28%nat) as Hlen.
  { rewrite length_take, length_app, repeat_length. lia. }
  split; [|split].
  - rewrite concat_pairs_length, length_map, Hlen; [done|].
    apply Forall_map, Forall_forall. done.
  - apply concat_forallb, Forall_map, Forall_forall. intros v _. unfold low_byte_hex.
    cbn [string_forallb].
    rewrite !hex_digit_lower by (apply Z.mod_pos_bound; lia). done.
  - f_equal.
    replace (map (fun v => v mod 256) vals ++ repeat 0 28)%list
      with (map (fun v => v mod 256) (vals ++ repeat 0 28)%list).
    2: { rewrite map_app. reflexivity. }
    generalize (vals ++ repeat 0 28)%list. generalize 28%nat. clear.
    intros n l. revert n. induction l as [|v l IH]; intros [|n]; [done..|].
    cbn [map take]. rewrite <- IH. f_equal. symmetry. apply (low_byte_hex_mod 1). lia.
Qed.

(** ** base64url *)

Lemma digits_safe : forallb digit_is_safe (map Z.of_nat (seq 0 64)) = true.
Proof. vm_compute. reflexivity. Qed.

Lemma digit_safe n : 0 <= n < 64 -> is_base64url_char (b64url_char n) = true.
Proof.
  intros Hn. pose proof digits_safe as Hall. rewrite forallb_forall in Hall.
  apply (Hall n). apply in_map_iff. exists (Z.to_nat n). split; [lia|]. apply in_seq. lia.
Qed.

Lemma quotient_range a k m : 0 <= a < k * m -> 0 < k -> 0 <= a / k < m.
Proof.
  intros Ha Hk. split; [apply Z.div_pos; lia|]. apply Z.div_lt_upper_bound; lia.
Qed.

Lemma base64url_unpadded_shape (fuel : nat) (str : string) :
  (String.length str <= fuel)%nat ->
  string_forallb is_base64url_char (base64url_unpadded str) = true
  /\ String.length (base64url_unpadded str) = ((4 * String.length str + 2) / 3)%nat.
Proof.
  revert str. induction fuel as [fuel IH] using lt_wf_ind. intros str Hlen.
  destruct str as [|a [|b [|c rest]]]; [done| | |].
  - pose proof (code_range a). pose proof (Z.mod_pos_bound (code a) 4).
    cbn [base64url_unpadded string_forallb String.length].
    rewrite !digit_safe by (try apply quotient_range; lia). done.
  - pose proof (code_range a). pose proof (code_range b).
    pose proof (Z.mod_pos_bound (code a) 4). pose proof (Z.mod_pos_bound (code b) 16).
    pose proof (quotient_range (code b) 16 16).
    cbn [base64url_unpadded string_forallb String.length].
    rewrite !digit_safe by (try apply quotient_range; lia). done.
  - pose proof (code_range a). pose proof (code_range b). pose proof (code_range c).
    pose proof (Z.mod_pos_bound (code a) 4). pose proof (Z.mod_pos_bound (code b) 16).
    pose proof (Z.mod_pos_bound (code c) 64).
    pose proof (quotient_range (code b) 16 16). pose proof (quotient_range (code c) 64 4).
    cbn [String.length] in Hlen.
    destruct (IH (String.length rest)) with (str := rest) as [Hsafe Hl]; [lia|lia|].
    cbn [base64url_unpadded string_forallb String.length].
    rewrite !digit_safe by (try apply quotient_range; lia). rewrite Hsafe, Hl.
    split; [done|].
    replace (4 * S (S (S (String.length rest))) + 2)%nat
      with (4 * String.length rest + 2 + 4 * 3)%nat by lia.
    rewrite Nat.div_add by lia. lia.
Qed.

Lemma binary_string_length bytes : String.length (binary_string bytes) = length bytes.
Proof.
  unfold binary_string, string_of_list_byte.
  induction bytes as [|b bytes IH]; [done|].
  cbn [List.map string_of_list_ascii String.length length]. by rewrite IH.
Qed.

(** X19.  The result of [base64UrlEncode] contains only letters, digits,
    ['-'] and ['_'] (no ['+'], ['/'] or padding), and has (4n+2)/3
    characters, rounded down, for n bytes: 43 characters for a SHA-256
    digest. *)
Theorem base64UrlEncode_is_url_safe bytes :
  string_forallb is_base64url_char (base64UrlEncode bytes) = true
  /\ String.length (base64UrlEncode bytes) = ((4 * length bytes + 2) / 3)%nat
  /\ (length bytes = 32%nat -> String.length (base64UrlEncode bytes) = 43%nat).
Proof.
  rewrite base64UrlEncode_spec.
  destruct (base64url_unpadded_shape _ (binary_string bytes) (le_n _)) as [Hsafe Hl].
  rewrite binary_string_length in Hl. split; [exact Hsafe|]. split; [exact Hl|].
  intros H32. rewrite Hl, H32. reflexivity.
Qed.


(* ================================================================== *)
(** * Further properties of the video capture *)
(* ================================================================== *)

(** ** uploadStreamToSupabase *)

(** X20.  [uploadStreamToSupabase] on a stream: when the recording
    rejects, nothing is uploaded and the rejection is passed on; otherwise
    there is exactly one upload, to the bucket of the options
    (['first_bucket'] by default) under ['sos-
    videos/<userId>_<Date.now()>.mp4'].  When the upload rejects or
    returns an error the public URL is not asked for and that error is
    thrown; otherwise the public URL is asked once, for the same bucket
    and file name, and the result holds it together with the data of the
    upload, unless that call fails, and then its error is thrown. *)
Theorem uploadStreamToSupabase_outcome {E} (H : Handler E) s userId options w e :
  let bucket := or_else (opt_bucket options) "first_bucket" in
  let recorded := on_call H (RecordStreamToBlob s (duration_or_default
                                                     (opt_durationMs options))) e in
  let f := run H (uploadStreamToSupabase (Some s) userId options) w e in
  match recorded.1 with
  | Rejected x =>
      result f = Rejected x
      /\ existsb is_storage_upload (events f) = false
      /\ existsb is_public_url_call (events f) = false
  | Resolved blob =>
      let clock := on_ask H DateNow recorded.2 in
      let fileName := "sos-videos/" ++ userId ++ "_" ++ pretty clock.1 ++ ".mp4" in
      let uploaded := on_call H (StorageUpload bucket fileName blob) clock.2 in
      List.filter is_storage_upload (events f)
      = [Called (StorageUpload bucket fileName blob) uploaded.1]
      /\ match uploaded.1 with
         | Rejected x =>
             result f = Rejected x /\ existsb is_public_url_call (events f) = false
         | Resolved up =>
             match error up with
             | Some uploadError =>
                 result f = Rejected uploadError
                 /\ existsb is_public_url_call (events f) = false
             | None =>
                 let published := on_call H (StorageGetPublicUrl bucket fileName)
                                          uploaded.2 in
                 List.filter is_public_url_call (events f)
                 = [Called (StorageGetPublicUrl bucket fileName) published.1]
                 /\ match published.1 with
                    | Rejected x => result f = Rejected x
                    | Resolved pub =>
                        match error pub with
                        | Some publicUrlError => result f = Rejected publicUrlError
                        | None =>
                            result f
                            = Resolved {| supa_videoUrl := public_url_of (data pub);
                                          supa_raw := data up |}
                        end
                    end
             end
         end
  end.
Proof.
  lazy zeta. unfold uploadStreamToSupabase. expose.
  destruct (on_call H (RecordStreamToBlob s _) e) as [[blob|x] e1]; cbn [fst snd]; expose;
    [|done].
  destruct (blob_size blob <? 1000); expose.
  all: destruct (on_ask H DateNow e1) as [now e2]; cbn [fst snd]; expose.
  all: destruct (on_call H (StorageUpload _ _ blob) e2) as [[up|x] e3]; cbn [fst snd];
    expose; [|cbn; done].
  all: destruct (error up) as [uerr|]; expose; [cbn; done|].
  all: destruct (on_call H (StorageGetPublicUrl _ _) e3) as [[pub|x] e4]; cbn [fst snd];
    expose; [|cbn; done].
  all: destruct (error pub); cbn; done.
Qed.

(** ** The recorder: the type chosen *)

(** X21.  The type that [recordStreamToBlob] gives to the recorder is the
    first one that [MediaRecorder.isTypeSupported] accepts among
    ['video/webm;codecs=vp8,opus'], ['video/webm;codecs=vp8'],
    ['video/webm'] and ['video/mp4'], in this order, and ['video/mp4']
    when none is accepted. *)
Theorem choose_mimeType_first_supported m :
  choose_mimeType m
  = default "video/mp4" (List.find (isTypeSupported m) mimeType_candidates).
Proof.
  unfold choose_mimeType, mimeType_candidates. cbv zeta. cbn [List.find].
  destruct (isTypeSupported m "video/webm;codecs=vp8,opus") eqn:H1; cbn [negb].
  { by rewrite ?H1; cbn [negb]; rewrite ?H1. }
  destruct (isTypeSupported m "video/webm;codecs=vp8") eqn:H2; cbn [negb].
  { by rewrite ?H2; cbn [negb]; rewrite ?H2. }
  destruct (isTypeSupported m "video/webm") eqn:H3; cbn [negb].
  { done. }
  by destruct (isTypeSupported m "video/mp4").
Qed.

(** ** The recorder: streams that cannot be recorded *)

(** X22.  A stream without a video track, or whose first video track is
    not live, is rejected by the current [recordStreamToBlob] before a
    recorder exists: nothing records, no timer is ever armed, [stop] is
    never called, and whatever events follow, the promise stays rejected
    with ['No video tracks available in stream'] or ['Video track not
    live, state: <state>']. *)
Theorem recordStreamToBlob_refuses_stream m now stream durationMs evs :
  ~ recordable stream ->
  let r0 := recordStreamToBlob m now stream durationMs in
  let r := deliver handle evs r0 in
  rec_state r0 = Inactive
  /\ rec_timersArmed r = 0%nat
  /\ rec_stopCalledAt r = None
  /\ exists x,
       rec_promise r = Failed x
       /\ (err_message x = "No video tracks available in stream"
           \/ exists state, err_message x = "Video track not live, state: " ++ state).
Proof.
  intros Hbad r0 r.
  assert (exists x, r0 = rejected_at_setup now "" x
                    /\ (err_message x = "No video tracks available in stream"
                        \/ exists state,
                             err_message x = "Video track not live, state: " ++ state))
    as (x & Hr0 & Hx).
  { subst r0. unfold recordStreamToBlob.
    destruct (videoTracks stream) as [|videoTrack rest] eqn:Htracks.
    - eexists. split; [reflexivity|]. by left.
    - destruct (String.eqb_spec (readyState videoTrack) "live") as [Hlive|Hdead].
      + destruct Hbad. by exists videoTrack, rest.
      + cbn [negb]. eexists. split; [reflexivity|]. right. by eexists. }
  subst r. change handle with (handler_of CurrentVersion).
  destruct (deliver_keeps CurrentVersion evs r0) as (-> & _ & _).
  destruct (deliver_never_stopped CurrentVersion evs r0) as [_ ->]; [by rewrite Hr0..|].
  rewrite deliver_settled by (by rewrite Hr0). rewrite Hr0.
  split; [done|]. split; [done|]. split; [done|]. exists x. by split.
Qed.

Lemma recordStreamToBlob_refuses_stream_witness :
  rec_timersArmed
    (deliver handle [OnStart; TimeoutFires; OnStop]
       (recordStreamToBlob every_type_supported 1000
          {| audioTracks := []; videoTracks := [ {| readyState := "ended" |} ] |} None))
  = 0%nat.
Proof.
  apply (recordStreamToBlob_refuses_stream every_type_supported 1000
           {| audioTracks := []; videoTracks := [ {| readyState := "ended" |} ] |} None
           [OnStart; TimeoutFires; OnStop]).
  intros (videoTrack & rest & Htracks & Hlive). cbn in Htracks.
  injection Htracks as <- <-. discriminate Hlive.
Defined.

(** ** The recorder: what the stop event settles *)

(** X23.  When the recorder stops by itself, before its timer is due, the
    [onstop] handler cancels the timer (so that [stop] is never called)
    and settles the promise: the current version rejects with ['Video
    recording produced empty blob'] when the chunks received hold no byte,
    and otherwise fulfils with a blob of the chosen type made of the bytes
    received; the first version always fulfils, with a ['video/mp4'] blob
    of all the chunks received. *)
Theorem recording_settles_at_stop v pre now mime dur :
  forallb while_recording pre = true ->
  let r := deliver (handler_of v) (pre ++ [OnStop]) (armed now mime dur) in
  rec_timeout r = None
  /\ rec_stopCalledAt r = None
  /\ match v with
     | CurrentVersion =>
         if blob_size (new_Blob (received pre) mime) =? 0
         then rec_promise r = Failed (new_Error "Video recording produced empty blob")
         else exists b,
                rec_promise r = Fulfilled b
                /\ blob_bytes b = concat (map blob_bytes (received pre))
                /\ blob_type b = mime
     | FirstVersion =>
         rec_promise r = Fulfilled (new_Blob (received pre) "video/mp4")
     end.
Proof.
  intros Hpre r. subst r. rewrite deliver_snoc.
  destruct (still_recording v pre now mime dur Hpre) as (Hst & Ht & Hp & Hs).
  destruct (deliver_keeps v pre (armed now mime dur)) as (_ & _ & Hty).
  pose proof (pending_chunks v pre (armed now mime dur) Hp) as [_ Hbytes].
  cbn [armed rec_chunks map concat app rec_mimeType] in Hbytes, Hty.
  pose proof (chunks_first_version pre (armed now mime dur)
                (before_due_not_settling 0 pre (while_recording_before_due 0 pre Hpre)))
    as Hv1.
  cbn [armed rec_chunks app] in Hv1.
  set (r' := deliver (handler_of v) pre (armed now mime dur)) in *.
  destruct v; cbn [handler_of handle handle_v1 drop_timeout set_state rec_timeout
                   rec_stopCalledAt rec_chunks rec_mimeType] in *.
  - unfold blob_size, new_Blob. cbn [blob_bytes]. rewrite Hbytes, Hty.
    destruct (_ =? 0); unfold settle_promise; cbn; rewrite Hp, ?Hs; [done|].
    split; [done|]. split; [done|]. eexists. split; [reflexivity|]. done.
  - unfold settle_promise; cbn. rewrite Hp, Hs. subst r'. by rewrite Hv1.
Qed.

Lemma recording_settles_at_stop_witness :
  rec_promise (deliver handle ([OnStart; OnDataAvailable (new_Blob [] "video/webm")]
                               ++ [OnStop])
                 (armed 1000 "video/webm" 15000))
  = Failed (new_Error "Video recording produced empty blob").
Proof.
  destruct (recording_settles_at_stop CurrentVersion
              [OnStart; OnDataAvailable (new_Blob [] "video/webm")] 1000 "video/webm" 15000)
    as (_ & _ & Hpromise).
  - reflexivity.
  - exact Hpromise.
Defined.

(** ** The recorder: errors *)

(** X24.  An error event during the recording rejects the promise (with
    ['MediaRecorder error: <error>'] in the current version, with the
    event itself in the first one) and cancels the timer: whatever events
    follow, [stop] is never called, and the promise stays rejected. *)
Theorem recorder_error_cancels_timer v pre err post now mime dur :
  forallb while_recording pre = true ->
  let r := deliver (handler_of v) (pre ++ OnError err :: post) (armed now mime dur) in
  rec_promise r
  = Failed (match v with
            | CurrentVersion => new_Error ("MediaRecorder error: " ++ err)
            | FirstVersion => mkError "Event" err
            end)
  /\ rec_timeout r = None
  /\ rec_stopCalledAt r = None.
Proof.
  intros Hpre r. subst r.
  change (OnError err :: post) with ([OnError err] ++ post)%list.
  rewrite !deliver_app.
  destruct (still_recording v pre now mime dur Hpre) as (Hst & Ht & Hp & Hs).
  set (r' := deliver (handler_of v) pre (armed now mime dur)) in *.
  set (r1 := deliver (handler_of v) [OnError err] r').
  assert (rec_promise r1
          = Failed (match v with
                    | CurrentVersion => new_Error ("MediaRecorder error: " ++ err)
                    | FirstVersion => mkError "Event" err
                    end)
          /\ rec_timeout r1 = None /\ rec_stopCalledAt r1 = None) as (H1 & H2 & H3).
  { subst r1. destruct v; cbn; rewrite Hp, Hs; done. }
  destruct (deliver_never_stopped v post r1 H2 H3) as [-> ->].
  rewrite deliver_settled by (by rewrite H1). done.
Qed.

Lemma recorder_error_cancels_timer_witness :
  rec_stopCalledAt
    (deliver handle ([OnStart] ++ OnError "NotReadableError" :: [TimeoutFires; OnStop])
       (armed 1000 "video/webm" 15000)) = None.
Proof.
  apply (recorder_error_cancels_timer CurrentVersion [OnStart] "NotReadableError"
           [TimeoutFires; OnStop] 1000 "video/webm" 15000).
  reflexivity.
Defined.


(* ================================================================== *)
(** * The routes of the application *)
(* ================================================================== *)

(** ** The routes *)

(** X25.  Following the redirections of the routes from any entry, at most
    two of them, always ends on a screen: the loading screen only while
    the auth state is loading; one of the four protected pages only when
    loading is over and the user is authenticated; the login page only
    when loading is over and the user is not authenticated. *)
Theorem routes_guard (r : Route) (a : AuthState) :
  match settle_route 2 r a with
  | NavigateTo _ => False
  | LoadingScreen => loading a = true
  | Shows p =>
      (is_protected p = true -> loading a = false /\ isAuthenticated a = true)
      /\ (p = LoginPage -> loading a = false /\ isAuthenticated a = false)
  end.
Proof.
  destruct r, (loading a) eqn:Hl, (isAuthenticated a) eqn:Ha;
    cbn; unfold ProtectedRoute, PublicRoute; rewrite ?Hl, ?Ha; cbn;
    unfold ProtectedRoute, PublicRoute; rewrite ?Hl, ?Ha; cbn;
    unfold ProtectedRoute, PublicRoute; rewrite ?Hl, ?Ha;
    try done; split; intros; done.
Qed.

